(** * Coexistence-for-Dis_evo: the rename utility and the plate-map pipelines

    A shallow embedding of
      - [Barcode_Counter/Rename.py]            (module [Rename]),
      - [DataAnalysis/Strain_competition.py]   (module [StrainCompetition]),
      - [DataAnalysis/.ipynb_checkpoints/Analyze_12well_plates-checkpoint.py]
                                               (module [TwelveWell]),
    followed by the properties of the specification that concern them.

    Conventions of the embedding.
      - Python [str] values are Rocq strings of 8-bit characters; the
        character classes of [re] and [str] are the ASCII ones.
      - pandas numbers (counts and the frequencies computed from them) are
        exact rationals [Q]; a sum is the exact sum and a division the exact
        quotient: the rounding of [float64] and the wrap-around of [int64]
        are outside the model.
      - [print] appends a line to an explicit output list; an uncaught
        Python exception is the [Raise] result.
      - The operating system is an interface ([Rename.FileSystem]) with one
        executable instance ([Rename.TreeFS]).
      - Writing a file ([plt.savefig], [DataFrame.to_csv]) is an interface
        ([Frames.Output]): a write raises when its path cannot be written,
        as the 12-well script's [savefig] does when there is no [Images]
        directory.
      - In [Strain_competition.py] the first two statements of
        [_load_plate_map] are indented one level too little, and the
        interpreter rejects the file as committed ([IndentationError]). The
        function is embedded with the body its remaining lines give it:
        what is stated of [StrainCompetition] is stated of the script with
        those two statements indented, and the 12-well script is the one
        that runs as committed. *)

From Stdlib Require Import ZArith QArith String Ascii List DecimalString DecimalPos Sorted Lia Lqa.
From stdpp Require Import base option list gmap strings.

Open Scope string_scope.
Open Scope list_scope.

(** ** Python built-ins used by the scripts *)

Module Py.

(** The outcome of a Python call: a value or an uncaught exception. *)
Inductive result (A : Type) : Type :=
| Ok (a : A)
| Raise (exn : string).
Arguments Ok {A} a.
Arguments Raise {A} exn.

Definition bind {A B} (m : result A) (f : A -> result B) : result B :=
  match m with
  | Ok a => f a
  | Raise e => Raise e
  end.

Definition is_digit (c : ascii) : bool :=
  let n := N_of_ascii c in ((48 <=? n) && (n <=? 57))%N.

(** [str.isspace] on one ASCII character: TAB, LF, VT, FF, CR, FS, GS, RS,
    US and the space. *)
Definition is_space (c : ascii) : bool :=
  let n := N_of_ascii c in
  (((9 <=? n) && (n <=? 13)) || ((28 <=? n) && (n <=? 31)) || (n =? 32))%N.

Definition digit_val (c : ascii) : N := (N_of_ascii c - 48)%N.

Fixpoint lstrip (s : string) : string :=
  match s with
  | String c s' => if is_space c then lstrip s' else s
  | EmptyString => EmptyString
  end.

Fixpoint rstrip (s : string) : string :=
  match s with
  | EmptyString => EmptyString
  | String c s' =>
      match rstrip s' with
      | EmptyString => if is_space c then EmptyString else String c EmptyString
      | t => String c t
      end
  end.

(** [s.strip()] *)
Definition strip (s : string) : string := rstrip (lstrip s).

(** [s.split(sep)] for a one-character separator. *)
Fixpoint split (sep : ascii) (s : string) : list string :=
  match s with
  | EmptyString => [EmptyString]
  | String c s' =>
      if Ascii.eqb c sep then EmptyString :: split sep s'
      else match split sep s' with
           | f :: fs => String c f :: fs
           | [] => [String c EmptyString]
           end
  end.

(** [s.replace(c, '')] for a one-character [c]. *)
Fixpoint remove_char (c : ascii) (s : string) : string :=
  match s with
  | EmptyString => EmptyString
  | String d s' =>
      if Ascii.eqb d c then remove_char c s' else String d (remove_char c s')
  end.

Fixpoint repeat_char (c : ascii) (n : nat) : string :=
  match n with
  | O => EmptyString
  | S n' => String c (repeat_char c n')
  end.

(** [s.zfill(width)]: zeros go after a leading sign. *)
Definition zfill (width : nat) (s : string) : string :=
  let pad := repeat_char "0"%char (width - String.length s) in
  match s with
  | String c s' =>
      if Ascii.eqb c "+"%char || Ascii.eqb c "-"%char
      then String c (pad +:+ s')
      else pad +:+ s
  | EmptyString => pad
  end.

(** The digits of an [int] literal: [digit (["_"] digit)*]. *)
Fixpoint int_digits (s : string) (acc : N) (after_digit : bool) : option N :=
  match s with
  | EmptyString => if after_digit then Some acc else None
  | String c s' =>
      if is_digit c then int_digits s' (10 * acc + digit_val c)%N true
      else if Ascii.eqb c "_"%char && after_digit then int_digits s' acc false
      else None
  end.

(** [int(s)] for a string [s]; [None] stands for [ValueError]. *)
Definition int (s : string) : option Z :=
  match strip s with
  | String "-"%char t => (fun n => (- Z.of_N n)%Z) <$> int_digits t 0%N false
  | String "+"%char t => Z.of_N <$> int_digits t 0%N false
  | t => Z.of_N <$> int_digits t 0%N false
  end.

(** [str(n)] for an integer. *)
Definition str_Z (z : Z) : string := NilZero.string_of_int (Z.to_int z).
Definition str_nat (n : nat) : string := str_Z (Z.of_nat n).

(** [s.endswith(suffix)] *)
Definition endswith (suffix s : string) : bool :=
  let n := String.length s - String.length suffix in
  (String.length suffix <=? String.length s)%nat
  && String.eqb (String.substring n (String.length suffix) s) suffix.

(** Lexicographic order of two strings by character code. *)
Definition str_le (a b : string) : bool := String.leb a b.
Definition str_lt (a b : string) : bool := String.ltb a b.

End Py.

#[global] Instance result_ret : MRet Py.result := @Py.Ok.
#[global] Instance result_bind : MBind Py.result := fun A B f m => Py.bind m f.

(** ** The fragment of [re] the scripts use

    Literals, character classes, greedy [+] over a class, groups and
    concatenation, matched the way [re.match] does: anchored at the start,
    not at the end, greedy with backtracking. *)

Module Re.

Inductive regex : Type :=
| Str (s : string)
| Cls (p : ascii -> bool)
| Plus (p : ascii -> bool)
| Grp (r : regex)
| Seq (r1 r2 : regex).

(** Continuations receive the rest of the input and the groups closed so
    far, and decide whether the whole match succeeds. *)
Definition cont : Type := string -> list string -> option (list string).

Fixpoint lit (l s : string) : option string :=
  match l, s with
  | EmptyString, _ => Some s
  | String a l', String b s' => if Ascii.eqb a b then lit l' s' else None
  | String _ _, EmptyString => None
  end.

(** Zero or more characters of the class, longest first. *)
Fixpoint star (p : ascii -> bool) (s : string) (k : string -> option (list string))
  : option (list string) :=
  match s with
  | String c s' =>
      if p c then
        match star p s' k with
        | Some r => Some r
        | None => k s
        end
      else k s
  | EmptyString => k s
  end.

Definition consumed (s rest : string) : string :=
  String.substring 0 (String.length s - String.length rest) s.

Fixpoint run (r : regex) (s : string) (gs : list string) (k : cont)
  : option (list string) :=
  match r with
  | Str l =>
      match lit l s with
      | Some rest => k rest gs
      | None => None
      end
  | Cls p =>
      match s with
      | String c s' => if p c then k s' gs else None
      | EmptyString => None
      end
  | Plus p =>
      match s with
      | String c s' => if p c then star p s' (fun rest => k rest gs) else None
      | EmptyString => None
      end
  | Grp r' => run r' s gs (fun rest gs' => k rest (gs' ++ [consumed s rest]))
  | Seq r1 r2 => run r1 s gs (fun rest gs' => run r2 rest gs' k)
  end.

(** [re.match(r, s)]: the groups of the match, or [None]. *)
Definition py_match (r : regex) (s : string) : option (list string) :=
  run r s [] (fun _ gs => Some gs).

Definition one_of (cs : string) (c : ascii) : bool :=
  existsb (Ascii.eqb c) (list_ascii_of_string cs).
Definition none_of (cs : string) (c : ascii) : bool := negb (one_of cs c).
Definition in_range (lo hi : ascii) (c : ascii) : bool :=
  ((N_of_ascii lo <=? N_of_ascii c) && (N_of_ascii c <=? N_of_ascii hi))%N.

(** [m.group(i)] for [i >= 1]. *)
Definition group (m : list string) (i : nat) : string := nth (i - 1) m "".

(** Every character of [s] is in the class. *)
Fixpoint all_of (p : ascii -> bool) (s : string) : bool :=
  match s with
  | EmptyString => true
  | String c s' => p c && all_of p s'
  end.

(** A run of the class cannot go on into [s]. *)
Definition stops (p : ascii -> bool) (s : string) : bool :=
  match s with
  | EmptyString => true
  | String c _ => negb (p c)
  end.

(** Concatenation of a non-empty sequence of parts. *)
Fixpoint cat (r : regex) (rs : list regex) : regex :=
  match rs with
  | [] => r
  | r' :: rs' => Seq r (cat r' rs')
  end.

End Re.


(** ** Barcode_Counter/Rename.py *)

Module Rename.
Import Py Re.

(** *** Paths

    A [pathlib.Path] is the list of its components; an absolute path
    starts with the component ["/"]. *)

Abbreviation Path := (list string) (only parsing).

Definition starts_with_slash (s : string) : bool :=
  match s with
  | String "/"%char _ => true
  | _ => false
  end.

Definition nontrivial_part (c : string) : bool :=
  negb (String.eqb c "") && negb (String.eqb c ".").

(** [Path(s)]: empty components and single dots are dropped. *)
Definition Path_of (s : string) : Path :=
  (if starts_with_slash s then ["/"] else [])
    ++ List.filter nontrivial_part (split "/" s).

(** [p.name] *)
Definition name (p : Path) : string := List.last p "".

(** [p / n] for a name [n] without separators. *)
Definition joinpath (p : Path) (n : string) : Path := p ++ [n].

Fixpoint join_parts (p : Path) : string :=
  match p with
  | [] => ""
  | [c] => c
  | c :: p' => c +:+ "/" +:+ join_parts p'
  end.

(** [str(p)] *)
Definition str_path (p : Path) : string :=
  match p with
  | [] => "."
  | "/" :: p' => "/" +:+ join_parts p'
  | _ => join_parts p
  end.

(** *** The operating system

    Each operation that can fail returns the file system it leaves behind
    and the message of the exception it raised, if any. [scandir] gives
    the names in a directory in the order the system lists them (no names
    when the path is not a directory). *)

Class FileSystem (OS : Type) : Type := {
  path_exists : OS -> Path -> bool;
  is_symlink : OS -> Path -> bool;
  scandir : OS -> Path -> list string;
  absolute : OS -> Path -> Path;
  mkdir_parents : OS -> Path -> OS * option string;
  symlink_to : OS -> Path -> Path -> OS * option string;
  copy2 : OS -> Path -> Path -> OS * option string;
  rename : OS -> Path -> Path -> OS * option string
}.

(** *** The new name of one file *)

(** [000000000-GRN6V_l01_n0([12])_([^_]+)_\d+__([^.]+)\.fastq\.gz] *)
Definition pattern : regex :=
  cat (Str "000000000-GRN6V_l01_n0")
    [Grp (Cls (one_of "12")); Str "_"; Grp (Plus (none_of "_")); Str "_";
     Plus is_digit; Str "__"; Grp (Plus (none_of ".")); Str ".fastq.gz"].

(** [([A-Z]+)(\d+)] *)
Definition well_pattern : regex :=
  cat (Grp (Plus (in_range "A" "Z"))) [Grp (Plus is_digit)].

Definition sample_name_padded (sample_name : string) : string :=
  match py_match well_pattern sample_name with
  | Some well_match =>
      let letter := group well_match 1 in
      let number := zfill 2 (group well_match 2) in
      letter +:+ number
  | None => sample_name
  end.

(** The body of the scanning loop for one file name: the new name when
    the pattern matches. *)
Definition new_name (file_name : string) : option string :=
  match py_match pattern file_name with
  | Some m =>
      let read_num := group m 1 in
      let project_name := group m 2 in
      let sample_name := group m 3 in
      Some (project_name +:+ "_" +:+ sample_name_padded sample_name
              +:+ "_R" +:+ read_num +:+ ".fastq.gz")
  | None => None
  end.

(** [fastq_path.glob("*.fastq.gz")]: the listed names the glob accepts. *)
Definition glob_fastq_gz `{FileSystem OS} (fs : OS) (dir : Path) : list string :=
  List.filter (endswith ".fastq.gz") (scandir fs dir).

(** The scanning loop: the pairs [(file_path, new_path)] of matching files. *)
Definition scan (names : list string) (fastq_path output_path : Path)
  : list (Path * Path) :=
  omap (fun n => (fun nn => (joinpath fastq_path n, joinpath output_path nn))
                   <$> new_name n) names.

(** *** Sorting the work list *)

(** [(x[1].name.split('_')[1], x[1].name)]; a new name always has two
    underscores, so index 1 is in range. *)
Definition sort_key (x : Path * Path) : string * string :=
  (nth 1 (split "_" (name x.2)) "", name x.2).

Definition key_le (a b : string * string) : bool :=
  str_lt a.1 b.1 || (String.eqb a.1 b.1 && str_le a.2 b.2).

Fixpoint insert_by_key (x : Path * Path) (l : list (Path * Path)) : list (Path * Path) :=
  match l with
  | [] => [x]
  | y :: l' =>
      if key_le (sort_key x) (sort_key y) then x :: l
      else y :: insert_by_key x l'
  end.

(** [list.sort(key=...)], a stable sort. *)
Definition sort_by_key (l : list (Path * Path)) : list (Path * Path) :=
  foldr insert_by_key [] l.

(** *** The processing loop *)

Record loop_state (OS : Type) : Type := LoopState {
  fs : OS;
  out : list string;
  success_count : nat;
  error_count : nat
}.
Arguments LoopState {OS}.
Arguments fs {OS}.
Arguments out {OS}.
Arguments success_count {OS}.
Arguments error_count {OS}.

Definition truthy (output_dir : option string) : bool :=
  match output_dir with
  | Some s => negb (String.eqb s "")
  | None => false
  end.

(** The operation the mode selects, with the line printed on success. *)
Definition perform `{FileSystem OS} (output_dir : option string) (use_symlinks : bool)
    (st : OS) (old_path new_path : Path) : (OS * option string) * string :=
  if truthy output_dir then
    if use_symlinks then
      (symlink_to st new_path (absolute st old_path),
       "Symlinked: " +:+ name old_path +:+ " -> " +:+ name new_path)
    else
      (copy2 st old_path new_path,
       "Copied: " +:+ name old_path +:+ " -> " +:+ name new_path)
  else
    (rename st old_path new_path,
     "Renamed: " +:+ name old_path +:+ " -> " +:+ name new_path).

(** One iteration of [for old_path, new_path in files_to_rename]. *)
Definition process_file `{FileSystem OS} (output_dir : option string)
    (dry_run use_symlinks : bool) (st : loop_state OS) (item : Path * Path)
  : loop_state OS :=
  let '(old_path, new_path) := item in
  if dry_run then
    let action := if use_symlinks && truthy output_dir then "symlink" else "rename/copy" in
    LoopState (fs st)
      (out st ++ ["Would " +:+ action +:+ ": " +:+ name old_path +:+ " -> " +:+ name new_path])
      (success_count st) (error_count st)
  else if path_exists (fs st) new_path || is_symlink (fs st) new_path then
    LoopState (fs st)
      (out st ++ ["Warning: " +:+ name new_path +:+ " already exists, skipping "
                    +:+ name old_path])
      (success_count st) (S (error_count st))
  else
    match perform output_dir use_symlinks (fs st) old_path new_path with
    | ((fs', None), line) =>
        LoopState fs' (out st ++ [line]) (S (success_count st)) (error_count st)
    | ((fs', Some e), _) =>
        LoopState fs'
          (out st ++ ["Error processing " +:+ name old_path +:+ ": " +:+ e])
          (success_count st) (S (error_count st))
    end.

Definition mode_lines (output_dir : option string) (use_symlinks : bool)
    (output_path : Path) : list string :=
  if truthy output_dir then
    ["Output directory: " +:+ str_path output_path;
     if use_symlinks then "Mode: Creating symlinks" else "Mode: Copying files"]
  else ["Mode: Renaming in place"].

Definition rule : string := repeat_char "-" 80.

(** What a call leaves behind: the file system, the printed lines and the
    exception that ended it, if one did. *)
Record outcome (OS : Type) : Type := Outcome {
  fs_after : OS;
  printed : list string;
  raised : option string
}.
Arguments Outcome {OS}.
Arguments fs_after {OS}.
Arguments printed {OS}.
Arguments raised {OS}.

Definition rename_fastq_files `{FileSystem OS} (st : OS) (fastq_dir : string)
    (output_dir : option string) (dry_run use_symlinks : bool) : outcome OS :=
  let fastq_path := Path_of fastq_dir in
  if negb (path_exists st fastq_path) then
    Outcome st ["Error: Directory " +:+ fastq_dir +:+ " does not exist"] None
  else
    let output_path :=
      if truthy output_dir then Path_of (default "" output_dir) else fastq_path in
    let '(st1, mk) :=
      if truthy output_dir then mkdir_parents st output_path else (st, None) in
    match mk with
    | Some e => Outcome st1 [] (Some e)
    | None =>
        let files_to_rename := scan (glob_fastq_gz st1 fastq_path) fastq_path output_path in
        match files_to_rename with
        | [] =>
            Outcome st1
              ["No files matching the expected pattern found.";
               "Expected pattern: 000000000-GRN6V_l01_n0[1-2]_[project]_[number]__[sample].fastq.gz"]
              None
        | _ =>
            let files_to_rename := sort_by_key files_to_rename in
            let header :=
              ["Found " +:+ str_nat (length files_to_rename) +:+ " files to rename:"]
                ++ mode_lines output_dir use_symlinks output_path ++ [rule] in
            let final :=
              foldl (process_file output_dir dry_run use_symlinks)
                    (LoopState st1 header 0 0) files_to_rename in
            let footer :=
              if dry_run then
                ["Dry run complete. " +:+ str_nat (length files_to_rename)
                   +:+ " files would be processed."]
              else
                ["Processing complete. " +:+ str_nat (success_count final)
                   +:+ " files processed successfully."]
                  ++ (if (0 <? error_count final)%nat
                      then [str_nat (error_count final) +:+ " files had errors."]
                      else []) in
            Outcome (fs final) (out final ++ [rule] ++ footer) None
        end
    end.

(** *** [main]

    The parsed command line, as [parser.parse_args()] returns it. *)

Record args : Type := Args {
  arg_fastq_dir : string;
  arg_output_dir : option string;
  arg_symlinks : bool;
  arg_dry_run : bool
}.

Definition main `{FileSystem OS} (st : OS) (a : args) : outcome OS :=
  if arg_symlinks a && negb (truthy (arg_output_dir a)) then
    let o := rename_fastq_files st (arg_fastq_dir a) (arg_output_dir a) (arg_dry_run a) false in
    Outcome (fs_after o)
      ("Warning: --symlinks requires --output-dir. Ignoring --symlinks flag." :: printed o)
      (raised o)
  else
    rename_fastq_files st (arg_fastq_dir a) (arg_output_dir a) (arg_dry_run a) (arg_symlinks a).

(** *** A file system to run the script on

    A finite map from paths to nodes. Symbolic links are followed at the
    last component only; the working directory is the root. *)

Inductive node : Type :=
| File (content : string)
| Link (target : Path)
| Dir.

Abbreviation tree := (gmap (list string) node) (only parsing).

Fixpoint resolve (fuel : nat) (t : tree) (p : Path) : option node :=
  match t !! p with
  | Some (Link q) =>
      match fuel with
      | O => None
      | S fuel' => resolve fuel' t q
      end
  | o => o
  end.

Definition tree_exists (t : tree) (p : Path) : bool :=
  bool_decide (is_Some (resolve (size t) t p)).

Definition tree_is_symlink (t : tree) (p : Path) : bool :=
  match t !! p with
  | Some (Link _) => true
  | _ => false
  end.

Definition is_dir (t : tree) (p : Path) : bool :=
  match resolve (size t) t p with
  | Some Dir => true
  | _ => false
  end.

Definition parent (p : Path) : Path := removelast p.

Definition tree_scandir (t : tree) (p : Path) : list string :=
  if is_dir t p then
    omap (fun kv => if bool_decide (parent kv.1 = p /\ kv.1 <> []) then Some (name kv.1) else None)
         (map_to_list t)
  else [].

Definition tree_absolute (t : tree) (p : Path) : Path :=
  match p with
  | "/" :: _ => p
  | _ => "/" :: p
  end.

(** [mkdir(parents=True, exist_ok=True)]: every missing prefix becomes a
    directory; a prefix that is there and is no directory stops it. *)
Fixpoint mkdir_from (t : tree) (done todo : Path) : tree * option string :=
  match todo with
  | [] => (t, None)
  | c :: todo' =>
      let p := done ++ [c] in
      match resolve (size t) t p with
      | None =>
          if tree_is_symlink t p then (t, Some ("[Errno 17] File exists: " +:+ str_path p))
          else mkdir_from (<[p := Dir]> t) p todo'
      | Some Dir => mkdir_from t p todo'
      | Some _ => (t, Some ("[Errno 17] File exists: " +:+ str_path p))
      end
  end.

Definition tree_mkdir_parents (t : tree) (p : Path) : tree * option string :=
  mkdir_from t [] p.

Definition tree_symlink_to (t : tree) (link target : Path) : tree * option string :=
  match t !! link with
  | Some _ => (t, Some ("[Errno 17] File exists: " +:+ str_path link))
  | None =>
      if is_dir t (parent link) then (<[link := Link target]> t, None)
      else (t, Some ("[Errno 2] No such file or directory: " +:+ str_path link))
  end.

Definition tree_copy2 (t : tree) (src dst : Path) : tree * option string :=
  match resolve (size t) t src with
  | Some (File c) =>
      if is_dir t (parent dst) then (<[dst := File c]> t, None)
      else (t, Some ("[Errno 2] No such file or directory: " +:+ str_path dst))
  | Some _ => (t, Some ("[Errno 21] Is a directory: " +:+ str_path src))
  | None => (t, Some ("[Errno 2] No such file or directory: " +:+ str_path src))
  end.

(** [os.rename]: an existing destination is replaced. *)
Definition tree_rename (t : tree) (src dst : Path) : tree * option string :=
  match t !! src with
  | Some n =>
      if is_dir t (parent dst) then (<[dst := n]> (delete src t), None)
      else (t, Some ("[Errno 2] No such file or directory: " +:+ str_path dst))
  | None => (t, Some ("[Errno 2] No such file or directory: " +:+ str_path src))
  end.

#[global] Instance TreeFS : FileSystem tree := {|
  path_exists := tree_exists;
  is_symlink := tree_is_symlink;
  scandir := tree_scandir;
  absolute := tree_absolute;
  mkdir_parents := tree_mkdir_parents;
  symlink_to := tree_symlink_to;
  copy2 := tree_copy2;
  rename := tree_rename
|}.

(** A directory [d] holding the given files. *)
Definition dir_with (d : Path) (files : list (string * string)) : tree :=
  foldr (fun f t => <[joinpath d f.1 := File f.2]> t) {[ d := Dir ]} files.

End Rename.

(** ** What the two analysis scripts share

    The tables [pd.read_csv] returns, the flat records, the parser of column
    names and the two-strain normalization are the same text in both
    scripts. *)

Module Frames.
Import Py Re.

(** A cell of a frame read from a CSV file. *)
Inductive cell : Type :=
| CInt (z : Z)
| CStr (s : string)
| CNaN.

(** [str(c)], also what an f-string puts for [{c}]. *)
Definition str_cell (c : cell) : string :=
  match c with
  | CInt z => str_Z z
  | CStr s => s
  | CNaN => "nan"
  end.

(** A row of the plate-map frame: [row['PLATE']], [row['WELL']] and
    [row[df.columns[2]]]. *)
Record plate_row : Type := PlateRow {
  PLATE : cell;
  WELL : cell;
  third_column : cell
}.

(** The barcode-count frame, by columns: the first column holds the
    barcodes, each other column the counts of one sample ([None] is a
    missing count, NaN). *)
Record counts : Type := Counts {
  first_column : string * list string;
  sample_columns : list (string * list (option Q))
}.

(** A flat record, one row of the frame [process_all_data] returns. *)
Record record : Type := Record_ {
  barcode : string;
  frequency : Q;
  pair : string;
  condition : string;
  timepoint : Z;
  replicate : string
}.

(** A row of [grouped]. *)
Record grow : Type := GRow {
  g_timepoint : Z;
  g_replicate : string;
  g_barcode : string;
  g_frequency : Q
}.

(** What a run does to the outside: a printed line, a figure saved with
    the title of each subplot and the table it is drawn from, a frame
    written to a CSV file. *)
Inductive event : Type :=
| Printed (line : string)
| Saved (file : string) (fig : list (string * list grow))
| Exported (file : string) (rows : list record).

(** What [pd.read_csv] returns for a path. *)
Record disk : Type := Disk {
  read_counts : string -> result counts;
  read_plate_map : string -> result (list plate_row)
}.

(** What writing a file gives: [plt.savefig(path)] and
    [df.to_csv(path)] raise ([FileNotFoundError] when the directory of
    [path] does not exist, [PermissionError], ...) or return. *)
Class Output : Type := {
  savefig : string -> result unit;
  to_csv : string -> result unit
}.

(** *** Methods: functions of [self] that may print and may raise *)

Section Method.
Context {Self : Type}.

Definition M (A : Type) : Type := Self -> result A * Self * list event.

Definition ret {A} (a : A) : M A := fun self => (Ok a, self, []).

Definition raise {A} (exn : string) : M A := fun self => (Raise exn, self, []).

Definition bindM {A B} (m : M A) (k : A -> M B) : M B :=
  fun self =>
    match m self with
    | (Ok a, self1, ev1) =>
        let '(r, self2, ev2) := k a self1 in (r, self2, ev1 ++ ev2)
    | (Raise e, self1, ev1) => (Raise e, self1, ev1)
    end.

(** Reading an attribute of [self]. *)
Definition attr {A} (f : Self -> A) : M A := fun self => (Ok (f self), self, []).

Definition emit (evs : list event) : M unit := fun self => (Ok tt, self, evs).

Definition print (line : string) : M unit := emit [Printed line].

(** A write: its event happens when the write returns. *)
Definition write (r : result unit) (ev : event) : M unit :=
  fun self =>
    match r with
    | Ok _ => (Ok tt, self, [ev])
    | Raise e => (Raise e, self, [])
    end.
End Method.

(** The three parts of what a call gives. *)
Definition returned {Self A} (x : result A * Self * list event) : result A := x.1.1.
Definition self_after {Self A} (x : result A * Self * list event) : Self := x.1.2.
Definition events {Self A} (x : result A * Self * list event) : list event := x.2.

(** An event other than the export of a frame. *)
Definition not_exported (ev : event) : Prop :=
  match ev with
  | Exported _ _ => False
  | _ => True
  end.

(** *** [_parse_column_name] *)

(** [CoexP(\d+)_([A-H]\d+)] *)
Definition column_pattern : regex :=
  cat (Str "CoexP")
    [Grp (Plus is_digit); Str "_"; Grp (Seq (Cls (in_range "A" "H")) (Plus is_digit))].

(** The plate and the well of a sample column; [int] of a run of digits
    does not fail. *)
Definition _parse_column_name (col_name : string) : option (Z * string) :=
  if String.eqb col_name "BCID" then None
  else
    match py_match column_pattern col_name with
    | Some m =>
        match int (group m 1) with
        | Some plate => Some (plate, group m 2)
        | None => None
        end
    | None => None
    end.

(** [f"P{parsed['plate']}_{parsed['well']}"] *)
Definition key_of (parsed : Z * string) : string :=
  "P" +:+ str_Z parsed.1 +:+ "_" +:+ parsed.2.

(** [sample_data[sample_data[col] > 0]]: the rows with a positive count. *)
Definition positive_rows (bcid : list string) (col : list (option Q)) : list (string * Q) :=
  omap (fun row : string * option Q =>
          match row.2 with
          | Some q => if Qlt_le_dec 0 q then Some (row.1, q) else None
          | None => None
          end)
       (zip bcid col).

(** *** pandas and built-in helpers *)

(** [Series.unique()]: the values in order of first appearance. *)
Definition unique {A} `{EqDecision A} (l : list A) : list A :=
  foldl (fun acc x => if decide (x ∈ acc) then acc else acc ++ [x]) [] l.

Fixpoint insert_sorted {A} (le : A -> A -> bool) (x : A) (l : list A) : list A :=
  match l with
  | [] => [x]
  | y :: l' => if le x y then x :: l else y :: insert_sorted le x l'
  end.

(** [sorted(l)], a stable sort. *)
Definition sorted_by {A} (le : A -> A -> bool) (l : list A) : list A :=
  foldr (insert_sorted le) [] l.

Definition sorted (l : list string) : list string := sorted_by str_le l.
Definition sorted_Z (l : list Z) : list Z := sorted_by Z.leb l.

(** [repr] of a string without quotes, backslashes or control characters. *)
Definition repr (s : string) : string := "'" +:+ s +:+ "'".

Fixpoint comma_sep (l : list string) : string :=
  match l with
  | [] => ""
  | [x] => x
  | x :: l' => x +:+ ", " +:+ comma_sep l'
  end.

(** [str] of a list, given the [repr] of its items. *)
Definition str_list (items : list string) : string := "[" +:+ comma_sep items +:+ "]".

(** [Series.sum()] *)
Definition sum (l : list Q) : Q := foldl Qplus 0%Q l.

(** The order of the group keys [(timepoint, replicate, barcode)]. *)
Definition key_compare (a b : Z * string * string) : comparison :=
  match (a.1.1 ?= b.1.1)%Z with
  | Eq =>
      match String.compare a.1.2 b.1.2 with
      | Eq => String.compare a.2 b.2
      | c => c
      end
  | c => c
  end.

Definition gkey (r : grow) : Z * string * string :=
  (g_timepoint r, g_replicate r, g_barcode r).

Fixpoint add_to_groups (k : Z * string * string) (f : Q) (l : list grow) : list grow :=
  match l with
  | [] => [GRow k.1.1 k.1.2 k.2 f]
  | r :: l' =>
      match key_compare k (gkey r) with
      | Eq => GRow k.1.1 k.1.2 k.2 (g_frequency r + f) :: l'
      | Lt => GRow k.1.1 k.1.2 k.2 f :: l
      | Gt => r :: add_to_groups k f l'
      end
  end.

(** [data.groupby(['timepoint', 'replicate', 'barcode'])['frequency'].sum().reset_index()]:
    one row per key, in key order. *)
Definition groupby_sum (data : list record) : list grow :=
  foldl (fun acc r => add_to_groups (timepoint r, replicate r, barcode r) (frequency r) acc)
        [] data.

(** *** Two-strain normalization *)

(** A quotient; [None] when the divisor is zero and the quotient is not a
    number. *)
Definition divide (a b : Q) : option Q :=
  if Qeq_bool b 0 then None else Some (a / b)%Q.

(** [(grouped['timepoint'] == tp) & (grouped['replicate'] == rep)] at one row. *)
Definition mask (tp : Z) (rep : string) (r : grow) : bool :=
  (g_timepoint r =? tp)%Z && String.eqb (g_replicate r) rep.

Definition has_barcode (b : string) (r : grow) : bool := String.eqb (g_barcode r) b.

(** [grouped.loc[sel, 'frequency'] = v] *)
Definition set_frequency (sel : grow -> bool) (v : Q) (grouped : list grow) : list grow :=
  List.map (fun r => if sel r
                     then GRow (g_timepoint r) (g_replicate r) (g_barcode r) v
                     else r)
           grouped.

(** [tp_rep_data[tp_rep_data['barcode'] == b]['frequency'].sum()] *)
Definition strain_freq (tp_rep_data : list grow) (b : string) : Q :=
  sum (List.map g_frequency (List.filter (has_barcode b) tp_rep_data)).

(** The body of the two nested loops. *)
Definition normalize_group (expected_strain_1 expected_strain_2 : string)
    (tp : Z) (rep : string) (grouped : list grow) : option (list grow) :=
  let tp_rep_data := List.filter (mask tp rep) grouped in
  let s1_freq := strain_freq tp_rep_data expected_strain_1 in
  let s2_freq := strain_freq tp_rep_data expected_strain_2 in
  let total := (s1_freq + s2_freq)%Q in
  if Qlt_le_dec 0 total then
    q1 ← divide s1_freq total;
    let grouped :=
      set_frequency (fun r => mask tp rep r && has_barcode expected_strain_1 r) q1 grouped in
    q2 ← divide s2_freq total;
    let grouped :=
      set_frequency (fun r => mask tp rep r && has_barcode expected_strain_2 r) q2 grouped in
    Some (set_frequency
            (fun r => mask tp rep r
                      && negb (has_barcode expected_strain_1 r || has_barcode expected_strain_2 r))
            0%Q grouped)
  else Some grouped.

Fixpoint for_each {A B} (body : A -> B -> option B) (l : list A) (b : B) : option B :=
  match l with
  | [] => Some b
  | x :: l' => b' ← body x b; for_each body l' b'
  end.

(** [for tp in grouped['timepoint'].unique(): for rep in grouped['replicate'].unique(): ...] *)
Definition normalize (expected_strain_1 expected_strain_2 : string)
    (grouped : list grow) : option (list grow) :=
  for_each
    (fun tp grouped =>
       for_each (normalize_group expected_strain_1 expected_strain_2 tp)
                (unique (List.map g_replicate grouped)) grouped)
    (unique (List.map g_timepoint grouped)) grouped.

(** The two expected strain frequencies of the group of row [r] in
    [grouped], as the loop body computes them. *)
Definition group_s1 (e1 : string) (grouped : list grow) (r : grow) : Q :=
  strain_freq (List.filter (mask (g_timepoint r) (g_replicate r)) grouped) e1.
Definition group_s2 (e2 : string) (grouped : list grow) (r : grow) : Q :=
  strain_freq (List.filter (mask (g_timepoint r) (g_replicate r)) grouped) e2.

(** What the loop leaves in the place of row [r] of the table [g0]: the
    three assignments of the loop body, the last one that selects the row
    deciding. *)
Definition norm_row (e1 e2 : string) (g0 : list grow) (r : grow) : grow :=
  let s1 := group_s1 e1 g0 r in
  let s2 := group_s2 e2 g0 r in
  let total := (s1 + s2)%Q in
  if Qlt_le_dec 0 total then
    GRow (g_timepoint r) (g_replicate r) (g_barcode r)
         (if has_barcode e2 r then (s2 / total)%Q
          else if has_barcode e1 r then (s1 / total)%Q
          else 0%Q)
  else r.

(** The table after the groups in [D] have been visited. *)
Definition visited (e1 e2 : string) (D : list (Z * string)) (g0 : list grow) (r : grow) : grow :=
  if decide ((g_timepoint r, g_replicate r) ∈ D) then norm_row e1 e2 g0 r else r.

(** *** The tables of one figure *)

(** [len(axes_flat)] for [n_cond] conditions. *)
Definition n_axes (n_cond : nat) : nat :=
  if (n_cond <=? 4)%nat then 4
  else
    let rows := ((n_cond + 2) / 3)%nat in
    if (1 <? rows)%nat then (rows * 3)%nat else 1.

Definition cond_data (pair_data : list record) (c : string) : list record :=
  List.filter (fun r => String.eqb (condition r) c) pair_data.

(** [grouped] for one condition, before the normalization. *)
Definition grouped_of (pair_data : list record) (c : string) : list grow :=
  groupby_sum (cond_data pair_data c).

(** The loop over the conditions: the normalized table of each chart. *)
Definition charts (expected_strain_1 expected_strain_2 : string)
    (pair_data : list record) : option (list (string * list grow)) :=
  let conditions := sorted (unique (List.map condition pair_data)) in
  mapM (fun c =>
          g ← normalize expected_strain_1 expected_strain_2 (grouped_of pair_data c);
          Some (c, g))
       (firstn (n_axes (length conditions)) conditions).

(** [df[df['pair'] == pair_str]] *)
Definition of_pair (pair_str : string) (df : list record) : list record :=
  List.filter (fun r => String.eqb (pair r) pair_str) df.

(** [self.strain_pairs[pair_key]] in a dict kept in insertion order. *)
Fixpoint lookup_pair (pair_key : string) (d : list (string * (string * string)))
  : option (string * string) :=
  match d with
  | [] => None
  | (k, v) :: d' => if String.eqb k pair_key then Some v else lookup_pair pair_key d'
  end.

End Frames.

Notation "'do' x <- m ; k" := (Frames.bindM m (fun x => k))
  (at level 10, x name, m at level 100, k at level 200, only parsing).
Notation "'exec' m ; k" := (Frames.bindM m (fun _ => k))
  (at level 10, m at level 100, k at level 200, only parsing).

(** ** DataAnalysis/Strain_competition.py *)

Module StrainCompetition.
Import Py Re Frames.

(** A value of [plate_map]. *)
Record entry : Type := Entry {
  m_type : string;
  m_pair : string;
  m_condition : string;
  m_replicate : string;
  m_timepoint : string
}.

(** The attributes of a [PlateMapStrainAnalyzer]. *)
Record analyzer : Type := Analyzer {
  barcode_file : string;
  platemap_file : string;
  barcode_data : counts;
  plate_map : gmap string entry;
  strain_pairs : list (string * (string * string));
  strain_colors : list (string * string)
}.

Definition the_strain_pairs : list (string * (string * string)) :=
  [("Pair1", ("P3_B3", "P3_H1")); ("Pair2", ("P3_C1", "P3_G7"));
   ("Pair3", ("P3_B3", "P3_G7")); ("Pair4", ("P2_B1", "P3_H5"));
   ("Pair5", ("P2_B1", "P4_G6")); ("Pair6", ("P3_C2", "P4_G6"));
   ("Pair7", ("P3_C2", "P3_H5")); ("Pair8", ("P4_F2", "P3_D9"));
   ("Pair9", ("P4_F2", "P3_A7")); ("Pair10", ("P4_F2", "P5_F8"));
   ("Pair11", ("P4_C11", "P3_D9")); ("Pair12", ("P4_C11", "P5_F8"));
   ("Pair13", ("P4_C11", "P3_A7"))].

Definition the_strain_colors : list (string * string) :=
  [("P3B3", "#FF6B6B"); ("P3H1", "#4ECDC4"); ("P3C1", "#45B7D1");
   ("P3G7", "#96CEB4"); ("P2B1", "#FFEAA7"); ("P3H5", "#DDA0DD");
   ("P4G6", "#98D8C8"); ("P3C2", "#F7DC6F"); ("P4F2", "#BB8FCE");
   ("P3D9", "#85C1E9"); ("P3A7", "#F8C471"); ("P5F8", "#82E0AA");
   ("P4C11", "#F1948A")].

(** [parts[i]] where the code has checked the length. *)
Definition item (parts : list string) (i : nat) : string := nth i parts "".

(** The branches of [_load_plate_map] on the parts of a condition string;
    [None] when no branch stores an entry. *)
Definition entry_of_parts (parts : list string) : option entry :=
  let n := length parts in
  if (1 <? n)%nat && (String.eqb (item parts 1) "SALT" || String.eqb (item parts 1) "GAL") then
    Some {| m_type := "pair";
            m_pair := if (2 <? n)%nat then remove_char "P" (item parts 2) else "Unknown";
            m_condition := item parts 1;
            m_replicate := if (3 <? n)%nat then item parts 3 else "1";
            m_timepoint := "1" |}
  else if (5 <=? n)%nat then
    if String.eqb (item parts 0) "C" then
      Some {| m_type := "pair";
              m_pair := item parts 1;
              m_condition := item parts 2;
              m_replicate := if (3 <? n)%nat then item parts 3 else "1";
              m_timepoint := if (4 <? n)%nat then item parts 4 else "1" |}
    else if String.eqb (item parts 0) "P" then
      Some {| m_type := "pair";
              m_pair := item parts 1;
              m_condition := item parts 2;
              m_replicate := item parts 3;
              m_timepoint := if (4 <? n)%nat then item parts 4 else "1" |}
    else None
  else None.

(** [f"P{plate}_{well}"] *)
Definition row_key (row : plate_row) : string :=
  "P" +:+ str_cell (PLATE row) +:+ "_" +:+ str_cell (WELL row).

(** One iteration of [for _, row in df.iterrows()]; [strip] is called on
    the cell itself, which only a string has. *)
Definition load_row (plate_map : gmap string entry) (row : plate_row)
  : result (gmap string entry) :=
  match third_column row with
  | CStr condition_str =>
      let parts := split "_" (strip condition_str) in
      let key := row_key row in
      Ok (match entry_of_parts parts with
          | Some e => <[key := e]> plate_map
          | None => plate_map
          end)
  | CInt _ => Raise "AttributeError: 'int' object has no attribute 'strip'"
  | CNaN => Raise "AttributeError: 'float' object has no attribute 'strip'"
  end.

Fixpoint load_rows (plate_map : gmap string entry) (rows : list plate_row)
  : result (gmap string entry) :=
  match rows with
  | [] => Ok plate_map
  | row :: rows' => plate_map' ← load_row plate_map row; load_rows plate_map' rows'
  end.

Definition _load_plate_map (d : disk) (platemap_file : string)
  : result (gmap string entry) :=
  df ← read_plate_map d platemap_file;
  load_rows ∅ df.

Definition __init__ (d : disk) (barcode_file platemap_file : string) : result analyzer :=
  barcode_data ← read_counts d barcode_file;
  plate_map ← _load_plate_map d platemap_file;
  Ok (Analyzer barcode_file platemap_file barcode_data plate_map
               the_strain_pairs the_strain_colors).

(** One iteration of [for col in self.barcode_data.columns[1:]]: the
    records appended to [all_data] and the lines printed. *)
Definition process_column (barcode_data : counts) (plate_map : gmap string entry)
    (col : string * list (option Q)) : list record * list event :=
  match _parse_column_name col.1 with
  | None => ([], [])
  | Some parsed =>
      let key := key_of parsed in
      match plate_map !! key with
      | None => ([], [Printed ("Warning: " +:+ key +:+ " not found in plate map")])
      | Some metadata =>
          if negb (String.eqb (m_type metadata) "pair") then ([], [])
          else
            let sample_data := positive_rows (first_column barcode_data).2 col.2 in
            (flat_map
               (fun row : string * Q =>
                  match int (m_timepoint metadata) with
                  | None => []
                  | Some timepoint =>
                      [Record_ row.1 row.2 (m_pair metadata) (m_condition metadata)
                               timepoint (m_replicate metadata)]
                  end)
               sample_data,
             [])
      end
  end.

Definition process_columns (barcode_data : counts) (plate_map : gmap string entry)
  : list record * list event :=
  foldl (fun acc col =>
           let '(rows, evs) := process_column barcode_data plate_map col in
           (acc.1 ++ rows, acc.2 ++ evs))
        ([], []) (sample_columns barcode_data).

Definition process_all_data : M (Self := analyzer) (list record) :=
  do barcode_data <- attr barcode_data;
  do plate_map <- attr plate_map;
  let '(all_data, evs) := process_columns barcode_data plate_map in
  exec emit evs;
  ret all_data.

Definition create_pair_plot `{Output} (pair_number : string) : M (Self := analyzer) unit :=
  do df <- process_all_data;
  match df with
  | [] => raise "KeyError: 'pair'"
  | _ =>
      let pair_data := of_pair pair_number df in
      match pair_data with
      | [] => print ("No data found for Pair " +:+ pair_number)
      | _ =>
          do strain_pairs <- attr strain_pairs;
          match lookup_pair ("Pair" +:+ pair_number) strain_pairs with
          | None => print ("Pair " +:+ pair_number +:+ " not defined in strain_pairs")
          | Some (strain_1, strain_2) =>
              let expected_strain_1 := remove_char "_" strain_1 in
              let expected_strain_2 := remove_char "_" strain_2 in
              match charts expected_strain_1 expected_strain_2 pair_data with
              | Some fig =>
                  let file := "Pair" +:+ pair_number +:+ "_competition.png" in
                  exec write (savefig file) (Saved file fig);
                  print ("Plot saved as " +:+ file)
              | None => raise "FloatingPointError"
              end
          end
      end
  end.

Fixpoint for_pairs (body : string -> M (Self := analyzer) unit) (keys : list string)
  : M (Self := analyzer) unit :=
  match keys with
  | [] => ret tt
  | k :: keys' => exec body k; for_pairs body keys'
  end.

(** [pair_key.replace('Pair', '')] for a key that starts with [Pair]. *)
Definition pair_num (pair_key : string) : string :=
  String.substring 4 (String.length pair_key - 4) pair_key.

Definition analyze_all_pairs `{Output} : M (Self := analyzer) unit :=
  do strain_pairs <- attr strain_pairs;
  for_pairs
    (fun pair_key =>
       exec print "";
       exec print ("Processing " +:+ pair_key +:+ "...");
       create_pair_plot (pair_num pair_key))
    (List.map fst strain_pairs).

Definition export_processed_data `{Output} (output_file : string)
  : M (Self := analyzer) (list record) :=
  do df <- process_all_data;
  exec write (to_csv output_file) (Exported output_file df);
  exec print ("Data exported to " +:+ output_file);
  ret df.

Definition get_pair_summary (pair_number : string)
  : M (Self := analyzer) (option (list record)) :=
  do df <- process_all_data;
  match df with
  | [] => raise "KeyError: 'pair'"
  | _ =>
      let pair_data := of_pair pair_number df in
      match pair_data with
      | [] =>
          exec print ("No data for Pair " +:+ pair_number);
          ret None
      | _ =>
          exec emit
            [Printed "";
             Printed ("=== Pair " +:+ pair_number +:+ " Summary ===");
             Printed ("Conditions: "
               +:+ str_list (List.map repr (sorted (unique (List.map condition pair_data)))));
             Printed ("Timepoints: "
               +:+ str_list (List.map str_Z (sorted_Z (unique (List.map timepoint pair_data)))));
             Printed ("Replicates: "
               +:+ str_list (List.map repr (sorted (unique (List.map replicate pair_data)))));
             Printed ("Barcodes detected: "
               +:+ str_list (List.map repr (sorted (unique (List.map barcode pair_data)))));
             Printed ("Total samples: " +:+ str_nat (length pair_data))];
          ret (Some pair_data)
      end
  end.

Definition main `{Output} (d : disk) : result unit * list event :=
  match __init__ d "Coexistence_Assays/Data Analysis/barcodecounts_clean.csv"
                   "Coexistence_Assays/Data Analysis/Coexistance_Assay_plate_map.csv" with
  | Ok analyzer =>
      let '(r, _, evs) :=
        (exec analyze_all_pairs;
         exec export_processed_data "processed_competition_data.csv";
         ret tt) analyzer in
      (r, evs)
  | Raise e => (Raise e, [])
  end.

(** The operations a caller has on a constructed analyzer. *)
Inductive operation : Type :=
| ProcessAllData
| CreatePairPlot (pair_number : string)
| AnalyzeAllPairs
| ExportProcessedData (output_file : string)
| GetPairSummary (pair_number : string).

Definition call `{Output} (op : operation) : M (Self := analyzer) unit :=
  match op with
  | ProcessAllData => exec process_all_data; ret tt
  | CreatePairPlot pair_number => create_pair_plot pair_number
  | AnalyzeAllPairs => analyze_all_pairs
  | ExportProcessedData output_file => exec export_processed_data output_file; ret tt
  | GetPairSummary pair_number => exec get_pair_summary pair_number; ret tt
  end.

(** A run of operations; an exception caught by the caller does not end it. *)
Definition run_all `{Output} (ops : list operation) (a : analyzer) : analyzer :=
  foldl (fun a op => self_after (call op a)) a ops.

End StrainCompetition.

(** ** DataAnalysis/.ipynb_checkpoints/Analyze_12well_plates-checkpoint.py *)

Module TwelveWell.
Import Py Re Frames.

(** A value of [plate_map]. *)
Record entry : Type := Entry {
  m_pair : string;
  m_condition : string;
  m_replicate : string;
  m_timepoint : string
}.

(** The attributes of a [TwelveWellAnalyzer]. *)
Record analyzer : Type := Analyzer {
  barcode_file : string;
  platemap_file : string;
  barcode_data : counts;
  plate_map : gmap string entry;
  strain_pairs : list (string * (string * string));
  strain_colors : list (string * string)
}.

Definition the_strain_pairs : list (string * (string * string)) :=
  [("Pair1", ("P3_B3", "P3_H1")); ("Pair2", ("P3_C1", "P3_G7"));
   ("Pair8", ("P4_F2", "P3_D9"))].

Definition the_strain_colors : list (string * string) :=
  [("P3B3", "#FF6B6B"); ("P3H1", "#4ECDC4"); ("P3C1", "#45B7D1");
   ("P3G7", "#96CEB4"); ("P4F2", "#BB8FCE"); ("P3D9", "#85C1E9")].

Definition item (parts : list string) (i : nat) : string := nth i parts "".

(** Only [C_] entries are loaded. *)
Definition entry_of_parts (parts : list string) : option entry :=
  if (5 <=? length parts)%nat && String.eqb (item parts 0) "C" then
    Some {| m_pair := item parts 1;
            m_condition := item parts 2;
            m_replicate := item parts 3;
            m_timepoint := item parts 4 |}
  else None.

Definition row_key (row : plate_row) : string :=
  "P" +:+ str_cell (PLATE row) +:+ "_" +:+ str_cell (WELL row).

(** One iteration of [for _, row in df.iterrows()]; the cell goes through
    [str] first, so every cell has a condition string. *)
Definition load_row (plate_map : gmap string entry) (row : plate_row)
  : gmap string entry :=
  let condition_str := strip (str_cell (third_column row)) in
  let parts := split "_" condition_str in
  let key := row_key row in
  match entry_of_parts parts with
  | Some e => <[key := e]> plate_map
  | None => plate_map
  end.

Definition _load_plate_map (d : disk) (platemap_file : string)
  : result (gmap string entry * list event) :=
  df ← read_plate_map d platemap_file;
  let plate_map := foldl load_row ∅ df in
  Ok (plate_map,
      [Printed ("Loaded " +:+ str_nat (size plate_map) +:+ " wells from 12-well plates")]).

Definition __init__ (d : disk) (barcode_file platemap_file : string)
  : result (analyzer * list event) :=
  barcode_data ← read_counts d barcode_file;
  loaded ← _load_plate_map d platemap_file;
  Ok (Analyzer barcode_file platemap_file barcode_data loaded.1
               the_strain_pairs the_strain_colors,
      loaded.2).

(** One iteration of [for col in self.barcode_data.columns[1:]]. *)
Definition process_column (barcode_data : counts) (plate_map : gmap string entry)
    (col : string * list (option Q)) : list record * list event :=
  match _parse_column_name col.1 with
  | None => ([], [])
  | Some parsed =>
      let key := key_of parsed in
      match plate_map !! key with
      | None => ([], [])
      | Some metadata =>
          let sample_data := positive_rows (first_column barcode_data).2 col.2 in
          (flat_map
             (fun row : string * Q =>
                match int (m_timepoint metadata) with
                | None => []
                | Some timepoint =>
                    [Record_ row.1 row.2 (m_pair metadata) (m_condition metadata)
                             timepoint (m_replicate metadata)]
                end)
             sample_data,
           [])
      end
  end.

Definition process_columns (barcode_data : counts) (plate_map : gmap string entry)
  : list record * list event :=
  foldl (fun acc col =>
           let '(rows, evs) := process_column barcode_data plate_map col in
           (acc.1 ++ rows, acc.2 ++ evs))
        ([], []) (sample_columns barcode_data).

Definition process_all_data : M (Self := analyzer) (list record) :=
  do barcode_data <- attr barcode_data;
  do plate_map <- attr plate_map;
  let '(all_data, evs) := process_columns barcode_data plate_map in
  exec emit evs;
  ret all_data.

Definition create_pair_plot `{Output} (pair_number : string) : M (Self := analyzer) unit :=
  do df <- process_all_data;
  match df with
  | [] => raise "KeyError: 'pair'"
  | _ =>
      let pair_data := of_pair pair_number df in
      match pair_data with
      | [] => print ("No data found for Pair " +:+ pair_number)
      | _ =>
          do strain_pairs <- attr strain_pairs;
          match lookup_pair ("Pair" +:+ pair_number) strain_pairs with
          | None => print ("Pair " +:+ pair_number +:+ " not defined")
          | Some (strain_1, strain_2) =>
              let expected_strain_1 := remove_char "_" strain_1 in
              let expected_strain_2 := remove_char "_" strain_2 in
              match charts expected_strain_1 expected_strain_2 pair_data with
              | Some fig =>
                  let file := "Images/Pair" +:+ pair_number +:+ "_competition.png" in
                  exec write (savefig file) (Saved file fig);
                  print ("Plot saved as Images/12well_Pair" +:+ pair_number
                           +:+ "_competition.png")
              | None => raise "FloatingPointError"
              end
          end
      end
  end.

Fixpoint for_pairs (body : string -> M (Self := analyzer) unit) (nums : list string)
  : M (Self := analyzer) unit :=
  match nums with
  | [] => ret tt
  | n :: nums' => exec body n; for_pairs body nums'
  end.

Definition analyze_all_12well_pairs `{Output} : M (Self := analyzer) unit :=
  for_pairs
    (fun pair_num =>
       exec print "";
       exec print ("Processing Pair " +:+ pair_num +:+ "...");
       create_pair_plot pair_num)
    ["1"; "2"; "8"].

Definition export_processed_data `{Output} (output_file : string)
  : M (Self := analyzer) (list record) :=
  do df <- process_all_data;
  exec write (to_csv output_file) (Exported output_file df);
  exec print ("Data exported to " +:+ output_file);
  ret df.

Definition main `{Output} (d : disk) : result unit * list event :=
  match __init__ d "barcodecounts_clean.csv" "Coexistance_Assay_plate_map.csv" with
  | Ok (analyzer, evs0) =>
      let '(r, _, evs) :=
        (exec analyze_all_12well_pairs;
         exec export_processed_data "12well_competition_data.csv";
         ret tt) analyzer in
      (r, evs0 ++ evs)
  | Raise e => (Raise e, [])
  end.

(** The operations a caller has on a constructed analyzer. *)
Inductive operation : Type :=
| ProcessAllData
| CreatePairPlot (pair_number : string)
| AnalyzeAll12WellPairs
| ExportProcessedData (output_file : string).

Definition call `{Output} (op : operation) : M (Self := analyzer) unit :=
  match op with
  | ProcessAllData => exec process_all_data; ret tt
  | CreatePairPlot pair_number => create_pair_plot pair_number
  | AnalyzeAll12WellPairs => analyze_all_12well_pairs
  | ExportProcessedData output_file => exec export_processed_data output_file; ret tt
  end.

Definition run_all `{Output} (ops : list operation) (a : analyzer) : analyzer :=
  foldl (fun a op => self_after (call op a)) a ops.

End TwelveWell.

(** ** Sample inputs

    A small plate map and count table, and a directory of sequencing files,
    on which the scripts are run in the examples below. *)

Module Examples.
Import Py Frames.

Definition plate_rows : list plate_row :=
  [PlateRow (CInt 2) (CStr "A1") (CStr "P_1_YPD_1_0");
   PlateRow (CInt 2) (CStr "A2") (CStr "P_1_YPD_1_T1");
   PlateRow (CInt 2) (CStr "A3") (CStr "C_1_YPD_2_1 ");
   PlateRow (CInt 2) (CStr "A4") (CStr "X_SALT_P1");
   PlateRow (CInt 2) (CStr "A5") (CStr "blank");
   PlateRow (CInt 2) (CStr "A6") (CStr "P_1_YPD_1_3")].

Definition count_table : counts :=
  Counts ("BCID", ["P3B3"; "P3H1"; "X"])
    [("CoexP2_A1", [Some 3%Q; Some 1%Q; Some 0%Q]);
     ("CoexP2_A2", [Some 3%Q; Some 1%Q; Some 0%Q]);
     ("CoexP2_A3", [Some 3%Q; None; Some 2%Q]);
     ("CoexP2_A4", [Some 3%Q; None; Some 2%Q]);
     ("CoexP2_A6", [Some 0%Q; Some 0%Q; Some 7%Q]);
     ("CoexP2_A9", [Some 3%Q; None; Some 2%Q]);
     ("Sample_7", [Some 1%Q; Some 1%Q; Some 1%Q])].

Definition files : disk := Disk (fun _ => Ok count_table) (fun _ => Ok plate_rows).

(** A working directory in which every file can be written. *)
Definition writable : Output :=
  {| savefig := fun _ => Ok tt; to_csv := fun _ => Ok tt |}.

(** A working directory without the [Images] directory. *)
Definition no_images_dir : Output :=
  {| savefig := fun file =>
       if String.prefix "Images/" file
       then Raise ("FileNotFoundError: [Errno 2] No such file or directory: '"
                     +:+ file +:+ "'")
       else Ok tt;
     to_csv := fun _ => Ok tt |}.

Definition strain_plate_map : gmap string StrainCompetition.entry :=
  match StrainCompetition._load_plate_map files "plate_map.csv" with
  | Ok pm => pm
  | Raise _ => ∅
  end.

Definition strain_analyzer : StrainCompetition.analyzer :=
  StrainCompetition.Analyzer "counts.csv" "plate_map.csv" count_table strain_plate_map
    StrainCompetition.the_strain_pairs StrainCompetition.the_strain_colors.

Definition twelve_plate_map : gmap string TwelveWell.entry :=
  foldl TwelveWell.load_row ∅ plate_rows.

Definition twelve_analyzer : TwelveWell.analyzer :=
  TwelveWell.Analyzer "counts.csv" "plate_map.csv" count_table twelve_plate_map
    TwelveWell.the_strain_pairs TwelveWell.the_strain_colors.

(** The frame [process_all_data] returns on the sample inputs. *)
Definition strain_df : list record :=
  match returned (StrainCompetition.process_all_data strain_analyzer) with
  | Ok df => df
  | Raise _ => []
  end.

(** [grouped] of pair 1 in condition YPD, before the normalization. *)
Definition ypd_grouped : list grow := grouped_of (of_pair "1" strain_df) "YPD".

(** A directory [d] with the two reads of one well, and a file that
    already has the new name of the second. *)
Definition sequencing_dir : gmap (list string) Rename.node :=
  Rename.dir_with ["d"]
    [("000000000-GRN6V_l01_n01_CoexP1_1__A1.fastq.gz", "reads 1");
     ("000000000-GRN6V_l01_n02_CoexP1_1__A1.fastq.gz", "reads 2");
     ("CoexP1_A01_R2.fastq.gz", "older reads")].

End Examples.

(** * Properties *)

(** ** The two-strain normalization *)

Section Normalization.
Import Py Frames.

Variables e1 e2 : string.

Local Abbreviation norm_row := (Frames.norm_row e1 e2).
Local Abbreviation visited := (Frames.visited e1 e2).

Lemma mask_true tp rep r :
  mask tp rep r = true <-> g_timepoint r = tp /\ g_replicate r = rep.
Proof.
  unfold mask. rewrite andb_true_iff, Z.eqb_eq, String.eqb_eq. tauto.
Qed.

Lemma norm_row_key g0 r : gkey (norm_row g0 r) = gkey r.
Proof. unfold norm_row. destruct (Qlt_le_dec _ _); reflexivity. Qed.

Lemma visited_key D g0 r : gkey (visited D g0 r) = gkey r.
Proof. unfold visited. case_decide; [apply norm_row_key | reflexivity]. Qed.

Lemma mask_key tp rep r r' : gkey r = gkey r' -> mask tp rep r = mask tp rep r'.
Proof. unfold gkey, mask. intros H. injection H as -> -> _. reflexivity. Qed.

Lemma has_barcode_key b r r' : gkey r = gkey r' -> has_barcode b r = has_barcode b r'.
Proof. unfold gkey, has_barcode. intros H. injection H as _ _ ->. reflexivity. Qed.

Lemma filter_map_fixed (P : grow -> bool) (f : grow -> grow) (l : list grow) :
  (forall r, P (f r) = P r) ->
  (forall r, P r = true -> f r = r) ->
  List.filter P (List.map f l) = List.filter P l.
Proof.
  intros HP Hf. induction l as [|r l IH]; simpl; [reflexivity|].
  rewrite HP, IH. destruct (P r) eqn:E; [rewrite (Hf r E)|]; reflexivity.
Qed.

Lemma group_of_visited D g0 tp rep :
  (tp, rep) ∉ D ->
  List.filter (mask tp rep) (List.map (visited D g0) g0) = List.filter (mask tp rep) g0.
Proof.
  intros HD. apply filter_map_fixed.
  - intros r. apply mask_key, visited_key.
  - intros r Hm. apply mask_true in Hm as [<- <-].
    unfold visited. case_decide; [contradiction | reflexivity].
Qed.

Lemma divide_positive a b : (0 < b)%Q -> divide a b = Some (a / b)%Q.
Proof.
  intros Hb. unfold divide. destruct (Qeq_bool b 0) eqn:E; [|reflexivity].
  apply Qeq_bool_iff in E. rewrite E in Hb. exfalso. exact (Qlt_irrefl _ Hb).
Qed.

(** One pass of the loop body over a group not yet visited. *)
Lemma normalize_group_visited D g0 tp rep :
  (tp, rep) ∉ D ->
  normalize_group e1 e2 tp rep (List.map (visited D g0) g0)
  = Some (List.map (visited ((tp, rep) :: D) g0) g0).
Proof.
  intros HD. unfold normalize_group.
  rewrite (group_of_visited D g0 tp rep HD).
  set (s1 := strain_freq (List.filter (mask tp rep) g0) e1).
  set (s2 := strain_freq (List.filter (mask tp rep) g0) e2).
  assert (Hrow : forall r, mask tp rep r = true ->
            group_s1 e1 g0 r = s1 /\ group_s2 e2 g0 r = s2).
  { intros r Hm. apply mask_true in Hm as [<- <-]. split; reflexivity. }
  destruct (Qlt_le_dec 0 (s1 + s2)) as [Hpos|Hle].
  - rewrite (divide_positive s1 _ Hpos). simpl.
    rewrite (divide_positive s2 _ Hpos). simpl. f_equal.
    unfold set_frequency. rewrite !List.map_map.
    apply List.map_ext. intros r.
    pose proof (visited_key D g0 r) as Hk.
    destruct (mask tp rep r) eqn:Hm.
    + destruct (Hrow r Hm) as [H1 H2].
      pose proof Hm as Hm'. apply mask_true in Hm' as [Htp Hrep].
      assert (Hv : visited D g0 r = r).
      { unfold visited. case_decide as Hin; [|reflexivity].
        rewrite Htp, Hrep in Hin. contradiction. }
      rewrite Hv. unfold visited. rewrite decide_True by (rewrite Htp, Hrep; left).
      unfold norm_row. rewrite H1, H2.
      destruct (Qlt_le_dec 0 (s1 + s2)) as [_|Hc];
        [|exfalso; exact (Qlt_not_le _ _ Hpos Hc)].
      destruct r as [t p b f]. simpl in Htp, Hrep. subst t p.
      unfold has_barcode, mask.
      destruct (String.eqb b e1) eqn:E1; destruct (String.eqb b e2) eqn:E2;
        repeat (cbn [g_timepoint g_replicate g_barcode g_frequency andb orb negb];
                rewrite ?Z.eqb_refl, ?String.eqb_refl, ?E1, ?E2);
        reflexivity.
    + assert (Hm' : mask tp rep (visited D g0 r) = false).
      { rewrite (mask_key tp rep _ r Hk). exact Hm. }
      rewrite Hm'. simpl. rewrite Hm'. simpl. rewrite Hm'. simpl.
      unfold visited.
      assert (Hne : (g_timepoint r, g_replicate r) <> (tp, rep)).
      { intros Heq. injection Heq as Htp Hrep.
        assert (mask tp rep r = true) by (apply mask_true; split; assumption).
        congruence. }
      destruct (decide ((g_timepoint r, g_replicate r) ∈ D)) as [Hin|Hnin].
      * rewrite decide_True by (right; exact Hin). reflexivity.
      * rewrite decide_False; [reflexivity|].
        intros Hin. apply elem_of_cons in Hin as [Heq|Hin]; contradiction.
  - f_equal. apply List.map_ext_in. intros r _.
    unfold visited.
    destruct (decide ((g_timepoint r, g_replicate r) ∈ D)) as [Hin|Hnin].
    + rewrite decide_True by (right; exact Hin). reflexivity.
    + destruct (decide ((g_timepoint r, g_replicate r) ∈ (tp, rep) :: D)) as [Hin|_];
        [|reflexivity].
      apply elem_of_cons in Hin as [Heq|Hin]; [|contradiction].
      injection Heq as Htp Hrep.
      unfold norm_row, group_s1, group_s2. rewrite Htp, Hrep. fold s1 s2.
      destruct (Qlt_le_dec 0 (s1 + s2)) as [Hc|_]; [|reflexivity].
      exfalso. exact (Qlt_not_le _ _ Hc Hle).
Qed.

Lemma unique_acc {A} `{EqDecision A} (l acc : list A) :
  NoDup acc ->
  let u := foldl (fun acc x => if decide (x ∈ acc) then acc else acc ++ [x]) acc l in
  NoDup u /\ (forall x, x ∈ u <-> x ∈ acc \/ x ∈ l).
Proof.
  revert acc. induction l as [|y l IH]; intros acc Hacc; simpl.
  - split; [exact Hacc|]. intros x. rewrite elem_of_nil. tauto.
  - destruct (decide (y ∈ acc)) as [Hin|Hnin].
    + destruct (IH acc Hacc) as [Hnd Hmem]. split; [exact Hnd|].
      intros x. rewrite Hmem, elem_of_cons. split; [tauto|].
      intros [?|[->|?]]; tauto.
    + assert (Hacc' : NoDup (acc ++ [y])).
      { apply NoDup_app. repeat split; [exact Hacc| |apply NoDup_singleton].
        intros x Hx Hy. apply list_elem_of_singleton in Hy. subst. contradiction. }
      destruct (IH _ Hacc') as [Hnd Hmem]. split; [exact Hnd|].
      intros x. rewrite Hmem, elem_of_app, list_elem_of_singleton, elem_of_cons. tauto.
Qed.

Lemma NoDup_unique {A} `{EqDecision A} (l : list A) : NoDup (unique l).
Proof. apply (unique_acc l []). constructor. Qed.

Lemma elem_of_unique {A} `{EqDecision A} (l : list A) x : x ∈ unique l <-> x ∈ l.
Proof.
  destruct (unique_acc l [] (NoDup_nil_2)) as [_ H0]. unfold unique.
  rewrite H0, elem_of_nil. tauto.
Qed.

Lemma replicates_of_visited D g0 :
  List.map g_replicate (List.map (visited D g0) g0) = List.map g_replicate g0.
Proof.
  rewrite List.map_map. apply List.map_ext. intros r.
  pose proof (visited_key D g0 r) as H. unfold gkey in H. congruence.
Qed.

(** The inner loop over the replicates of one timepoint. *)
Lemma inner_loop_visited g0 tp reps : forall D,
  NoDup reps ->
  (forall rep, rep ∈ reps -> (tp, rep) ∉ D) ->
  exists D',
    for_each (normalize_group e1 e2 tp) reps (List.map (visited D g0) g0)
    = Some (List.map (visited D' g0) g0)
    /\ (forall x, x ∈ D' <-> x ∈ D \/ (x.1 = tp /\ x.2 ∈ reps)).
Proof.
  induction reps as [|rep reps IH]; intros D Hnd Hfresh; simpl.
  - exists D. split; [reflexivity|]. intros x. rewrite elem_of_nil. tauto.
  - apply NoDup_cons in Hnd as [Hrep Hnd].
    rewrite normalize_group_visited by (apply Hfresh; left). simpl.
    destruct (IH ((tp, rep) :: D) Hnd) as (D' & Heq & Hmem).
    { intros rep' Hin Hc. apply elem_of_cons in Hc as [Hc|Hc].
      - injection Hc as ->. contradiction.
      - exact (Hfresh rep' (list_elem_of_further _ _ _ Hin) Hc). }
    exists D'. split; [exact Heq|].
    intros [t p]. rewrite Hmem, !elem_of_cons. simpl. split.
    + intros [[Heq'|?]|[? ?]]; [injection Heq' as -> ->| |]; tauto.
    + intros [?|[-> [->|?]]]; tauto.
Qed.

(** The outer loop over the timepoints. *)
Lemma outer_loop_visited g0 tps : forall D,
  NoDup tps ->
  (forall tp rep, tp ∈ tps -> (tp, rep) ∉ D) ->
  exists D',
    for_each
      (fun tp grouped =>
         for_each (normalize_group e1 e2 tp)
                  (unique (List.map g_replicate grouped)) grouped)
      tps (List.map (visited D g0) g0)
    = Some (List.map (visited D' g0) g0)
    /\ (forall x, x ∈ D' <->
                  x ∈ D \/ (x.1 ∈ tps /\ x.2 ∈ List.map g_replicate g0)).
Proof.
  induction tps as [|tp tps IH]; intros D Hnd Hfresh; simpl.
  - exists D. split; [reflexivity|]. intros x. rewrite elem_of_nil. tauto.
  - apply NoDup_cons in Hnd as [Htp Hnd].
    rewrite replicates_of_visited.
    destruct (inner_loop_visited g0 tp (unique (List.map g_replicate g0)) D)
      as (D1 & Heq1 & Hmem1).
    { apply NoDup_unique. }
    { intros rep _. apply Hfresh. left. }
    rewrite Heq1. simpl.
    destruct (IH D1 Hnd) as (D' & Heq & Hmem).
    { intros tp' rep Hin Hc. apply Hmem1 in Hc as [Hc|[Hc _]].
      - exact (Hfresh tp' rep (list_elem_of_further _ _ _ Hin) Hc).
      - simpl in Hc. subst. contradiction. }
    exists D'. split; [exact Heq|].
    intros x. rewrite Hmem, Hmem1, elem_of_unique, elem_of_cons. split.
    + intros [[?|[? ?]]|[? ?]]; tauto.
    + intros [?|[[?|?] ?]]; tauto.
Qed.

Lemma visited_nil g0 : List.map (visited [] g0) g0 = g0.
Proof.
  rewrite <- (List.map_id g0) at 3. apply List.map_ext. intros r.
  unfold visited. rewrite decide_False; [reflexivity|]. apply not_elem_of_nil.
Qed.

(** The loop as a whole: it never divides by zero, and it puts [norm_row]
    of the table it started from in the place of every row. *)
Lemma normalize_rows (g0 : list grow) :
  normalize e1 e2 g0 = Some (List.map (norm_row g0) g0).
Proof.
  unfold normalize.
  destruct (outer_loop_visited g0 (unique (List.map g_timepoint g0)) [])
    as (D' & Heq & Hmem).
  { apply NoDup_unique. }
  { intros tp rep _. apply not_elem_of_nil. }
  rewrite visited_nil in Heq. rewrite Heq. f_equal.
  apply List.map_ext_in. intros r Hr.
  unfold visited. rewrite decide_True; [reflexivity|].
  apply Hmem. right. simpl. split.
  - apply elem_of_unique, list_elem_of_In, List.in_map, Hr.
  - apply list_elem_of_In, List.in_map, Hr.
Qed.

End Normalization.

(** ** The data joiner *)

Section Joiner.
Import Py Frames.

(** A row survives the filter exactly when its count is there and positive. *)
Lemma elem_of_positive_rows bcid col bc q :
  (bc, q) ∈ positive_rows bcid col <->
  (exists i, bcid !! i = Some bc /\ col !! i = Some (Some q)) /\ (0 < q)%Q.
Proof.
  unfold positive_rows. rewrite list_elem_of_omap. split.
  - intros ([b [q'|]] & Hin & Hf); simpl in Hf; [|discriminate].
    destruct (Qlt_le_dec 0 q') as [Hq|]; [|discriminate].
    injection Hf as -> ->. split; [|exact Hq].
    apply list_elem_of_lookup in Hin as [i Hi]. exists i.
    apply lookup_zip_Some in Hi. exact Hi.
  - intros [(i & Hb & Hc) Hq]. exists (bc, Some q). split.
    + apply list_elem_of_lookup. exists i. apply lookup_zip_Some. split; assumption.
    + simpl. destruct (Qlt_le_dec 0 q) as [|Hle]; [reflexivity|].
      exfalso. exact (Qlt_not_le _ _ Hq Hle).
Qed.

(** The loop over the columns appends what each column gives. *)
Lemma foldl_columns {C} (pc : C -> list record * list event) (cols : list C) acc :
  foldl (fun acc col => let '(rows, evs) := pc col in (acc.1 ++ rows, acc.2 ++ evs))
        acc cols
  = (acc.1 ++ flat_map (fun col => (pc col).1) cols,
     acc.2 ++ flat_map (fun col => (pc col).2) cols).
Proof.
  revert acc. induction cols as [|col cols IH]; intros [a1 a2]; simpl.
  - rewrite !app_nil_r. reflexivity.
  - rewrite IH. destruct (pc col) as [rows evs]. simpl.
    rewrite <- !app_assoc. reflexivity.
Qed.

Lemma strain_process_columns bd pm :
  StrainCompetition.process_columns bd pm
  = (flat_map (fun col => (StrainCompetition.process_column bd pm col).1) (sample_columns bd),
     flat_map (fun col => (StrainCompetition.process_column bd pm col).2) (sample_columns bd)).
Proof. unfold StrainCompetition.process_columns. rewrite foldl_columns. reflexivity. Qed.

Lemma twelve_process_columns bd pm :
  TwelveWell.process_columns bd pm
  = (flat_map (fun col => (TwelveWell.process_column bd pm col).1) (sample_columns bd),
     flat_map (fun col => (TwelveWell.process_column bd pm col).2) (sample_columns bd)).
Proof. unfold TwelveWell.process_columns. rewrite foldl_columns. reflexivity. Qed.

(** [process_all_data] returns, leaves [self] as it is, and prints what
    the columns print. *)
Lemma strain_process_all_data a :
  StrainCompetition.process_all_data a
  = (Ok (StrainCompetition.process_columns
           (StrainCompetition.barcode_data a) (StrainCompetition.plate_map a)).1,
     a,
     (StrainCompetition.process_columns
        (StrainCompetition.barcode_data a) (StrainCompetition.plate_map a)).2).
Proof.
  unfold StrainCompetition.process_all_data, bindM, attr, emit, ret. simpl.
  destruct (StrainCompetition.process_columns _ _) as [rows evs]. simpl.
  rewrite app_nil_r. reflexivity.
Qed.

Lemma twelve_process_all_data a :
  TwelveWell.process_all_data a
  = (Ok (TwelveWell.process_columns
           (TwelveWell.barcode_data a) (TwelveWell.plate_map a)).1,
     a,
     (TwelveWell.process_columns
        (TwelveWell.barcode_data a) (TwelveWell.plate_map a)).2).
Proof.
  unfold TwelveWell.process_all_data, bindM, attr, emit, ret. simpl.
  destruct (TwelveWell.process_columns _ _) as [rows evs]. simpl.
  rewrite app_nil_r. reflexivity.
Qed.

(** Where a record of one column comes from. *)
Lemma strain_process_column_record bd pm col r :
  r ∈ (StrainCompetition.process_column bd pm col).1 ->
  exists parsed md i,
    _parse_column_name col.1 = Some parsed
    /\ pm !! key_of parsed = Some md
    /\ StrainCompetition.m_type md = "pair"
    /\ (first_column bd).2 !! i = Some (barcode r)
    /\ col.2 !! i = Some (Some (frequency r))
    /\ (0 < frequency r)%Q
    /\ pair r = StrainCompetition.m_pair md
    /\ condition r = StrainCompetition.m_condition md
    /\ Py.int (StrainCompetition.m_timepoint md) = Some (timepoint r)
    /\ replicate r = StrainCompetition.m_replicate md.
Proof.
  unfold StrainCompetition.process_column.
  destruct (_parse_column_name col.1) as [parsed|] eqn:Hp; simpl;
    [|intros H; apply elem_of_nil in H; contradiction].
  destruct (pm !! key_of parsed) as [md|] eqn:Hk; simpl;
    [|intros H; apply elem_of_nil in H; contradiction].
  destruct (String.eqb (StrainCompetition.m_type md) "pair") eqn:Ht; simpl;
    [|intros H; apply elem_of_nil in H; contradiction].
  apply String.eqb_eq in Ht.
  intros H. apply list_elem_of_In, in_flat_map in H as ([bc q] & Hin & Hr).
  apply list_elem_of_In, elem_of_positive_rows in Hin as [(i & Hb & Hc) Hq].
  destruct (Py.int (StrainCompetition.m_timepoint md)) as [tp|] eqn:Hi;
    [|contradiction].
  destruct Hr as [<-|[]]. simpl.
  exists parsed, md, i. repeat split; assumption.
Qed.

Lemma twelve_process_column_record bd pm col r :
  r ∈ (TwelveWell.process_column bd pm col).1 ->
  exists parsed md i,
    _parse_column_name col.1 = Some parsed
    /\ pm !! key_of parsed = Some md
    /\ (first_column bd).2 !! i = Some (barcode r)
    /\ col.2 !! i = Some (Some (frequency r))
    /\ (0 < frequency r)%Q
    /\ pair r = TwelveWell.m_pair md
    /\ condition r = TwelveWell.m_condition md
    /\ Py.int (TwelveWell.m_timepoint md) = Some (timepoint r)
    /\ replicate r = TwelveWell.m_replicate md.
Proof.
  unfold TwelveWell.process_column.
  destruct (_parse_column_name col.1) as [parsed|] eqn:Hp; simpl;
    [|intros H; apply elem_of_nil in H; contradiction].
  destruct (pm !! key_of parsed) as [md|] eqn:Hk; simpl;
    [|intros H; apply elem_of_nil in H; contradiction].
  intros H. apply list_elem_of_In, in_flat_map in H as ([bc q] & Hin & Hr).
  apply list_elem_of_In, elem_of_positive_rows in Hin as [(i & Hb & Hc) Hq].
  destruct (Py.int (TwelveWell.m_timepoint md)) as [tp|] eqn:Hi;
    [|contradiction].
  destruct Hr as [<-|[]]. simpl.
  exists parsed, md, i. repeat split; assumption.
Qed.

Lemma elem_of_flat_map_fst {C} (pc : C -> list record * list event) cols (r : record) :
  r ∈ flat_map (fun col => (pc col).1) cols <-> exists col, col ∈ cols /\ r ∈ (pc col).1.
Proof.
  rewrite list_elem_of_In, in_flat_map. split; intros (col & H1 & H2); exists col;
    rewrite ?list_elem_of_In in *; tauto.
Qed.

End Joiner.

(** ** The plate map as an attribute *)

Section PlateMapFrame.
Import Py Frames.
Context `{Output}.

Lemma self_after_bind {Self A B} (m : M (Self := Self) A) (k : A -> M B) (s : Self) :
  (forall s', self_after (m s') = s') ->
  (forall x s', self_after (k x s') = s') ->
  self_after (bindM m k s) = s.
Proof.
  intros Hm Hk. unfold bindM. specialize (Hm s).
  destruct (m s) as [[[x|e] s1] ev1]; unfold self_after in *; simpl in *.
  - specialize (Hk x s1). destruct (k x s1) as [[r s2] ev2]. simpl in *. congruence.
  - exact Hm.
Qed.

Lemma events_bind {Self A B} (m : M (Self := Self) A) (k : A -> M B) (s : Self) :
  events (bindM m k s)
  = events (m s)
      ++ match returned (m s) with
         | Ok x => events (k x (self_after (m s)))
         | Raise _ => []
         end.
Proof.
  unfold bindM, events, returned, self_after.
  destruct (m s) as [[[x|e] s1] ev1]; simpl.
  - destruct (k x s1) as [[r s2] ev2]. reflexivity.
  - rewrite app_nil_r. reflexivity.
Qed.

Lemma self_after_write {Self} (r : result unit) (ev : event) (s : Self) :
  self_after (write r ev s) = s.
Proof. unfold write. destruct r; reflexivity. Qed.

Lemma strain_process_all_data_self a :
  self_after (StrainCompetition.process_all_data a) = a.
Proof. rewrite strain_process_all_data. reflexivity. Qed.

Lemma strain_create_pair_plot_self p a :
  self_after (StrainCompetition.create_pair_plot p a) = a.
Proof.
  unfold StrainCompetition.create_pair_plot.
  apply self_after_bind; [apply strain_process_all_data_self|].
  intros df s'. destruct df; [reflexivity|].
  destruct (of_pair p _); [reflexivity|].
  apply self_after_bind; [reflexivity|]. intros sp s2.
  destruct (lookup_pair _ _) as [[s1' s2']|]; [|reflexivity].
  destruct (charts _ _ _); [|reflexivity].
  apply self_after_bind; [intros s3; apply self_after_write | reflexivity].
Qed.

Lemma strain_for_pairs_self body keys a :
  (forall k s, self_after (body k s) = s) ->
  self_after (StrainCompetition.for_pairs body keys a) = a.
Proof.
  intros Hb. revert a. induction keys as [|k keys IH]; intros a; simpl; [reflexivity|].
  apply self_after_bind; [apply Hb | intros _; apply IH].
Qed.

Lemma strain_call_self op a : self_after (StrainCompetition.call op a) = a.
Proof.
  destruct op; simpl.
  - apply self_after_bind; [apply strain_process_all_data_self | reflexivity].
  - apply strain_create_pair_plot_self.
  - unfold StrainCompetition.analyze_all_pairs.
    apply self_after_bind; [reflexivity|]. intros sp s.
    apply strain_for_pairs_self. intros k s'.
    apply self_after_bind; [reflexivity|]. intros _ s2.
    apply self_after_bind; [reflexivity|]. intros _ s3.
    apply strain_create_pair_plot_self.
  - apply self_after_bind; [|reflexivity]. intros s.
    unfold StrainCompetition.export_processed_data.
    apply self_after_bind; [apply strain_process_all_data_self|]. intros df s'.
    apply self_after_bind; [intros s3; apply self_after_write|]. intros _ s3.
    apply self_after_bind; reflexivity.
  - apply self_after_bind; [|reflexivity]. intros s.
    unfold StrainCompetition.get_pair_summary.
    apply self_after_bind; [apply strain_process_all_data_self|]. intros df s'.
    destruct df; [reflexivity|]. destruct (of_pair _ _); [|].
    + apply self_after_bind; reflexivity.
    + apply self_after_bind; reflexivity.
Qed.

Lemma twelve_process_all_data_self a :
  self_after (TwelveWell.process_all_data a) = a.
Proof. rewrite twelve_process_all_data. reflexivity. Qed.

Lemma twelve_create_pair_plot_self p a :
  self_after (TwelveWell.create_pair_plot p a) = a.
Proof.
  unfold TwelveWell.create_pair_plot.
  apply self_after_bind; [apply twelve_process_all_data_self|].
  intros df s'. destruct df; [reflexivity|].
  destruct (of_pair p _); [reflexivity|].
  apply self_after_bind; [reflexivity|]. intros sp s2.
  destruct (lookup_pair _ _) as [[s1' s2']|]; [|reflexivity].
  destruct (charts _ _ _); [|reflexivity].
  apply self_after_bind; [intros s3; apply self_after_write | reflexivity].
Qed.

Lemma twelve_for_pairs_self body keys a :
  (forall k s, self_after (body k s) = s) ->
  self_after (TwelveWell.for_pairs body keys a) = a.
Proof.
  intros Hb. revert a. induction keys as [|k keys IH]; intros a; simpl; [reflexivity|].
  apply self_after_bind; [apply Hb | intros _; apply IH].
Qed.

Lemma twelve_call_self op a : self_after (TwelveWell.call op a) = a.
Proof.
  destruct op; simpl.
  - apply self_after_bind; [apply twelve_process_all_data_self | reflexivity].
  - apply twelve_create_pair_plot_self.
  - unfold TwelveWell.analyze_all_12well_pairs.
    apply twelve_for_pairs_self. intros k s'.
    apply self_after_bind; [reflexivity|]. intros _ s2.
    apply self_after_bind; [reflexivity|]. intros _ s3.
    apply twelve_create_pair_plot_self.
  - apply self_after_bind; [|reflexivity]. intros s.
    unfold TwelveWell.export_processed_data.
    apply self_after_bind; [apply twelve_process_all_data_self|]. intros df s'.
    apply self_after_bind; [intros s3; apply self_after_write|]. intros _ s3.
    apply self_after_bind; reflexivity.
Qed.

End PlateMapFrame.

(** ** The plate-map loader *)

Section Loader.
Import Py Frames.

(** Every entry is either there at the start or stored by one of the rows. *)
Lemma strain_load_rows_entries rows : forall pm0 pm,
  StrainCompetition.load_rows pm0 rows = Ok pm ->
  forall key e, pm !! key = Some e ->
    pm0 !! key = Some e
    \/ exists row s,
         row ∈ rows
         /\ third_column row = CStr s
         /\ key = StrainCompetition.row_key row
         /\ StrainCompetition.entry_of_parts (split "_" (strip s)) = Some e.
Proof.
  induction rows as [|row rows IH]; intros pm0 pm Hload key e Hlook; simpl in Hload.
  - injection Hload as <-. left. exact Hlook.
  - unfold mbind, result_bind, Py.bind in Hload.
    destruct (StrainCompetition.load_row pm0 row) as [pm1|exn] eqn:Hrow; [|discriminate].
    destruct (IH pm1 pm Hload key e Hlook) as [H1|(row' & s & Hin & Hc & Hk & He)].
    + unfold StrainCompetition.load_row in Hrow.
      destruct (third_column row) as [z|s|] eqn:Hc; try discriminate.
      injection Hrow as <-.
      destruct (StrainCompetition.entry_of_parts (split "_" (strip s))) as [e'|] eqn:He;
        [|left; exact H1].
      destruct (decide (StrainCompetition.row_key row = key)) as [Heq|Hne].
      * subst key. rewrite lookup_insert_eq in H1. injection H1 as ->.
        right. exists row, s. repeat split; [left | assumption..].
      * rewrite lookup_insert_ne in H1 by exact Hne. left. exact H1.
    + right. exists row', s. repeat split; [right; exact Hin | assumption..].
Qed.

Lemma twelve_load_rows_entries rows : forall pm0 key e,
  foldl TwelveWell.load_row pm0 rows !! key = Some e ->
    pm0 !! key = Some e
    \/ exists row,
         row ∈ rows
         /\ key = TwelveWell.row_key row
         /\ TwelveWell.entry_of_parts (split "_" (strip (str_cell (third_column row))))
            = Some e.
Proof.
  induction rows as [|row rows IH]; intros pm0 key e Hlook; simpl in Hlook.
  - left. exact Hlook.
  - destruct (IH _ key e Hlook) as [H1|(row' & Hin & Hk & He)].
    + unfold TwelveWell.load_row in H1.
      destruct (TwelveWell.entry_of_parts _) as [e'|] eqn:He; [|left; exact H1].
      destruct (decide (TwelveWell.row_key row = key)) as [Heq|Hne].
      * subst key. rewrite lookup_insert_eq in H1. injection H1 as ->.
        right. exists row. repeat split; [left | assumption].
      * rewrite lookup_insert_ne in H1 by exact Hne. left. exact H1.
    + right. exists row'. repeat split; [right; exact Hin | assumption..].
Qed.

End Loader.

(** ** Frequencies stay positive up to the normalization *)

Section Positivity.
Import Py Frames.

Lemma add_to_groups_positive k f l :
  (0 < f)%Q ->
  Forall (fun r => (0 < g_frequency r)%Q) l ->
  Forall (fun r => (0 < g_frequency r)%Q) (add_to_groups k f l).
Proof.
  intros Hf. induction 1 as [|r l Hr Hl IH]; simpl.
  - constructor; [exact Hf | constructor].
  - destruct (key_compare k (gkey r)).
    + constructor; [|exact Hl]. simpl.
      apply Qlt_trans with (g_frequency r); [exact Hr|].
      rewrite <- (Qplus_0_r (g_frequency r)) at 1.
      apply Qplus_lt_r. exact Hf.
    + constructor; [exact Hf|]. constructor; assumption.
    + constructor; assumption.
Qed.

Lemma groupby_acc_positive data : forall acc,
  Forall (fun r => (0 < g_frequency r)%Q) acc ->
  Forall (fun r => (0 < frequency r)%Q) data ->
  Forall (fun r => (0 < g_frequency r)%Q)
         (foldl (fun acc r =>
                   add_to_groups (timepoint r, replicate r, barcode r) (frequency r) acc)
                acc data).
Proof.
  induction data as [|r data IH]; intros acc Hacc Hdata; simpl; [exact Hacc|].
  apply Forall_cons in Hdata as [Hr Hdata].
  apply IH; [|exact Hdata]. apply add_to_groups_positive; assumption.
Qed.

Lemma groupby_sum_positive data :
  Forall (fun r => (0 < frequency r)%Q) data ->
  Forall (fun r => (0 < g_frequency r)%Q) (groupby_sum data).
Proof. apply groupby_acc_positive. constructor. Qed.

Lemma grouped_of_positive df p c :
  Forall (fun r => (0 < frequency r)%Q) df ->
  Forall (fun r => (0 < g_frequency r)%Q) (grouped_of (of_pair p df) c).
Proof.
  intros H. apply groupby_sum_positive.
  unfold cond_data, of_pair.
  apply Forall_forall. intros r Hr.
  apply list_elem_of_In, filter_In in Hr as [Hr _].
  apply filter_In in Hr as [Hr _].
  rewrite Forall_forall in H. apply H, list_elem_of_In, Hr.
Qed.

Lemma sum_nonneg l : forall acc,
  (0 <= acc)%Q -> Forall (fun q => (0 <= q)%Q) l -> (0 <= foldl Qplus acc l)%Q.
Proof.
  induction l as [|q l IH]; intros acc Hacc Hl; simpl; [exact Hacc|].
  apply Forall_cons in Hl as [Hq Hl]. apply IH; [|exact Hl].
  rewrite <- (Qplus_0_r 0). apply Qplus_le_compat; assumption.
Qed.

Lemma strain_freq_nonneg (P : grow -> bool) rows b :
  Forall (fun r => (0 < g_frequency r)%Q) rows ->
  (0 <= strain_freq (List.filter P rows) b)%Q.
Proof.
  intros H. unfold strain_freq, sum. apply sum_nonneg; [apply Qle_refl|].
  apply Forall_forall. intros q Hq.
  apply list_elem_of_In, in_map_iff in Hq as (r & <- & Hr).
  apply filter_In in Hr as [Hr _]. apply filter_In in Hr as [Hr _].
  rewrite Forall_forall in H. apply Qlt_le_weak, H, list_elem_of_In, Hr.
Qed.

Lemma ratio_bounds (a b : Q) :
  (0 <= a)%Q -> (0 <= b)%Q -> (0 < a + b)%Q ->
  (a / (a + b) + b / (a + b) == 1)%Q
  /\ (0 <= a / (a + b) <= 1)%Q
  /\ (0 <= b / (a + b) <= 1)%Q.
Proof.
  intros Ha Hb Hpos.
  assert (Hne : ~ (a + b == 0)%Q).
  { intros H. rewrite H in Hpos. exact (Qlt_irrefl _ Hpos). }
  split; [field; exact Hne|].
  split; split.
  - apply Qle_shift_div_l; [exact Hpos | lra].
  - apply Qle_shift_div_r; [exact Hpos | lra].
  - apply Qle_shift_div_l; [exact Hpos | lra].
  - apply Qle_shift_div_r; [exact Hpos | lra].
Qed.

End Positivity.

(** ** The figure of [create_pair_plot] *)

Section Figure.
Import Py Frames.
Context `{Output}.

(** The columns print warnings and nothing else. *)
Lemma strain_process_columns_print bd pm ev :
  ev ∈ (StrainCompetition.process_columns bd pm).2 -> exists line, ev = Printed line.
Proof.
  rewrite strain_process_columns. simpl.
  rewrite list_elem_of_In, in_flat_map. intros (col & _ & Hin). revert Hin.
  unfold StrainCompetition.process_column.
  destruct (_parse_column_name col.1) as [parsed|]; [|intros []].
  destruct (pm !! key_of parsed) as [md|].
  - destruct (negb _); intros [].
  - intros [<-|[]]. eexists. reflexivity.
Qed.

Lemma twelve_process_columns_print bd pm ev :
  ev ∈ (TwelveWell.process_columns bd pm).2 -> exists line, ev = Printed line.
Proof.
  rewrite twelve_process_columns. simpl.
  rewrite list_elem_of_In, in_flat_map. intros (col & _ & Hin). revert Hin.
  unfold TwelveWell.process_column.
  destruct (_parse_column_name col.1) as [parsed|]; [|intros []].
  destruct (pm !! key_of parsed) as [md|]; intros [].
Qed.

(** Each chart of a figure is the normalized table of its condition. *)
Lemma charts_normalized e1 e2 pair_data fig :
  charts e1 e2 pair_data = Some fig ->
  forall c g, (c, g) ∈ fig -> normalize e1 e2 (grouped_of pair_data c) = Some g.
Proof.
  unfold charts. intros Hm c g Hin.
  apply mapM_Some in Hm.
  apply list_elem_of_lookup in Hin as [i Hi].
  destruct (Forall2_lookup_r _ _ _ _ _ Hm Hi) as (c' & _ & Hc).
  destruct (normalize e1 e2 (grouped_of pair_data c')) as [g'|] eqn:Hn; simpl in Hc;
    [|discriminate].
  injection Hc as <- <-. exact Hn.
Qed.

(** The figure [create_pair_plot] saves is drawn from the frame of
    [process_all_data], restricted to the pair, with the two strains of the
    pair as the expected ones. *)
Lemma strain_create_pair_plot_figure a pair_number file fig :
  Saved file fig ∈ events (StrainCompetition.create_pair_plot pair_number a) ->
  exists df strain_1 strain_2,
    returned (StrainCompetition.process_all_data a) = Ok df
    /\ lookup_pair ("Pair" +:+ pair_number) (StrainCompetition.strain_pairs a)
       = Some (strain_1, strain_2)
    /\ charts (remove_char "_" strain_1) (remove_char "_" strain_2)
              (of_pair pair_number df) = Some fig.
Proof.
  unfold StrainCompetition.create_pair_plot. rewrite events_bind.
  rewrite strain_process_all_data_self.
  rewrite strain_process_all_data at 1 2.
  set (pc := StrainCompetition.process_columns _ _).
  assert (Hno : Saved file fig ∉ pc.2).
  { intros Hin. destruct (strain_process_columns_print _ _ _ Hin) as [line Hl].
    discriminate. }
  unfold events at 1, returned. cbn [fst snd].
  rewrite elem_of_app. intros [Hin|Hin]; [contradiction|]. revert Hin.
  destruct pc.1 as [|r df] eqn:Hdf; [intros Hin; apply elem_of_nil in Hin; contradiction|].
  remember (of_pair pair_number (r :: df)) as pd eqn:Hpd.
  destruct pd as [|r' pd].
  { intros Hin. apply list_elem_of_singleton in Hin. discriminate. }
  rewrite events_bind. unfold attr at 1 2 3. unfold returned, self_after, events at 1.
  cbn [fst snd app].
  destruct (lookup_pair _ _) as [[strain_1 strain_2]|] eqn:Hlook.
  - destruct (charts _ _ _) as [fig'|] eqn:Hch.
    + rewrite events_bind. unfold write.
      destruct (savefig _); unfold returned, self_after, events; cbn [fst snd app];
        [|intros Hin; apply elem_of_nil in Hin; contradiction].
      intros Hin. apply elem_of_cons in Hin as [Heq|Hin].
      * injection Heq as _ ->. exists (r :: df), strain_1, strain_2.
        rewrite <- Hpd. repeat split; [|assumption..].
        rewrite strain_process_all_data. fold pc. rewrite Hdf. reflexivity.
      * apply list_elem_of_singleton in Hin. discriminate.
    + intros Hin. apply elem_of_nil in Hin. contradiction.
  - intros Hin. apply list_elem_of_singleton in Hin. discriminate.
Qed.

Lemma twelve_create_pair_plot_figure a pair_number file fig :
  Saved file fig ∈ events (TwelveWell.create_pair_plot pair_number a) ->
  exists df strain_1 strain_2,
    returned (TwelveWell.process_all_data a) = Ok df
    /\ lookup_pair ("Pair" +:+ pair_number) (TwelveWell.strain_pairs a)
       = Some (strain_1, strain_2)
    /\ charts (remove_char "_" strain_1) (remove_char "_" strain_2)
              (of_pair pair_number df) = Some fig.
Proof.
  unfold TwelveWell.create_pair_plot. rewrite events_bind.
  rewrite twelve_process_all_data_self.
  rewrite twelve_process_all_data at 1 2.
  set (pc := TwelveWell.process_columns _ _).
  assert (Hno : Saved file fig ∉ pc.2).
  { intros Hin. destruct (twelve_process_columns_print _ _ _ Hin) as [line Hl].
    discriminate. }
  unfold events at 1, returned. cbn [fst snd].
  rewrite elem_of_app. intros [Hin|Hin]; [contradiction|]. revert Hin.
  destruct pc.1 as [|r df] eqn:Hdf; [intros Hin; apply elem_of_nil in Hin; contradiction|].
  remember (of_pair pair_number (r :: df)) as pd eqn:Hpd.
  destruct pd as [|r' pd].
  { intros Hin. apply list_elem_of_singleton in Hin. discriminate. }
  rewrite events_bind. unfold attr at 1 2 3. unfold returned, self_after, events at 1.
  cbn [fst snd app].
  destruct (lookup_pair _ _) as [[strain_1 strain_2]|] eqn:Hlook.
  - destruct (charts _ _ _) as [fig'|] eqn:Hch.
    + rewrite events_bind. unfold write.
      destruct (savefig _); unfold returned, self_after, events; cbn [fst snd app];
        [|intros Hin; apply elem_of_nil in Hin; contradiction].
      intros Hin. apply elem_of_cons in Hin as [Heq|Hin].
      * injection Heq as _ ->. exists (r :: df), strain_1, strain_2.
        rewrite <- Hpd. repeat split; [|assumption..].
        rewrite twelve_process_all_data. fold pc. rewrite Hdf. reflexivity.
      * apply list_elem_of_singleton in Hin. discriminate.
    + intros Hin. apply elem_of_nil in Hin. contradiction.
  - intros Hin. apply list_elem_of_singleton in Hin. discriminate.
Qed.

End Figure.

(** ** The normalization step of [create_pair_plot] *)

Section NormalizationClaims.
Import Py Frames.

(** C1. In [create_pair_plot], take the frame [df] that [process_all_data]
    returns (in either script), a pair, a condition and the table
    [grouped] built for them. For every row of [grouped] whose
    (timepoint, replicate) group has expected strain frequencies [s1] and
    [s2] with [s1 + s2 > 0], the normalization loop ends and leaves in the
    place of that row: [s1 / (s1 + s2)] when the barcode is the first
    expected strain, [s2 / (s1 + s2)] when it is the second, and [0] for
    every other barcode; the two quotients sum to 1 and each lies in
    [0, 1]. *)
Theorem normalization_rewrites_group :
  forall df : list record,
    (exists a, returned (StrainCompetition.process_all_data a) = Ok df)
    \/ (exists a, returned (TwelveWell.process_all_data a) = Ok df) ->
    forall (pair_number c e1 e2 : string) (i : nat) (r : grow),
      let grouped := grouped_of (of_pair pair_number df) c in
      grouped !! i = Some r ->
      let s1 := group_s1 e1 grouped r in
      let s2 := group_s2 e2 grouped r in
      (0 < s1 + s2)%Q ->
      exists normalized,
        normalize e1 e2 grouped = Some normalized
        /\ normalized !! i
           = Some (GRow (g_timepoint r) (g_replicate r) (g_barcode r)
                        (if String.eqb (g_barcode r) e1 then (s1 / (s1 + s2))%Q
                         else if String.eqb (g_barcode r) e2 then (s2 / (s1 + s2))%Q
                         else 0%Q))
        /\ (s1 / (s1 + s2) + s2 / (s1 + s2) == 1)%Q
        /\ (0 <= s1 / (s1 + s2) <= 1)%Q
        /\ (0 <= s2 / (s1 + s2) <= 1)%Q.
Proof.
  intros df Hdf pair_number c e1 e2 i r grouped Hi s1 s2 Hpos.
  assert (Hdfpos : Forall (fun r => (0 < frequency r)%Q) df).
  { apply Forall_forall. intros x Hx.
    destruct Hdf as [[a Ha]|[a Ha]].
    - rewrite strain_process_all_data in Ha. unfold returned in Ha. simpl in Ha.
      injection Ha as <-. rewrite strain_process_columns in Hx. simpl in Hx.
      apply elem_of_flat_map_fst in Hx as (col & _ & Hx).
      apply strain_process_column_record in Hx as (? & ? & ? & H'). tauto.
    - rewrite twelve_process_all_data in Ha. unfold returned in Ha. simpl in Ha.
      injection Ha as <-. rewrite twelve_process_columns in Hx. simpl in Hx.
      apply elem_of_flat_map_fst in Hx as (col & _ & Hx).
      apply twelve_process_column_record in Hx as (? & ? & ? & H'). tauto. }
  pose proof (grouped_of_positive df pair_number c Hdfpos) as Hg. fold grouped in Hg.
  exists (List.map (norm_row e1 e2 grouped) grouped).
  split; [apply normalize_rows|].
  split.
  - change (List.map (norm_row e1 e2 grouped) grouped) with (norm_row e1 e2 grouped <$> grouped).
    rewrite list_lookup_fmap, Hi. simpl. f_equal.
    unfold norm_row. fold s1 s2.
    destruct (Qlt_le_dec 0 (s1 + s2)) as [_|Hle];
      [|exfalso; exact (Qlt_not_le _ _ Hpos Hle)].
    unfold has_barcode.
    destruct (String.eqb (g_barcode r) e1) eqn:E1;
      destruct (String.eqb (g_barcode r) e2) eqn:E2; try reflexivity.
    apply String.eqb_eq in E1, E2.
    assert (Hs : s1 = s2).
    { unfold s1, s2, group_s1, group_s2. congruence. }
    rewrite Hs. reflexivity.
  - apply ratio_bounds; [apply strain_freq_nonneg, Hg.. | exact Hpos].
Qed.

Lemma normalization_rewrites_group_witness :
  Examples.ypd_grouped !! 0%nat = Some (GRow 0 "1" "P3B3" 3)
  /\ (0 < group_s1 "P3B3" Examples.ypd_grouped (GRow 0 "1" "P3B3" 3)
          + group_s2 "P3H1" Examples.ypd_grouped (GRow 0 "1" "P3B3" 3))%Q
  /\ exists normalized,
       normalize "P3B3" "P3H1" Examples.ypd_grouped = Some normalized
       /\ (exists q, normalized !! 0%nat = Some (GRow 0 "1" "P3B3" q) /\ (q == 3 # 4)%Q).
Proof.
  assert (H0 : Examples.ypd_grouped !! 0%nat = Some (GRow 0 "1" "P3B3" 3))
    by (vm_compute; reflexivity).
  assert (Hpos : (0 < group_s1 "P3B3" Examples.ypd_grouped (GRow 0 "1" "P3B3" 3)
                      + group_s2 "P3H1" Examples.ypd_grouped (GRow 0 "1" "P3B3" 3))%Q)
    by (vm_compute; reflexivity).
  split; [exact H0|]. split; [exact Hpos|].
  destruct (normalization_rewrites_group Examples.strain_df
              (or_introl (ex_intro _ Examples.strain_analyzer eq_refl))
              "1" "YPD" "P3B3" "P3H1" 0%nat (GRow 0 "1" "P3B3" 3) H0 Hpos)
    as (normalized & Hn & Hrow & _).
  exists normalized. split; [exact Hn|].
  eexists. split; [exact Hrow|]. vm_compute. reflexivity.
Defined.

(** C2. In the normalization step the quotient by the two-strain sum is
    taken only under the guard [total > 0]: the loop body leaves a table
    untouched when the guard fails, the loop over any table ends without
    having divided by zero, and every row of a group whose two expected
    strain frequencies sum to zero is left as it was. *)
Theorem normalization_skips_zero_groups :
  forall (e1 e2 : string) (grouped : list grow),
    (forall tp rep,
        let tp_rep_data := List.filter (mask tp rep) grouped in
        ~ (0 < strain_freq tp_rep_data e1 + strain_freq tp_rep_data e2)%Q ->
        normalize_group e1 e2 tp rep grouped = Some grouped)
    /\ exists normalized,
         normalize e1 e2 grouped = Some normalized
         /\ length normalized = length grouped
         /\ forall (i : nat) (r : grow),
              grouped !! i = Some r ->
              (group_s1 e1 grouped r + group_s2 e2 grouped r == 0)%Q ->
              normalized !! i = Some r.
Proof.
  intros e1 e2 grouped. split.
  - intros tp rep tp_rep_data Hguard. unfold normalize_group. fold tp_rep_data.
    destruct (Qlt_le_dec 0 _) as [Hpos|_]; [contradiction | reflexivity].
  - exists (List.map (norm_row e1 e2 grouped) grouped).
    split; [apply normalize_rows|]. split; [apply List.length_map|].
    intros i r Hi Hzero.
    change (List.map (norm_row e1 e2 grouped) grouped) with (norm_row e1 e2 grouped <$> grouped).
    rewrite list_lookup_fmap, Hi. simpl. f_equal.
    unfold norm_row.
    destruct (Qlt_le_dec 0 _) as [Hpos|_]; [|reflexivity].
    rewrite Hzero in Hpos. exfalso. exact (Qlt_irrefl _ Hpos).
Qed.

Lemma normalization_skips_zero_groups_witness :
  Examples.ypd_grouped !! 4%nat = Some (GRow 3 "1" "X" 7)
  /\ (group_s1 "P3B3" Examples.ypd_grouped (GRow 3 "1" "X" 7)
      + group_s2 "P3H1" Examples.ypd_grouped (GRow 3 "1" "X" 7) == 0)%Q
  /\ exists normalized,
       normalize "P3B3" "P3H1" Examples.ypd_grouped = Some normalized
       /\ normalized !! 4%nat = Some (GRow 3 "1" "X" 7).
Proof.
  assert (H4 : Examples.ypd_grouped !! 4%nat = Some (GRow 3 "1" "X" 7))
    by (vm_compute; reflexivity).
  assert (Hz : (group_s1 "P3B3" Examples.ypd_grouped (GRow 3 "1" "X" 7)
                + group_s2 "P3H1" Examples.ypd_grouped (GRow 3 "1" "X" 7) == 0)%Q)
    by (vm_compute; reflexivity).
  split; [exact H4|]. split; [exact Hz|].
  destruct (normalization_skips_zero_groups "P3B3" "P3H1" Examples.ypd_grouped)
    as (_ & normalized & Hn & _ & Hrows).
  exists normalized. split; [exact Hn|]. exact (Hrows 4%nat _ H4 Hz).
Defined.

End NormalizationClaims.

(** ** The records of [process_all_data] *)

Section JoinerClaims.
Import Py Frames.

(** C3. For every barcode-count table and plate map, [process_all_data]
    returns a frame, and every record of it has a strictly positive
    frequency: it is the count, at some row of a sample column whose name
    parses and whose key is in the plate map, that passed the filter
    [count > 0]; its [barcode] is the first-column value of that row, and
    its [pair], [condition], [timepoint] and [replicate] are those of the
    plate-map entry of that column. This holds in both scripts. *)
Theorem process_all_data_records_positive :
  (forall a : StrainCompetition.analyzer,
      exists df,
        returned (StrainCompetition.process_all_data a) = Ok df
        /\ forall r, r ∈ df ->
             (0 < frequency r)%Q
             /\ exists col parsed md i,
                  col ∈ sample_columns (StrainCompetition.barcode_data a)
                  /\ _parse_column_name col.1 = Some parsed
                  /\ StrainCompetition.plate_map a !! key_of parsed = Some md
                  /\ (first_column (StrainCompetition.barcode_data a)).2 !! i
                     = Some (barcode r)
                  /\ col.2 !! i = Some (Some (frequency r))
                  /\ pair r = StrainCompetition.m_pair md
                  /\ condition r = StrainCompetition.m_condition md
                  /\ Py.int (StrainCompetition.m_timepoint md) = Some (timepoint r)
                  /\ replicate r = StrainCompetition.m_replicate md)
  /\ (forall a : TwelveWell.analyzer,
      exists df,
        returned (TwelveWell.process_all_data a) = Ok df
        /\ forall r, r ∈ df ->
             (0 < frequency r)%Q
             /\ exists col parsed md i,
                  col ∈ sample_columns (TwelveWell.barcode_data a)
                  /\ _parse_column_name col.1 = Some parsed
                  /\ TwelveWell.plate_map a !! key_of parsed = Some md
                  /\ (first_column (TwelveWell.barcode_data a)).2 !! i
                     = Some (barcode r)
                  /\ col.2 !! i = Some (Some (frequency r))
                  /\ pair r = TwelveWell.m_pair md
                  /\ condition r = TwelveWell.m_condition md
                  /\ Py.int (TwelveWell.m_timepoint md) = Some (timepoint r)
                  /\ replicate r = TwelveWell.m_replicate md).
Proof.
  split; intros a.
  - rewrite strain_process_all_data, strain_process_columns.
    eexists. split; [reflexivity|]. intros r Hr.
    apply elem_of_flat_map_fst in Hr as (col & Hcol & Hr).
    apply strain_process_column_record in Hr
      as (parsed & md & i & Hp & Hk & _ & Hb & Hc & Hq & H1 & H2 & H3 & H4).
    split; [exact Hq|]. exists col, parsed, md, i. repeat split; assumption.
  - rewrite twelve_process_all_data, twelve_process_columns.
    eexists. split; [reflexivity|]. intros r Hr.
    apply elem_of_flat_map_fst in Hr as (col & Hcol & Hr).
    apply twelve_process_column_record in Hr
      as (parsed & md & i & Hp & Hk & Hb & Hc & Hq & H1 & H2 & H3 & H4).
    split; [exact Hq|]. exists col, parsed, md, i. repeat split; assumption.
Qed.

Lemma process_all_data_records_positive_witness :
  exists df,
    returned (StrainCompetition.process_all_data Examples.strain_analyzer) = Ok df
    /\ Record_ "P3H1" 1 "1" "YPD" 0 "1" ∈ df
    /\ (0 < frequency (Record_ "P3H1" 1 "1" "YPD" 0 "1"))%Q.
Proof.
  destruct (proj1 process_all_data_records_positive Examples.strain_analyzer)
    as (df & Hdf & Hrec).
  exists df. split; [exact Hdf|].
  assert (Hin : Record_ "P3H1" 1 "1" "YPD" 0 "1" ∈ df).
  { vm_compute in Hdf. injection Hdf as <-. right. left. }
  split; [exact Hin|]. exact (proj1 (Hrec _ Hin)).
Defined.

(** C10. Every record of [process_all_data] has an integer timepoint, the
    one [int] reads from the plate-map entry of its column; a sample
    column whose entry has a timepoint that [int] rejects appends no
    record and prints nothing, and the frame and the output of
    [process_all_data] are those of the columns, one after the other. This
    holds in both scripts. *)
Theorem invalid_timepoint_dropped_silently :
  (forall (a : StrainCompetition.analyzer),
      let bd := StrainCompetition.barcode_data a in
      let pm := StrainCompetition.plate_map a in
      (forall col parsed md,
          _parse_column_name col.1 = Some parsed ->
          pm !! key_of parsed = Some md ->
          Py.int (StrainCompetition.m_timepoint md) = None ->
          StrainCompetition.process_column bd pm col = ([], []))
      /\ returned (StrainCompetition.process_all_data a)
         = Ok (flat_map (fun col => (StrainCompetition.process_column bd pm col).1)
                        (sample_columns bd))
      /\ events (StrainCompetition.process_all_data a)
         = flat_map (fun col => (StrainCompetition.process_column bd pm col).2)
                    (sample_columns bd)
      /\ forall col r,
           r ∈ (StrainCompetition.process_column bd pm col).1 ->
           exists parsed md,
             _parse_column_name col.1 = Some parsed
             /\ pm !! key_of parsed = Some md
             /\ Py.int (StrainCompetition.m_timepoint md) = Some (timepoint r))
  /\ (forall (a : TwelveWell.analyzer),
      let bd := TwelveWell.barcode_data a in
      let pm := TwelveWell.plate_map a in
      (forall col parsed md,
          _parse_column_name col.1 = Some parsed ->
          pm !! key_of parsed = Some md ->
          Py.int (TwelveWell.m_timepoint md) = None ->
          TwelveWell.process_column bd pm col = ([], []))
      /\ returned (TwelveWell.process_all_data a)
         = Ok (flat_map (fun col => (TwelveWell.process_column bd pm col).1)
                        (sample_columns bd))
      /\ events (TwelveWell.process_all_data a)
         = flat_map (fun col => (TwelveWell.process_column bd pm col).2)
                    (sample_columns bd)
      /\ forall col r,
           r ∈ (TwelveWell.process_column bd pm col).1 ->
           exists parsed md,
             _parse_column_name col.1 = Some parsed
             /\ pm !! key_of parsed = Some md
             /\ Py.int (TwelveWell.m_timepoint md) = Some (timepoint r)).
Proof.
  split; intros a bd pm; (split; [|split; [|split]]).
  - intros col parsed md Hp Hk Hi. unfold StrainCompetition.process_column.
    rewrite Hp, Hk, Hi.
    destruct (negb _); [reflexivity|]. f_equal.
    induction (positive_rows _ _) as [|x l IH]; [reflexivity | exact IH].
  - rewrite strain_process_all_data. unfold returned. simpl.
    rewrite strain_process_columns. reflexivity.
  - rewrite strain_process_all_data. unfold events. simpl.
    rewrite strain_process_columns. reflexivity.
  - intros col r Hr.
    apply strain_process_column_record in Hr
      as (parsed & md & i & Hp & Hk & _ & _ & _ & _ & _ & _ & Hi & _).
    exists parsed, md. repeat split; assumption.
  - intros col parsed md Hp Hk Hi. unfold TwelveWell.process_column.
    rewrite Hp, Hk, Hi. f_equal.
    induction (positive_rows _ _) as [|x l IH]; [reflexivity | exact IH].
  - rewrite twelve_process_all_data. unfold returned. simpl.
    rewrite twelve_process_columns. reflexivity.
  - rewrite twelve_process_all_data. unfold events. simpl.
    rewrite twelve_process_columns. reflexivity.
  - intros col r Hr.
    apply twelve_process_column_record in Hr
      as (parsed & md & i & Hp & Hk & _ & _ & _ & _ & _ & Hi & _).
    exists parsed, md. repeat split; assumption.
Qed.

Lemma invalid_timepoint_dropped_silently_witness :
  _parse_column_name "CoexP2_A2" = Some (2%Z, "A2")
  /\ Examples.strain_plate_map !! "P2_A2"
     = Some (StrainCompetition.Entry "pair" "1" "YPD" "1" "T1")
  /\ Py.int "T1" = None
  /\ StrainCompetition.process_column Examples.count_table Examples.strain_plate_map
       ("CoexP2_A2", [Some 3%Q; Some 1%Q; Some 0%Q]) = ([], []).
Proof.
  assert (Hp : _parse_column_name "CoexP2_A2" = Some (2%Z, "A2")) by reflexivity.
  assert (Hk : Examples.strain_plate_map !! "P2_A2"
               = Some (StrainCompetition.Entry "pair" "1" "YPD" "1" "T1"))
    by (vm_compute; reflexivity).
  assert (Hi : Py.int "T1" = None) by reflexivity.
  split; [exact Hp|]. split; [exact Hk|]. split; [exact Hi|].
  exact (proj1 (proj1 invalid_timepoint_dropped_silently Examples.strain_analyzer)
           ("CoexP2_A2", [Some 3%Q; Some 1%Q; Some 0%Q]) _ _ Hp Hk Hi).
Defined.

End JoinerClaims.

(** ** Rows and columns the scripts cannot use *)

Section SkippingClaims.
Import Py Frames.

(** The 12-well script prints nothing while it processes the columns. *)
Lemma twelve_process_column_silent bd (pm : gmap string TwelveWell.entry) col :
  (TwelveWell.process_column bd pm col).2 = [].
Proof.
  unfold TwelveWell.process_column.
  destruct (_parse_column_name col.1) as [parsed|]; [|reflexivity].
  destruct (pm !! key_of parsed); reflexivity.
Qed.

Lemma twelve_process_all_data_silent a :
  events (TwelveWell.process_all_data a) = [].
Proof.
  rewrite twelve_process_all_data, twelve_process_columns. unfold events. cbn [snd].
  induction (sample_columns (TwelveWell.barcode_data a)) as [|col cols IH];
    [reflexivity|].
  cbn [flat_map]. rewrite twelve_process_column_silent, IH. reflexivity.
Qed.

(** C5, as stated, fails in the script that runs as committed. The sample
    count table has a column whose name does not parse ([Sample_7]) and a
    parsed column whose key is absent from the plate map ([CoexP2_A9]),
    and the sample plate map file has rows whose condition string is not
    of the expected shape ([blank]). The constructor of the 12-well script
    prints its one closing line, [process_all_data] prints nothing, and no
    record comes from the two columns: no warning is printed for any of
    the three. *)
Lemma twelve_well_skips_print_nothing :
  (("Sample_7", [Some 1%Q; Some 1%Q; Some 1%Q]) ∈ sample_columns Examples.count_table
   /\ _parse_column_name "Sample_7" = None)
  /\ (("CoexP2_A9", [Some 3%Q; None; Some 2%Q]) ∈ sample_columns Examples.count_table
      /\ _parse_column_name "CoexP2_A9" = Some (2%Z, "A9")
      /\ Examples.twelve_plate_map !! key_of (2%Z, "A9") = None)
  /\ (PlateRow (CInt 2) (CStr "A5") (CStr "blank") ∈ Examples.plate_rows
      /\ TwelveWell.entry_of_parts (split "_" (strip "blank")) = None)
  /\ TwelveWell.__init__ Examples.files "counts.csv" "plate_map.csv"
     = Ok (Examples.twelve_analyzer, [Printed "Loaded 1 wells from 12-well plates"])
  /\ TwelveWell.process_all_data Examples.twelve_analyzer
     = (Ok [Record_ "P3B3" 3 "1" "YPD" 1 "2"; Record_ "X" 2 "1" "YPD" 1 "2"],
        Examples.twelve_analyzer, []).
Proof.
  split; [split;
          [apply list_elem_of_In; simpl; repeat (first [left; reflexivity | right])
          | reflexivity]|].
  split; [split;
          [apply list_elem_of_In; simpl; repeat (first [left; reflexivity | right])
          | split; [reflexivity | vm_compute; reflexivity]]|].
  split; [split;
          [apply list_elem_of_In; simpl; repeat (first [left; reflexivity | right])
          | reflexivity]|].
  split; [vm_compute; reflexivity|].
  rewrite twelve_process_all_data. vm_compute. reflexivity.
Qed.

(** C5, amended. In the 12-well script a barcode-table column whose name
    does not parse, and a parsed column whose plate/well key is absent from
    the plate map, give no record and no output; a plate-map row whose
    condition string is not a [C_] entry of at least five parts leaves the
    mapping as it was. Nothing is printed for any of them: whatever the
    rows are, the loader prints its one closing line only, and
    [process_all_data] prints nothing at all. *)
Theorem unusable_rows_and_columns_skipped :
  (forall bd (pm : gmap string TwelveWell.entry) col,
      _parse_column_name col.1 = None ->
      TwelveWell.process_column bd pm col = ([], []))
  /\ (forall bd (pm : gmap string TwelveWell.entry) col parsed,
      _parse_column_name col.1 = Some parsed ->
      pm !! key_of parsed = None ->
      TwelveWell.process_column bd pm col = ([], []))
  /\ (forall (pm : gmap string TwelveWell.entry) row,
      TwelveWell.entry_of_parts (split "_" (strip (str_cell (third_column row)))) = None ->
      TwelveWell.load_row pm row = pm)
  /\ (forall d platemap_file pm evs,
      TwelveWell._load_plate_map d platemap_file = Ok (pm, evs) ->
      evs = [Printed ("Loaded " +:+ str_nat (size pm) +:+ " wells from 12-well plates")])
  /\ (forall a, events (TwelveWell.process_all_data a) = []).
Proof.
  split; [|split; [|split; [|split]]].
  - intros bd pm col Hp. unfold TwelveWell.process_column. rewrite Hp. reflexivity.
  - intros bd pm col parsed Hp Hk. unfold TwelveWell.process_column.
    rewrite Hp, Hk. reflexivity.
  - intros pm row He. unfold TwelveWell.load_row. rewrite He. reflexivity.
  - intros d file pm evs. unfold TwelveWell._load_plate_map, mbind, result_bind, Py.bind.
    destruct (read_plate_map d file) as [df|]; [|discriminate].
    intros Hl. injection Hl as <- <-. reflexivity.
  - apply twelve_process_all_data_silent.
Qed.

Lemma unusable_rows_and_columns_skipped_witness :
  (_parse_column_name "Sample_7" = None
   /\ TwelveWell.process_column Examples.count_table Examples.twelve_plate_map
        ("Sample_7", [Some 1%Q]) = ([], []))
  /\ (_parse_column_name "CoexP2_A9" = Some (2%Z, "A9")
      /\ Examples.twelve_plate_map !! "P2_A9" = None
      /\ TwelveWell.process_column Examples.count_table Examples.twelve_plate_map
           ("CoexP2_A9", [Some 3%Q]) = ([], []))
  /\ (TwelveWell.entry_of_parts (split "_" (strip "P_1_YPD_1_0")) = None
      /\ TwelveWell.load_row Examples.twelve_plate_map
           (PlateRow (CInt 2) (CStr "A1") (CStr "P_1_YPD_1_0"))
         = Examples.twelve_plate_map)
  /\ (TwelveWell._load_plate_map Examples.files "plate_map.csv"
      = Ok (Examples.twelve_plate_map, [Printed "Loaded 1 wells from 12-well plates"])
      /\ [Printed "Loaded 1 wells from 12-well plates"]
         = [Printed ("Loaded " +:+ str_nat (size Examples.twelve_plate_map)
                       +:+ " wells from 12-well plates")]).
Proof.
  destruct unusable_rows_and_columns_skipped as (H1 & H2 & H3 & H4 & _).
  assert (Hk : Examples.twelve_plate_map !! "P2_A9" = None) by (vm_compute; reflexivity).
  assert (Hl : TwelveWell._load_plate_map Examples.files "plate_map.csv"
               = Ok (Examples.twelve_plate_map,
                     [Printed "Loaded 1 wells from 12-well plates"]))
    by (vm_compute; reflexivity).
  split; [split; [reflexivity | exact (H1 _ _ ("Sample_7", _) eq_refl)]|].
  split; [split; [reflexivity | split; [exact Hk|]];
          exact (H2 Examples.count_table _ ("CoexP2_A9", [Some 3%Q]) (2%Z, "A9") eq_refl Hk)|].
  split; [split; [reflexivity|];
          exact (H3 _ (PlateRow (CInt 2) (CStr "A1") (CStr "P_1_YPD_1_0")) eq_refl)|].
  split; [exact Hl|]. exact (H4 _ _ _ _ Hl).
Defined.

End SkippingClaims.

(** ** The plate map *)

Section PlateMapClaims.
Import Py Frames.

(** C6. For every plate-map frame, every entry of the mapping built by
    [_load_plate_map] sits under the key ["P<plate>_<well>"] made of the
    PLATE and WELL values of one of the rows, and its value, with the
    fields pair, condition, replicate and timepoint, is what the branches
    of the loader give for the parts of that row's third column, split on
    underscores. This holds in both scripts. *)
Theorem plate_map_entries_from_rows :
  (forall (d : disk) (platemap_file : string) pm,
      StrainCompetition._load_plate_map d platemap_file = Ok pm ->
      forall key e, pm !! key = Some e ->
        exists df row s,
          read_plate_map d platemap_file = Ok df
          /\ row ∈ df
          /\ third_column row = CStr s
          /\ key = "P" +:+ str_cell (PLATE row) +:+ "_" +:+ str_cell (WELL row)
          /\ StrainCompetition.entry_of_parts (split "_" (strip s)) = Some e)
  /\ (forall (d : disk) (platemap_file : string) pm evs,
      TwelveWell._load_plate_map d platemap_file = Ok (pm, evs) ->
      forall key e, pm !! key = Some e ->
        exists df row,
          read_plate_map d platemap_file = Ok df
          /\ row ∈ df
          /\ key = "P" +:+ str_cell (PLATE row) +:+ "_" +:+ str_cell (WELL row)
          /\ TwelveWell.entry_of_parts
               (split "_" (strip (str_cell (third_column row)))) = Some e).
Proof.
  split.
  - intros d file pm Hload key e Hlook.
    unfold StrainCompetition._load_plate_map, mbind, result_bind, Py.bind in Hload.
    destruct (read_plate_map d file) as [df|exn] eqn:Hread; [|discriminate].
    destruct (strain_load_rows_entries df ∅ pm Hload key e Hlook)
      as [Hempty|(row & s & Hin & Hc & Hk & He)].
    + rewrite lookup_empty in Hempty. discriminate.
    + exists df, row, s. repeat split; assumption.
  - intros d file pm evs Hload key e Hlook.
    unfold TwelveWell._load_plate_map, mbind, result_bind, Py.bind in Hload.
    destruct (read_plate_map d file) as [df|exn] eqn:Hread; [|discriminate].
    injection Hload as <- _.
    destruct (twelve_load_rows_entries df ∅ key e Hlook)
      as [Hempty|(row & Hin & Hk & He)].
    + rewrite lookup_empty in Hempty. discriminate.
    + exists df, row. repeat split; assumption.
Qed.

Lemma plate_map_entries_from_rows_witness :
  StrainCompetition._load_plate_map Examples.files "plate_map.csv"
  = Ok Examples.strain_plate_map
  /\ Examples.strain_plate_map !! "P2_A4"
     = Some (StrainCompetition.Entry "pair" "1" "SALT" "1" "1")
  /\ exists df row s,
       read_plate_map Examples.files "plate_map.csv" = Ok df
       /\ row ∈ df
       /\ third_column row = CStr s
       /\ "P2_A4" = "P" +:+ str_cell (PLATE row) +:+ "_" +:+ str_cell (WELL row)
       /\ StrainCompetition.entry_of_parts (split "_" (strip s))
          = Some (StrainCompetition.Entry "pair" "1" "SALT" "1" "1").
Proof.
  assert (Hload : StrainCompetition._load_plate_map Examples.files "plate_map.csv"
                  = Ok Examples.strain_plate_map) by reflexivity.
  assert (Hlook : Examples.strain_plate_map !! "P2_A4"
                  = Some (StrainCompetition.Entry "pair" "1" "SALT" "1" "1"))
    by (vm_compute; reflexivity).
  split; [exact Hload|]. split; [exact Hlook|].
  exact (proj1 plate_map_entries_from_rows _ _ _ Hload _ _ Hlook).
Defined.

(** C7. The plate map is built in the constructor, by its one call of
    [_load_plate_map], and no later operation changes it: after
    [process_all_data], [create_pair_plot], [export_processed_data] or
    [get_pair_summary] (and after the loop over all pairs), and after any
    run of these operations, [plate_map] is the mapping the constructor
    built, whether or not the files the operations write can be written.
    This holds in both scripts (the 12-well script has no
    [get_pair_summary]). *)
Theorem plate_map_immutable_after_init :
  forall `{Output},
  (forall d barcode_file platemap_file a,
      StrainCompetition.__init__ d barcode_file platemap_file = Ok a ->
      StrainCompetition._load_plate_map d platemap_file
      = Ok (StrainCompetition.plate_map a)
      /\ (forall op,
             StrainCompetition.plate_map (self_after (StrainCompetition.call op a))
             = StrainCompetition.plate_map a)
      /\ (forall ops,
             StrainCompetition.plate_map (StrainCompetition.run_all ops a)
             = StrainCompetition.plate_map a))
  /\ (forall d barcode_file platemap_file a evs,
      TwelveWell.__init__ d barcode_file platemap_file = Ok (a, evs) ->
      TwelveWell._load_plate_map d platemap_file = Ok (TwelveWell.plate_map a, evs)
      /\ (forall op,
             TwelveWell.plate_map (self_after (TwelveWell.call op a))
             = TwelveWell.plate_map a)
      /\ (forall ops,
             TwelveWell.plate_map (TwelveWell.run_all ops a) = TwelveWell.plate_map a)).
Proof.
  intros out. split.
  - intros d bf pf a Hinit.
    unfold StrainCompetition.__init__, mbind, result_bind, Py.bind in Hinit.
    destruct (read_counts d bf) as [bd|]; [|discriminate].
    destruct (StrainCompetition._load_plate_map d pf) as [pm|]; [|discriminate].
    injection Hinit as <-. simpl.
    split; [reflexivity|]. split.
    + intros op. rewrite strain_call_self. reflexivity.
    + intros ops.
      assert (H : forall a, StrainCompetition.run_all ops a = a).
      { unfold StrainCompetition.run_all.
        induction ops as [|op ops IH]; intros a; simpl; [reflexivity|].
        rewrite strain_call_self. apply IH. }
      rewrite H. reflexivity.
  - intros d bf pf a evs Hinit.
    unfold TwelveWell.__init__, mbind, result_bind, Py.bind in Hinit.
    destruct (read_counts d bf) as [bd|]; [|discriminate].
    destruct (TwelveWell._load_plate_map d pf) as [[pm evs']|]; [|discriminate].
    injection Hinit as <- <-. simpl.
    split; [reflexivity|]. split.
    + intros op. rewrite twelve_call_self. reflexivity.
    + intros ops.
      assert (H : forall a, TwelveWell.run_all ops a = a).
      { unfold TwelveWell.run_all.
        induction ops as [|op ops IH]; intros a; simpl; [reflexivity|].
        rewrite twelve_call_self. apply IH. }
      rewrite H. reflexivity.
Qed.

Lemma plate_map_immutable_after_init_witness :
  StrainCompetition.__init__ Examples.files "counts.csv" "plate_map.csv"
  = Ok Examples.strain_analyzer
  /\ StrainCompetition.plate_map
       (self_after (StrainCompetition.call (H := Examples.writable)
                      (StrainCompetition.CreatePairPlot "1") Examples.strain_analyzer))
     = StrainCompetition.plate_map Examples.strain_analyzer.
Proof.
  assert (Hinit : StrainCompetition.__init__ Examples.files "counts.csv" "plate_map.csv"
                  = Ok Examples.strain_analyzer) by reflexivity.
  split; [exact Hinit|].
  exact (proj1 (proj2 (proj1 (plate_map_immutable_after_init (H := Examples.writable))
                         _ _ _ _ Hinit))
           (StrainCompetition.CreatePairPlot "1")).
Defined.

End PlateMapClaims.

(** ** Matching *)

Section Matching.
Import Py Re.

Lemma lit_app l s : lit l (l +:+ s) = Some s.
Proof.
  induction l as [|a l IH]; simpl; [reflexivity|].
  rewrite Ascii.eqb_refl. exact IH.
Qed.

Lemma length_app_string u s : String.length (u +:+ s) = (String.length u + String.length s)%nat.
Proof. induction u as [|a u IH]; simpl; [reflexivity | rewrite IH; reflexivity]. Qed.

Lemma substring_prefix u s : String.substring 0 (String.length u) (u +:+ s) = u.
Proof. induction u as [|a u IH]; simpl; [destruct s; reflexivity | rewrite IH; reflexivity]. Qed.

Lemma consumed_app u s : consumed (u +:+ s) s = u.
Proof.
  unfold consumed. rewrite length_app_string.
  replace (String.length u + String.length s - String.length s)%nat
    with (String.length u) by lia.
  apply substring_prefix.
Qed.

(** A greedy run takes the whole of a maximal run of the class when the
    rest of the pattern accepts what follows it. *)
Lemma star_maximal p u s k res :
  all_of p u = true -> stops p s = true -> k s = Some res ->
  star p (u +:+ s) k = Some res.
Proof.
  intros Hu Hs Hk. induction u as [|a u IH]; simpl in *.
  - destruct s as [|c s']; simpl in *; [exact Hk|].
    apply negb_true_iff in Hs. rewrite Hs. exact Hk.
  - apply andb_true_iff in Hu as [Ha Hu]. rewrite Ha, (IH Hu). reflexivity.
Qed.

Lemma run_Seq r1 r2 s gs k :
  run (Seq r1 r2) s gs k = run r1 s gs (fun rest gs' => run r2 rest gs' k).
Proof. reflexivity. Qed.

Lemma run_Str l s gs k : run (Str l) (l +:+ s) gs k = k s gs.
Proof. simpl. rewrite lit_app. reflexivity. Qed.

Lemma run_Grp_Cls p c s gs k :
  p c = true -> run (Grp (Cls p)) (String c s) gs k = k s (gs ++ [String c ""]).
Proof.
  intros Hc. simpl. rewrite Hc.
  change (String c s) with (String c "" +:+ s). rewrite consumed_app. reflexivity.
Qed.

Lemma run_Plus p u s gs k res :
  u <> "" -> all_of p u = true -> stops p s = true -> k s gs = Some res ->
  run (Plus p) (u +:+ s) gs k = Some res.
Proof.
  intros Hne Hu Hs Hk. destruct u as [|a u]; [contradiction|].
  simpl in *. apply andb_true_iff in Hu as [Ha Hu]. rewrite Ha.
  apply (star_maximal p u s (fun rest => k rest gs)); assumption.
Qed.

Lemma run_Grp_Plus p u s gs k res :
  u <> "" -> all_of p u = true -> stops p s = true -> k s (gs ++ [u]) = Some res ->
  run (Grp (Plus p)) (u +:+ s) gs k = Some res.
Proof.
  intros Hne Hu Hs Hk.
  change (run (Grp (Plus p)) (u +:+ s) gs k)
    with (run (Plus p) (u +:+ s) gs
              (fun rest gs' => k rest (gs' ++ [consumed (u +:+ s) rest]))).
  apply run_Plus; [assumption..|]. rewrite consumed_app. exact Hk.
Qed.

(** The file names the pattern is written for, and what it captures. *)
Lemma pattern_matches (r : ascii) (project digits sample rest : string) :
  one_of "12" r = true ->
  project <> "" -> all_of (none_of "_") project = true ->
  digits <> "" -> all_of is_digit digits = true ->
  sample <> "" -> all_of (none_of ".") sample = true ->
  py_match Rename.pattern
    ("000000000-GRN6V_l01_n0"
       +:+ String r ("_" +:+ project +:+ "_" +:+ digits +:+ "__" +:+ sample
                       +:+ ".fastq.gz" +:+ rest))
  = Some [String r ""; project; sample].
Proof.
  intros Hr Hp1 Hp2 Hd1 Hd2 Hs1 Hs2.
  unfold py_match, Rename.pattern. cbn [cat].
  rewrite run_Seq, run_Str.
  rewrite run_Seq, (run_Grp_Cls _ _ _ _ _ Hr).
  rewrite run_Seq, run_Str.
  rewrite run_Seq. apply run_Grp_Plus; [assumption.. | reflexivity |].
  rewrite run_Seq, run_Str.
  rewrite run_Seq. apply run_Plus; [assumption.. | reflexivity |].
  rewrite run_Seq, run_Str.
  rewrite run_Seq. apply run_Grp_Plus; [assumption.. | reflexivity |].
  rewrite run_Str. reflexivity.
Qed.

Lemma digit_not_upper c : is_digit c = true -> in_range "A" "Z" c = false.
Proof.
  unfold is_digit, in_range. intros H.
  apply andb_true_iff in H as [_ H]. apply N.leb_le in H.
  apply andb_false_iff. left. apply N.leb_gt.
  change (N_of_ascii "A") with 65%N. lia.
Qed.

(** What the well pattern captures: the leading letters and digits of the
    sample name, whatever follows them. *)
Lemma well_pattern_matches (letters number rest : string) :
  letters <> "" -> all_of (in_range "A" "Z") letters = true ->
  number <> "" -> all_of is_digit number = true ->
  stops is_digit rest = true ->
  py_match Rename.well_pattern (letters +:+ number +:+ rest) = Some [letters; number].
Proof.
  intros Hl1 Hl2 Hn1 Hn2 Hrest.
  unfold py_match, Rename.well_pattern. cbn [cat].
  rewrite run_Seq. apply run_Grp_Plus; [assumption.. | |].
  - destruct number as [|c number]; [contradiction|].
    simpl in *. apply andb_true_iff in Hn2 as [Hc _].
    rewrite (digit_not_upper c Hc). reflexivity.
  - apply run_Grp_Plus; [assumption.. | reflexivity].
Qed.

(** A sample name that is uppercase letters followed by digits gets its
    digits padded; one that starts that way loses what follows. *)
Lemma sample_name_padded_well (letters number rest : string) :
  letters <> "" -> all_of (in_range "A" "Z") letters = true ->
  number <> "" -> all_of is_digit number = true ->
  stops is_digit rest = true ->
  Rename.sample_name_padded (letters +:+ number +:+ rest) = letters +:+ zfill 2 number.
Proof.
  intros. unfold Rename.sample_name_padded.
  rewrite well_pattern_matches by assumption. reflexivity.
Qed.

(** The new name of a file the pattern is written for. *)
Lemma new_name_of_sequencing_file (r : ascii) (project digits sample rest : string) :
  one_of "12" r = true ->
  project <> "" -> all_of (none_of "_") project = true ->
  digits <> "" -> all_of is_digit digits = true ->
  sample <> "" -> all_of (none_of ".") sample = true ->
  Rename.new_name
    ("000000000-GRN6V_l01_n0"
       +:+ String r ("_" +:+ project +:+ "_" +:+ digits +:+ "__" +:+ sample
                       +:+ ".fastq.gz" +:+ rest))
  = Some (project +:+ "_" +:+ Rename.sample_name_padded sample
            +:+ "_R" +:+ String r "" +:+ ".fastq.gz").
Proof.
  intros. unfold Rename.new_name. rewrite pattern_matches by assumption. reflexivity.
Qed.

(** The file of the module docstring: the well number is padded. *)
Example new_name_of_docstring_file :
  Rename.new_name "000000000-GRN6V_l01_n02_CoexP1_1__A1.fastq.gz"
  = Some "CoexP1_A01_R2.fastq.gz".
Proof.
  exact (new_name_of_sequencing_file "2" "CoexP1" "1" "A1" ""
           eq_refl ltac:(discriminate) eq_refl ltac:(discriminate) eq_refl
           ltac:(discriminate) eq_refl).
Qed.

Example sample_name_padded_examples :
  Rename.sample_name_padded "A1" = "A01"
  /\ Rename.sample_name_padded "H12" = "H12"
  /\ Rename.sample_name_padded "AB7" = "AB07"
  /\ Rename.sample_name_padded "a1" = "a1"
  /\ Rename.sample_name_padded "blank" = "blank".
Proof. repeat split; reflexivity. Qed.

(** Only the matching names enter the work list. *)
Lemma elem_of_scan names fastq_path output_path item :
  item ∈ Rename.scan names fastq_path output_path <->
  exists n nn,
    n ∈ names /\ Rename.new_name n = Some nn
    /\ item = (Rename.joinpath fastq_path n, Rename.joinpath output_path nn).
Proof.
  unfold Rename.scan. rewrite list_elem_of_omap. split.
  - intros (n & Hin & Hf). destruct (Rename.new_name n) as [nn|] eqn:Hn; [|discriminate].
    injection Hf as <-. exists n, nn. repeat split; assumption.
  - intros (n & nn & Hin & Hn & ->). exists n. split; [exact Hin|].
    rewrite Hn. reflexivity.
Qed.

End Matching.

(** ** The rename utility *)

Section RenameClaims.
Import Py Re Rename.

(** C4, at an input where the code leaves the claim: the sample [A1x] is
    not uppercase letters followed by digits, and yet its new name is not
    built from [A1x]: the unanchored match of [([A-Z]+)(\d+)] pads the
    prefix [A1] and drops what follows it. Two files that differ only
    after that prefix get the same new name. *)
Theorem new_name_drops_sample_suffix :
  py_match pattern "000000000-GRN6V_l01_n01_CoexP1_1__A1x.fastq.gz"
  = Some ["1"; "CoexP1"; "A1x"]
  /\ new_name "000000000-GRN6V_l01_n01_CoexP1_1__A1x.fastq.gz"
     = Some "CoexP1_A01_R1.fastq.gz"
  /\ new_name "000000000-GRN6V_l01_n01_CoexP1_1__A1y.fastq.gz"
     = Some "CoexP1_A01_R1.fastq.gz".
Proof. repeat split; reflexivity. Qed.

(** In a dry run the loop leaves the file system, and the two counters,
    as they are. *)
Lemma dry_run_loop_frame `{FileSystem OS} output_dir use_symlinks items :
  forall st : loop_state OS,
    let final := foldl (process_file output_dir true use_symlinks) st items in
    fs final = fs st
    /\ success_count final = success_count st
    /\ error_count final = error_count st.
Proof.
  induction items as [|[old_path new_path] items IH]; intros st; simpl;
    [repeat split|].
  destruct (IH (process_file output_dir true use_symlinks st (old_path, new_path)))
    as (H1 & H2 & H3).
  simpl in *. rewrite H1, H2, H3. repeat split.
Qed.

(** What a dry run does to the file system: nothing when the files are
    renamed in place or the input directory is missing, and otherwise
    what creating the output directory does. *)
Lemma dry_run_frame `{FileSystem OS} (st : OS) fastq_dir output_dir use_symlinks :
  fs_after (rename_fastq_files st fastq_dir output_dir true use_symlinks)
  = if path_exists st (Path_of fastq_dir) && truthy output_dir
    then (mkdir_parents st (Path_of (default "" output_dir))).1
    else st.
Proof.
  unfold rename_fastq_files.
  destruct (path_exists st (Path_of fastq_dir)); simpl; [|reflexivity].
  destruct (truthy output_dir); simpl.
  - destruct (mkdir_parents st _) as [st1 [e|]]; simpl; [reflexivity|].
    destruct (scan _ _ _) as [|item items] eqn:Hscan; [reflexivity|].
    simpl. apply dry_run_loop_frame.
  - destruct (scan _ _ _) as [|item items] eqn:Hscan; [reflexivity|].
    simpl. apply dry_run_loop_frame.
Qed.

(** A missing input directory: one error line, and nothing else. *)
Lemma missing_directory_frame `{FileSystem OS} (st : OS) fastq_dir output_dir
    dry_run use_symlinks :
  path_exists st (Path_of fastq_dir) = false ->
  rename_fastq_files st fastq_dir output_dir dry_run use_symlinks
  = Outcome st ["Error: Directory " +:+ fastq_dir +:+ " does not exist"] None.
Proof. intros Hex. unfold rename_fastq_files. rewrite Hex. reflexivity. Qed.

(** C8, at an input where the code leaves the claim: a dry run with an
    output directory that is not there yet creates it, before the loop
    that honours [dry_run]; here it lies inside the scanned directory,
    whose contents are therefore not what they were. *)
Theorem dry_run_creates_output_directory :
  let before := Examples.sequencing_dir in
  let after := fs_after (rename_fastq_files before "d" (Some "d/renamed") true false) in
  before !! ["d"; "renamed"] = None
  /\ after !! ["d"; "renamed"] = Some Dir
  /\ ("renamed" ∉ scandir before ["d"])
  /\ ("renamed" ∈ scandir after ["d"])
  /\ after <> before.
Proof.
  intros before after.
  assert (H1 : before !! ["d"; "renamed"] = None) by (vm_compute; reflexivity).
  assert (H2 : after !! ["d"; "renamed"] = Some Dir) by (vm_compute; reflexivity).
  assert (H3 : scandir before ["d"]
               = ["CoexP1_A01_R2.fastq.gz";
                  "000000000-GRN6V_l01_n02_CoexP1_1__A1.fastq.gz";
                  "000000000-GRN6V_l01_n01_CoexP1_1__A1.fastq.gz"])
    by (vm_compute; reflexivity).
  assert (H4 : scandir after ["d"]
               = ["CoexP1_A01_R2.fastq.gz";
                  "000000000-GRN6V_l01_n02_CoexP1_1__A1.fastq.gz";
                  "000000000-GRN6V_l01_n01_CoexP1_1__A1.fastq.gz";
                  "renamed"])
    by (vm_compute; reflexivity).
  clearbody before after.
  split; [exact H1|]. split; [exact H2|]. split; [|split].
  - rewrite H3. intros Hin.
    repeat (apply elem_of_cons in Hin as [Hin|Hin]; [discriminate|]).
    apply elem_of_nil in Hin. exact Hin.
  - rewrite H4.
    repeat (first [apply list_elem_of_here | apply list_elem_of_further]).
  - intros Heq. rewrite Heq, H1 in H2. discriminate.
Qed.

(** C9, as stated, fails in a dry run: the second read of the sample
    directory is a matched file whose new path is already there, and the
    loop prints its [Would ...] line, no warning, and counts no error. *)
Lemma existing_destination_in_dry_run :
  let st := LoopState Examples.sequencing_dir [] 0 0 in
  let item := (["d"; "000000000-GRN6V_l01_n02_CoexP1_1__A1.fastq.gz"],
               ["d"; "CoexP1_A01_R2.fastq.gz"]) in
  item ∈ scan (glob_fastq_gz Examples.sequencing_dir ["d"]) ["d"] ["d"]
  /\ path_exists (fs st) item.2 = true
  /\ process_file None true false st item
     = LoopState Examples.sequencing_dir
         ["Would rename/copy: 000000000-GRN6V_l01_n02_CoexP1_1__A1.fastq.gz -> CoexP1_A01_R2.fastq.gz"]
         0 0.
Proof.
  intros st item. split; [|split].
  - vm_compute. repeat (first [apply list_elem_of_here | apply list_elem_of_further]).
  - vm_compute. reflexivity.
  - unfold st, item, process_file. cbn [fs out success_count error_count andb truthy].
    reflexivity.
Qed.

(** C9, amended. When [dry_run] is false, [rename_fastq_files] does not
    overwrite an existing destination: for every file of the work list
    whose new path already exists or is a symlink, the iteration for that
    file performs no operation (the file system, and with it the
    destination, is left as it is), prints the warning and increments the
    error count. *)
Theorem existing_destination_skipped :
  forall `{FileSystem OS} (output_dir : option string) (use_symlinks : bool)
         (st : loop_state OS) (old_path new_path : list string),
    path_exists (fs st) new_path || is_symlink (fs st) new_path = true ->
    process_file output_dir false use_symlinks st (old_path, new_path)
    = LoopState (fs st)
        (out st ++ ["Warning: " +:+ name new_path +:+ " already exists, skipping "
                      +:+ name old_path])
        (success_count st) (S (error_count st)).
Proof.
  intros OS H output_dir use_symlinks st old_path new_path Hex.
  unfold process_file. rewrite Hex. reflexivity.
Qed.

Lemma existing_destination_skipped_witness :
  let st := LoopState Examples.sequencing_dir [] 0 0 in
  path_exists (fs st) ["d"; "CoexP1_A01_R2.fastq.gz"]
    || is_symlink (fs st) ["d"; "CoexP1_A01_R2.fastq.gz"] = true
  /\ process_file None false false st
       (["d"; "000000000-GRN6V_l01_n02_CoexP1_1__A1.fastq.gz"],
        ["d"; "CoexP1_A01_R2.fastq.gz"])
     = LoopState Examples.sequencing_dir
         ([] ++ ["Warning: " +:+ name ["d"; "CoexP1_A01_R2.fastq.gz"]
                   +:+ " already exists, skipping "
                   +:+ name ["d"; "000000000-GRN6V_l01_n02_CoexP1_1__A1.fastq.gz"]])
         0 1.
Proof.
  intros st.
  assert (Hex : path_exists (fs st) ["d"; "CoexP1_A01_R2.fastq.gz"]
                  || is_symlink (fs st) ["d"; "CoexP1_A01_R2.fastq.gz"] = true)
    by (vm_compute; reflexivity).
  split; [exact Hex|].
  exact (existing_destination_skipped None false st
           ["d"; "000000000-GRN6V_l01_n02_CoexP1_1__A1.fastq.gz"]
           ["d"; "CoexP1_A01_R2.fastq.gz"] Hex).
Defined.

End RenameClaims.

(** * Further properties of the code *)

(** ** What the file-name pattern accepts *)

Section PatternInversion.
Import Py Re.

Lemma lit_inv l : forall s rest, lit l s = Some rest -> s = l +:+ rest.
Proof.
  induction l as [|a l IH]; intros s rest H; simpl in H.
  - injection H as ->. reflexivity.
  - destruct s as [|b s]; [discriminate|].
    destruct (Ascii.eqb a b) eqn:E; [|discriminate].
    apply Ascii.eqb_eq in E. subst b.
    change (String a l +:+ rest) with (String a (l +:+ rest)).
    f_equal. apply IH. exact H.
Qed.

Lemma star_inv p k res : forall s,
  star p s k = Some res ->
  exists u s', s = u +:+ s' /\ all_of p u = true /\ k s' = Some res.
Proof.
  induction s as [|c s IH]; simpl; intros H.
  - exists "", "". repeat split. exact H.
  - destruct (p c) eqn:Hc.
    + destruct (star p s k) as [r|] eqn:Hs.
      * injection H as ->. destruct (IH eq_refl) as (u & s' & -> & Hu & Hk).
        exists (String c u), s'. cbn [all_of]. rewrite Hc, Hu. repeat split. exact Hk.
      * exists "", (String c s). repeat split. exact H.
    + exists "", (String c s). repeat split. exact H.
Qed.

Lemma run_Str_inv l s gs k res :
  run (Str l) s gs k = Some res -> exists s', s = l +:+ s' /\ k s' gs = Some res.
Proof.
  simpl. destruct (lit l s) as [rest|] eqn:Hl; [|discriminate].
  intros H. exists rest. split; [apply lit_inv, Hl | exact H].
Qed.

Lemma run_Plus_inv p s gs k res :
  run (Plus p) s gs k = Some res ->
  exists u s', u <> "" /\ s = u +:+ s' /\ all_of p u = true /\ k s' gs = Some res.
Proof.
  simpl. destruct s as [|c s]; [discriminate|].
  destruct (p c) eqn:Hc; [|discriminate].
  intros H. apply star_inv in H as (u & s' & -> & Hu & Hk).
  exists (String c u), s'. cbn [all_of]. rewrite Hc, Hu.
  repeat split; [discriminate | exact Hk].
Qed.

Lemma run_Grp_Plus_inv p s gs k res :
  run (Grp (Plus p)) s gs k = Some res ->
  exists u s', u <> "" /\ s = u +:+ s' /\ all_of p u = true
               /\ k s' (gs ++ [u]) = Some res.
Proof.
  change (run (Grp (Plus p)) s gs k)
    with (run (Plus p) s gs (fun rest gs' => k rest (gs' ++ [consumed s rest]))).
  intros H. apply run_Plus_inv in H as (u & s' & Hne & -> & Hu & Hk).
  rewrite consumed_app in Hk. exists u, s'. repeat split; assumption.
Qed.

Lemma run_Grp_Cls_inv p s gs k res :
  run (Grp (Cls p)) s gs k = Some res ->
  exists c s', s = String c s' /\ p c = true /\ k s' (gs ++ [String c ""]) = Some res.
Proof.
  simpl. destruct s as [|c s]; [discriminate|].
  destruct (p c) eqn:Hc; [|discriminate].
  change (String c s) with (String c "" +:+ s). rewrite consumed_app.
  intros H. exists c, s. repeat split; assumption.
Qed.

(** Whatever the pattern matches has the shape it is written for. *)
Lemma pattern_inv n gs :
  py_match Rename.pattern n = Some gs ->
  exists (r : ascii) (project digits sample rest : string),
    one_of "12" r = true
    /\ project <> "" /\ all_of (none_of "_") project = true
    /\ digits <> "" /\ all_of is_digit digits = true
    /\ sample <> "" /\ all_of (none_of ".") sample = true
    /\ n = "000000000-GRN6V_l01_n0"
             +:+ String r ("_" +:+ project +:+ "_" +:+ digits +:+ "__" +:+ sample
                             +:+ ".fastq.gz" +:+ rest)
    /\ gs = [String r ""; project; sample].
Proof.
  unfold py_match, Rename.pattern. cbn [cat]. intros H.
  rewrite run_Seq in H. apply run_Str_inv in H as (s1 & -> & H).
  rewrite run_Seq in H. apply run_Grp_Cls_inv in H as (r & s2 & -> & Hr & H).
  rewrite run_Seq in H. apply run_Str_inv in H as (s3 & -> & H).
  rewrite run_Seq in H. apply run_Grp_Plus_inv in H as (project & s4 & Hp1 & -> & Hp2 & H).
  rewrite run_Seq in H. apply run_Str_inv in H as (s5 & -> & H).
  rewrite run_Seq in H. apply run_Plus_inv in H as (digits & s6 & Hd1 & -> & Hd2 & H).
  rewrite run_Seq in H. apply run_Str_inv in H as (s7 & -> & H).
  rewrite run_Seq in H. apply run_Grp_Plus_inv in H as (sample & s8 & Hs1 & -> & Hs2 & H).
  apply run_Str_inv in H as (rest & -> & H).
  injection H as <-.
  exists r, project, digits, sample, rest. repeat split; assumption.
Qed.

Lemma well_pattern_inv s gs :
  py_match Rename.well_pattern s = Some gs ->
  exists letters number rest,
    letters <> "" /\ all_of (in_range "A" "Z") letters = true
    /\ number <> "" /\ all_of is_digit number = true
    /\ s = letters +:+ number +:+ rest.
Proof.
  unfold py_match, Rename.well_pattern. cbn [cat]. intros H.
  rewrite run_Seq in H. apply run_Grp_Plus_inv in H as (letters & s1 & Hl1 & -> & Hl2 & H).
  apply run_Grp_Plus_inv in H as (number & rest & Hn1 & -> & Hn2 & H).
  exists letters, number, rest. repeat split; assumption.
Qed.

End PatternInversion.

(** ** The rename utility, beyond the claims *)

Section RenameExtras.
Import Py Re Rename.

(** The names the pattern matches, and the new name of each. *)
Lemma new_name_shape (n nn : string) :
  new_name n = Some nn <->
  exists (r : ascii) (project digits sample rest : string),
    one_of "12" r = true
    /\ project <> "" /\ all_of (none_of "_") project = true
    /\ digits <> "" /\ all_of is_digit digits = true
    /\ sample <> "" /\ all_of (none_of ".") sample = true
    /\ n = "000000000-GRN6V_l01_n0"
             +:+ String r ("_" +:+ project +:+ "_" +:+ digits +:+ "__" +:+ sample
                             +:+ ".fastq.gz" +:+ rest)
    /\ nn = project +:+ "_" +:+ sample_name_padded sample
              +:+ "_R" +:+ String r "" +:+ ".fastq.gz".
Proof.
  split.
  - unfold new_name. destruct (py_match pattern n) as [gs|] eqn:Hm; [|discriminate].
    intros H. injection H as <-.
    apply pattern_inv in Hm
      as (r & project & digits & sample & rest & H1 & H2 & H3 & H4 & H5 & H6 & H7 & -> & ->).
    exists r, project, digits, sample, rest. repeat split; assumption.
  - intros (r & project & digits & sample & rest & H1 & H2 & H3 & H4 & H5 & H6 & H7 & -> & ->).
    apply new_name_of_sequencing_file; assumption.
Qed.

(** X1. The work list of [rename_fastq_files]. A pair is in the list the
    scanning loop builds exactly when its first component is a name of the
    directory that the glob accepts (it ends in [.fastq.gz]) and that
    starts with [000000000-GRN6V_l01_n0], a read digit 1 or 2, [_], a
    non-empty project without underscores, [_], digits, [__], a non-empty
    sample without dots and [.fastq.gz] (the pattern is not anchored at its
    end: more may follow, as long as the whole name ends in [.fastq.gz]);
    its second component is then
    [<project>_<padded sample>_R<read>.fastq.gz] in the output directory. *)
Theorem work_list_characterised :
  forall `{FileSystem OS} (fs : OS) (fastq_path output_path : Path) (item : Path * Path),
    item ∈ scan (glob_fastq_gz fs fastq_path) fastq_path output_path <->
    exists (r : ascii) (project digits sample rest : string),
      let n := "000000000-GRN6V_l01_n0"
                 +:+ String r ("_" +:+ project +:+ "_" +:+ digits +:+ "__" +:+ sample
                                 +:+ ".fastq.gz" +:+ rest) in
      n ∈ scandir fs fastq_path
      /\ endswith ".fastq.gz" n = true
      /\ one_of "12" r = true
      /\ project <> "" /\ all_of (none_of "_") project = true
      /\ digits <> "" /\ all_of is_digit digits = true
      /\ sample <> "" /\ all_of (none_of ".") sample = true
      /\ item = (joinpath fastq_path n,
                 joinpath output_path
                   (project +:+ "_" +:+ sample_name_padded sample
                      +:+ "_R" +:+ String r "" +:+ ".fastq.gz")).
Proof.
  intros OS HFS fs fastq_path output_path item. rewrite elem_of_scan. split.
  - intros (n & nn & Hin & Hn & ->).
    unfold glob_fastq_gz in Hin. apply list_elem_of_In, filter_In in Hin as [Hin Hglob].
    apply new_name_shape in Hn
      as (r & project & digits & sample & rest & H1 & H2 & H3 & H4 & H5 & H6 & H7 & -> & ->).
    exists r, project, digits, sample, rest. cbv zeta.
    split; [apply list_elem_of_In; exact Hin|]. split; [exact Hglob|].
    repeat split; assumption.
  - intros (r & project & digits & sample & rest & Hin & Hglob
            & H1 & H2 & H3 & H4 & H5 & H6 & H7 & ->).
    eexists _, _. split; [|split; [|reflexivity]].
    + unfold glob_fastq_gz. apply list_elem_of_In, filter_In.
      split; [apply list_elem_of_In; exact Hin | exact Hglob].
    + apply new_name_shape. exists r, project, digits, sample, rest.
      repeat split; assumption.
Qed.

Lemma work_list_characterised_witness :
  (joinpath ["d"] "000000000-GRN6V_l01_n01_CoexP1_1__A1.fastq.gz",
   joinpath ["out"] "CoexP1_A01_R1.fastq.gz")
  ∈ scan (glob_fastq_gz Examples.sequencing_dir ["d"]) ["d"] ["out"].
Proof.
  assert (Hdir : "000000000-GRN6V_l01_n01_CoexP1_1__A1.fastq.gz"
                 ∈ scandir Examples.sequencing_dir ["d"]).
  { apply list_elem_of_In.
    assert (Hs : scandir Examples.sequencing_dir ["d"]
                 = ["CoexP1_A01_R2.fastq.gz";
                    "000000000-GRN6V_l01_n02_CoexP1_1__A1.fastq.gz";
                    "000000000-GRN6V_l01_n01_CoexP1_1__A1.fastq.gz"])
      by (vm_compute; reflexivity).
    rewrite Hs. right. right. left. reflexivity. }
  apply (proj2 (work_list_characterised Examples.sequencing_dir ["d"] ["out"] _)).
  exists "1"%char, "CoexP1", "1", "A1", "". cbv zeta.
  split; [exact Hdir|].
  repeat split; try reflexivity; discriminate.
Defined.

Lemma digits_not_space s : all_of is_digit s = true -> all_of (fun c => negb (is_space c)) s = true.
Proof.
  induction s as [|c s IH]; simpl; [reflexivity|].
  intros H. apply andb_true_iff in H as [Hc Hs]. rewrite (IH Hs), andb_true_r.
  unfold is_digit in Hc. unfold is_space.
  apply andb_true_iff in Hc as [H1 H2]. apply N.leb_le in H1, H2.
  apply negb_true_iff. repeat (apply orb_false_iff; split).
  - apply andb_false_iff. right. apply N.leb_gt. lia.
  - apply andb_false_iff. right. apply N.leb_gt. lia.
  - apply N.eqb_neq. lia.
Qed.

Lemma strip_no_space s : all_of (fun c => negb (is_space c)) s = true -> strip s = s.
Proof.
  intros H. unfold strip.
  assert (Hl : lstrip s = s).
  { destruct s as [|c s]; [reflexivity|]. simpl in *.
    apply andb_true_iff in H as [Hc _]. apply negb_true_iff in Hc. rewrite Hc. reflexivity. }
  rewrite Hl. clear Hl.
  induction s as [|c s IH]; [reflexivity|]. simpl in *.
  apply andb_true_iff in H as [Hc Hs]. rewrite (IH Hs).
  apply negb_true_iff in Hc. rewrite Hc. destruct s; reflexivity.
Qed.

Lemma int_digits_after_digit s : forall acc b,
  s <> "" -> all_of is_digit s = true -> int_digits s acc b = int_digits s acc true.
Proof.
  destruct s as [|c s]; intros acc b Hne H; [contradiction|]. simpl in *.
  apply andb_true_iff in H as [Hc _]. rewrite Hc. reflexivity.
Qed.

(** [int] of a run of digits reads the digits. *)
Lemma int_of_digits s :
  s <> "" -> all_of is_digit s = true -> Py.int s = Z.of_N <$> int_digits s 0 true.
Proof.
  intros Hne H. unfold Py.int.
  rewrite (strip_no_space s (digits_not_space s H)).
  destruct s as [|c s]; [contradiction|].
  assert (Hc : is_digit c = true) by (simpl in H; apply andb_true_iff in H as [Hc _]; exact Hc).
  rewrite <- (int_digits_after_digit (String c s) 0 false Hne H).
  assert (Hm : c <> "-"%char /\ c <> "+"%char).
  { split; intros ->; discriminate. }
  destruct Hm as [Hm Hp].
  destruct c as [[] [] [] [] [] [] [] []]; try reflexivity; exfalso; auto.
Qed.

Lemma zfill_two_digits number :
  number <> "" -> all_of is_digit number = true ->
  zfill 2 number
  = match number with
    | String c "" => String "0" number
    | _ => number
    end.
Proof.
  intros Hne H. destruct number as [|c [|d s]]; [contradiction| |].
  - unfold zfill. simpl in H. rewrite andb_true_r in H.
    assert (Hs : Ascii.eqb c "+" || Ascii.eqb c "-" = false).
    { destruct (Ascii.eqb c "+") eqn:E1; [apply Ascii.eqb_eq in E1; subst; discriminate|].
      destruct (Ascii.eqb c "-") eqn:E2; [apply Ascii.eqb_eq in E2; subst; discriminate|].
      reflexivity. }
    rewrite Hs. reflexivity.
  - unfold zfill. simpl in H. apply andb_true_iff in H as [H _].
    assert (Hs : Ascii.eqb c "+" || Ascii.eqb c "-" = false).
    { destruct (Ascii.eqb c "+") eqn:E1; [apply Ascii.eqb_eq in E1; subst; discriminate|].
      destruct (Ascii.eqb c "-") eqn:E2; [apply Ascii.eqb_eq in E2; subst; discriminate|].
      reflexivity. }
    rewrite Hs. reflexivity.
Qed.

(** X2. What the zero padding does to a sample name. A name that starts
    with uppercase letters and then digits becomes those letters and the
    digits, padded on the left with one zero when there is a single digit;
    the padded digits read as the same number; whatever followed the digits
    is not in the result. A name that does not start that way is kept as it
    is. *)
Theorem sample_name_padded_cases :
  (forall letters number rest : string,
      letters <> "" -> all_of (in_range "A" "Z") letters = true ->
      number <> "" -> all_of is_digit number = true ->
      stops is_digit rest = true ->
      sample_name_padded (letters +:+ number +:+ rest) = letters +:+ zfill 2 number
      /\ zfill 2 number = match number with
                          | String c "" => String "0" number
                          | _ => number
                          end
      /\ Py.int (zfill 2 number) = Py.int number)
  /\ (forall sample : string,
         (forall letters number rest : string,
             letters <> "" -> all_of (in_range "A" "Z") letters = true ->
             number <> "" -> all_of is_digit number = true ->
             sample <> letters +:+ number +:+ rest) ->
         sample_name_padded sample = sample).
Proof.
  split.
  - intros letters number rest Hl1 Hl2 Hn1 Hn2 Hrest.
    split; [apply sample_name_padded_well; assumption|].
    split; [apply zfill_two_digits; assumption|].
    rewrite (zfill_two_digits number Hn1 Hn2).
    destruct number as [|c [|d s]]; [contradiction| |reflexivity].
    rewrite (int_of_digits (String "0" (String c ""))) by (try discriminate; simpl in *; exact Hn2).
    rewrite (int_of_digits (String c "")) by assumption.
    simpl in *. rewrite andb_true_r in Hn2. rewrite Hn2. reflexivity.
  - intros sample Hnot. unfold sample_name_padded.
    destruct (py_match well_pattern sample) as [gs|] eqn:Hm; [|reflexivity].
    apply well_pattern_inv in Hm as (letters & number & rest & H1 & H2 & H3 & H4 & Heq).
    exfalso. exact (Hnot letters number rest H1 H2 H3 H4 Heq).
Qed.

Lemma sample_name_padded_cases_witness :
  sample_name_padded ("B" +:+ "7" +:+ "_rep2") = "B" +:+ zfill 2 "7"
  /\ zfill 2 "7" = "07"
  /\ Py.int (zfill 2 "7") = Py.int "7".
Proof.
  exact (proj1 sample_name_padded_cases "B" "7" "_rep2"
           ltac:(discriminate) eq_refl ltac:(discriminate) eq_refl eq_refl).
Defined.

(** X3. Every file of the work list is reported exactly once: each
    iteration of the processing loop prints one line, and outside a dry run
    it counts the file either as a success or as an error, so that at the
    end the two counters add up to the number of files; a dry run leaves
    both counters alone. *)
Theorem every_file_reported_once :
  forall `{FileSystem OS} (output_dir : option string) (dry_run use_symlinks : bool)
         (items : list (list string * list string)) (st : loop_state OS),
    let final := foldl (process_file output_dir dry_run use_symlinks) st items in
    length (out final) = (length (out st) + length items)%nat
    /\ (success_count final + error_count final
        = success_count st + error_count st + (if dry_run then 0 else length items))%nat
    /\ (success_count st <= success_count final)%nat
    /\ (error_count st <= error_count final)%nat.
Proof.
  intros OS H output_dir dry_run use_symlinks items.
  induction items as [|[old_path new_path] items IH]; intros st final; subst final;
    cbn [foldl length].
  - repeat split; try lia. destruct dry_run; lia.
  - pose proof (IH (process_file output_dir dry_run use_symlinks st (old_path, new_path)))
      as IH'. cbv zeta in IH'.
    assert (Hstep :
      let st' := process_file output_dir dry_run use_symlinks st (old_path, new_path) in
      length (out st') = S (length (out st))
      /\ (success_count st' + error_count st'
          = success_count st + error_count st + (if dry_run then 0 else 1))%nat
      /\ (success_count st <= success_count st')%nat
      /\ (error_count st <= error_count st')%nat).
    { unfold process_file. destruct dry_run; simpl.
      - rewrite length_app. simpl. repeat split; lia.
      - destruct (path_exists (fs st) new_path || is_symlink (fs st) new_path); simpl.
        + rewrite length_app. simpl. repeat split; lia.
        + destruct (perform output_dir use_symlinks (fs st) old_path new_path)
            as [[fs' [e|]] line]; simpl; rewrite length_app; simpl; repeat split; lia. }
    cbv zeta in Hstep.
    set (st' := process_file output_dir dry_run use_symlinks st (old_path, new_path)) in *.
    destruct IH' as (H1 & H2 & H3 & H4). destruct Hstep as (S1 & S2 & S3 & S4).
    repeat split; try lia; destruct dry_run; lia.
Qed.

Lemma process_file_without_output_dir `{FileSystem OS} output_dir dry_run use_symlinks
    (st : loop_state OS) item :
  truthy output_dir = false ->
  process_file output_dir dry_run use_symlinks st item
  = process_file output_dir dry_run false st item.
Proof.
  intros Ht. destruct item as [old_path new_path]. unfold process_file, perform.
  rewrite Ht, andb_false_r. reflexivity.
Qed.

Lemma foldl_process_file_without_output_dir `{FileSystem OS} output_dir dry_run use_symlinks
    items : forall st : loop_state OS,
  truthy output_dir = false ->
  foldl (process_file output_dir dry_run use_symlinks) st items
  = foldl (process_file output_dir dry_run false) st items.
Proof.
  induction items as [|item items IH]; intros st Ht; simpl; [reflexivity|].
  rewrite process_file_without_output_dir by exact Ht. apply IH. exact Ht.
Qed.

(** X4. Without an output directory the symlink flag changes nothing:
    [rename_fastq_files] renames in place and prints the same lines whether
    [use_symlinks] is set or not. [main], which clears the flag in that case
    and prints a warning first, therefore leaves the same file system, and
    ends the same way, as the call with the flag as given. *)
Theorem symlinks_need_output_dir :
  forall `{FileSystem OS} (st : OS),
    (forall fastq_dir output_dir dry_run use_symlinks,
        truthy output_dir = false ->
        rename_fastq_files st fastq_dir output_dir dry_run use_symlinks
        = rename_fastq_files st fastq_dir output_dir dry_run false)
    /\ (forall a : args,
          let o := rename_fastq_files st (arg_fastq_dir a) (arg_output_dir a)
                     (arg_dry_run a) (arg_symlinks a) in
          fs_after (main st a) = fs_after o
          /\ raised (main st a) = raised o
          /\ printed (main st a)
             = (if arg_symlinks a && negb (truthy (arg_output_dir a))
                then ["Warning: --symlinks requires --output-dir. Ignoring --symlinks flag."]
                else []) ++ printed o).
Proof.
  intros OS H st.
  assert (Hren : forall fastq_dir output_dir dry_run use_symlinks,
             truthy output_dir = false ->
             rename_fastq_files st fastq_dir output_dir dry_run use_symlinks
             = rename_fastq_files st fastq_dir output_dir dry_run false).
  { intros fastq_dir output_dir dry_run use_symlinks Ht. unfold rename_fastq_files.
    destruct (negb (path_exists st (Path_of fastq_dir))); [reflexivity|].
    rewrite Ht. unfold mode_lines. rewrite Ht.
    destruct (scan _ _ _) as [|item items]; [reflexivity|].
    rewrite (foldl_process_file_without_output_dir output_dir dry_run use_symlinks) by exact Ht.
    reflexivity. }
  split; [exact Hren|].
  intros a o. unfold main.
  destruct (arg_symlinks a && negb (truthy (arg_output_dir a))) eqn:Hg; [|repeat split].
  apply andb_true_iff in Hg as [Hs Ht]. apply negb_true_iff in Ht.
  unfold o. rewrite (Hren _ _ _ (arg_symlinks a) Ht). repeat split.
Qed.

Lemma symlinks_need_output_dir_witness :
  truthy None = false
  /\ rename_fastq_files Examples.sequencing_dir "d" None true true
     = rename_fastq_files Examples.sequencing_dir "d" None true false.
Proof.
  split; [reflexivity|].
  exact (proj1 (symlinks_need_output_dir Examples.sequencing_dir) "d" None true true eq_refl).
Defined.

Lemma foldl_dry_run_out `{FileSystem OS} output_dir use_symlinks items :
  forall st : loop_state OS,
    out (foldl (process_file output_dir true use_symlinks) st items)
    = out st
        ++ List.map
             (fun item : list string * list string =>
                "Would " +:+ (if use_symlinks && truthy output_dir
                              then "symlink" else "rename/copy")
                  +:+ ": " +:+ name item.1 +:+ " -> " +:+ name item.2)
             items.
Proof.
  induction items as [|[old_path new_path] items IH]; intros st; simpl.
  - rewrite app_nil_r. reflexivity.
  - rewrite IH. simpl. rewrite <- app_assoc. reflexivity.
Qed.

(** X5. A dry run that finds files prints, between the header and the
    footer, exactly one [Would ...] line for each file of the sorted work
    list, in that order, and the number in the header and in the footer is
    the number of those lines. *)
Theorem dry_run_report :
  forall `{FileSystem OS} (st st1 : OS) (fastq_dir : string) (output_dir : option string)
         (use_symlinks : bool),
    path_exists st (Path_of fastq_dir) = true ->
    (if truthy output_dir
     then mkdir_parents st (Path_of (default "" output_dir))
     else (st, None)) = (st1, None) ->
    let output_path :=
      if truthy output_dir then Path_of (default "" output_dir) else Path_of fastq_dir in
    let work :=
      sort_by_key (scan (glob_fastq_gz st1 (Path_of fastq_dir)) (Path_of fastq_dir) output_path) in
    work <> [] ->
    let would :=
      List.map
        (fun item : list string * list string =>
           "Would " +:+ (if use_symlinks && truthy output_dir then "symlink" else "rename/copy")
             +:+ ": " +:+ name item.1 +:+ " -> " +:+ name item.2)
        work in
    printed (rename_fastq_files st fastq_dir output_dir true use_symlinks)
    = ["Found " +:+ str_nat (length would) +:+ " files to rename:"]
        ++ mode_lines output_dir use_symlinks output_path ++ [rule]
        ++ would
        ++ [rule; "Dry run complete. " +:+ str_nat (length would)
                    +:+ " files would be processed."].
Proof.
  intros OS H st st1 fastq_dir output_dir use_symlinks Hex Hmk output_path work Hwork would.
  subst would work output_path.
  unfold rename_fastq_files. rewrite Hex. cbn [negb]. cbv zeta.
  destruct (truthy output_dir) eqn:Ht.
  - rewrite Hmk.
    destruct (scan (glob_fastq_gz st1 (Path_of fastq_dir)) (Path_of fastq_dir)
                   (Path_of (default "" output_dir))) as [|item items] eqn:Hscan;
      [exfalso; apply Hwork; reflexivity|].
    cbn [printed]. rewrite foldl_dry_run_out. cbn [out]. rewrite Ht.
    rewrite !List.length_map, <- !app_assoc. reflexivity.
  - injection Hmk as ->.
    destruct (scan (glob_fastq_gz st1 (Path_of fastq_dir)) (Path_of fastq_dir)
                   (Path_of fastq_dir)) as [|item items] eqn:Hscan;
      [exfalso; apply Hwork; reflexivity|].
    cbn [printed]. rewrite foldl_dry_run_out. cbn [out]. rewrite Ht.
    rewrite !List.length_map, <- !app_assoc. reflexivity.
Qed.

Lemma dry_run_report_witness :
  path_exists Examples.sequencing_dir (Path_of "d") = true
  /\ printed (rename_fastq_files Examples.sequencing_dir "d" None true false)
     = ["Found 2 files to rename:"; "Mode: Renaming in place"; rule;
        "Would rename/copy: 000000000-GRN6V_l01_n01_CoexP1_1__A1.fastq.gz -> CoexP1_A01_R1.fastq.gz";
        "Would rename/copy: 000000000-GRN6V_l01_n02_CoexP1_1__A1.fastq.gz -> CoexP1_A01_R2.fastq.gz";
        rule; "Dry run complete. 2 files would be processed."].
Proof.
  assert (Hex : path_exists Examples.sequencing_dir (Path_of "d") = true)
    by (vm_compute; reflexivity).
  split; [exact Hex|].
  rewrite (dry_run_report Examples.sequencing_dir Examples.sequencing_dir "d" None false
             Hex eq_refl ltac:(vm_compute; discriminate)).
  vm_compute. reflexivity.
Defined.

Lemma compare_refl_string a : String.compare a a = Eq.
Proof.
  pose proof (String.compare_antisym a a) as H.
  destruct (String.compare a a); simpl in H; [reflexivity | discriminate..].
Qed.

Lemma key_le_total a b : key_le a b = false -> key_le b a = true.
Proof.
  unfold key_le, str_lt, str_le, String.ltb, String.leb. destruct a as [a1 a2], b as [b1 b2].
  cbn [fst snd].
  rewrite (String.compare_antisym a1 b1), (String.compare_antisym a2 b2).
  destruct (String.compare b1 a1) eqn:E1; cbn [CompOpp orb].
  - apply String.compare_eq_iff in E1. subst b1. rewrite String.eqb_refl. cbn [andb].
    destruct (String.compare b2 a2); cbn [CompOpp]; intros H;
      first [discriminate | reflexivity].
  - intros _. reflexivity.
  - intros H. discriminate.
Qed.

Lemma insert_by_key_perm x l : insert_by_key x l ≡ₚ x :: l.
Proof.
  induction l as [|y l IH]; simpl; [reflexivity|].
  destruct (key_le (sort_key x) (sort_key y)); [reflexivity|].
  rewrite IH. apply perm_swap.
Qed.

Lemma insert_by_key_sorted x l :
  Sorted (fun a b => key_le (sort_key a) (sort_key b) = true) l ->
  Sorted (fun a b => key_le (sort_key a) (sort_key b) = true) (insert_by_key x l).
Proof.
  induction 1 as [|y l Hs IH Hhd]; simpl.
  - repeat constructor.
  - destruct (key_le (sort_key x) (sort_key y)) eqn:E.
    + constructor; [constructor; assumption|]. constructor. exact E.
    + constructor; [exact IH|].
      destruct l as [|z l]; simpl.
      * constructor. apply key_le_total, E.
      * destruct (key_le (sort_key x) (sort_key z)).
        -- constructor. apply key_le_total, E.
        -- constructor. inversion Hhd. assumption.
Qed.

(** X6. The sort of the work list loses and repeats nothing, and leaves
    the files in nondecreasing order of the pair (second underscore-separated
    field of the new name, new name): that is the order in which they are
    processed. *)
Theorem work_list_sorted_permutation :
  forall l : list (list string * list string),
    sort_by_key l ≡ₚ l
    /\ Sorted (fun a b => key_le (sort_key a) (sort_key b) = true) (sort_by_key l).
Proof.
  induction l as [|x l [IHp IHs]]; simpl.
  - split; constructor.
  - split.
    + rewrite insert_by_key_perm, IHp. reflexivity.
    + apply insert_by_key_sorted, IHs.
Qed.

End RenameExtras.

(** ** Column names and plate-map keys *)

Section JoinKeys.
Import Py Re Frames.

Lemma uint_digits u : all_of is_digit (NilEmpty.string_of_uint u) = true.
Proof. induction u; simpl; try rewrite IHu; reflexivity. Qed.

Lemma uint_nonempty u : u <> Decimal.Nil -> NilEmpty.string_of_uint u <> "".
Proof. destruct u; intros H; [contradiction | discriminate..]. Qed.

Lemma int_digits_uint_acc u : forall acc : positive,
  int_digits (NilEmpty.string_of_uint u) (N.pos acc) true
  = Some (N.pos (Pos.of_uint_acc u acc)).
Proof.
  induction u; intros acc; simpl; [reflexivity|..];
    match goal with
    | |- int_digits _ ?n true = _ =>
        first [ replace n with (N.pos (10 * acc)) by (unfold digit_val; simpl; lia)
              | replace n with (N.pos (1 + 10 * acc)) by (unfold digit_val; simpl; lia)
              | replace n with (N.pos (2 + 10 * acc)) by (unfold digit_val; simpl; lia)
              | replace n with (N.pos (3 + 10 * acc)) by (unfold digit_val; simpl; lia)
              | replace n with (N.pos (4 + 10 * acc)) by (unfold digit_val; simpl; lia)
              | replace n with (N.pos (5 + 10 * acc)) by (unfold digit_val; simpl; lia)
              | replace n with (N.pos (6 + 10 * acc)) by (unfold digit_val; simpl; lia)
              | replace n with (N.pos (7 + 10 * acc)) by (unfold digit_val; simpl; lia)
              | replace n with (N.pos (8 + 10 * acc)) by (unfold digit_val; simpl; lia)
              | replace n with (N.pos (9 + 10 * acc)) by (unfold digit_val; simpl; lia) ]
    end; apply IHu.
Qed.

Lemma int_digits_uint u :
  int_digits (NilEmpty.string_of_uint u) 0 true = Some (Pos.of_uint u).
Proof.
  induction u; simpl; [reflexivity | exact IHu | ..];
    match goal with
    | |- int_digits _ ?n true = Some (N.pos (Pos.of_uint_acc _ ?k)) =>
        replace n with (N.pos k) by (unfold digit_val; simpl; lia)
    end; apply int_digits_uint_acc.
Qed.

(** [int(str(z)) == z] *)
Lemma int_str_Z z : Py.int (str_Z z) = Some z.
Proof.
  unfold str_Z. destruct z as [|p|p]; [reflexivity| |].
  - simpl. unfold NilZero.string_of_uint.
    pose proof (Unsigned.to_uint_nonnil p) as Hnn.
    destruct (Pos.to_uint p) as [| | | | | | | | | |] eqn:Hu; [contradiction|..];
      rewrite <- Hu;
      (rewrite int_of_digits by (first [apply uint_nonempty; rewrite Hu; discriminate
                                       | apply uint_digits]));
      rewrite int_digits_uint, Unsigned.of_to; reflexivity.
  - simpl. unfold NilZero.string_of_uint.
    pose proof (Unsigned.to_uint_nonnil p) as Hnn.
    assert (Hs : NilEmpty.string_of_uint (Pos.to_uint p) <> "")
      by (apply uint_nonempty, Hnn).
    assert (Hrepr : match Pos.to_uint p with
                    | Decimal.Nil => "0"
                    | _ => NilEmpty.string_of_uint (Pos.to_uint p)
                    end = NilEmpty.string_of_uint (Pos.to_uint p)).
    { destruct (Pos.to_uint p); [contradiction | reflexivity..]. }
    rewrite Hrepr. unfold Py.int.
    rewrite strip_no_space.
    + rewrite (int_digits_after_digit _ 0 false Hs (uint_digits _)).
      rewrite int_digits_uint, Unsigned.of_to. reflexivity.
    + cbn [all_of]. rewrite (digits_not_space _ (uint_digits _)). reflexivity.
Qed.

Lemma run_Grp_Cls_Plus p q c u s gs k res :
  p c = true -> u <> "" -> all_of q u = true -> stops q s = true ->
  k s (gs ++ [String c u]) = Some res ->
  run (Grp (Seq (Cls p) (Plus q))) (String c (u +:+ s)) gs k = Some res.
Proof.
  intros Hc Hne Hu Hs Hk.
  change (run (Grp (Seq (Cls p) (Plus q))) (String c (u +:+ s)) gs k)
    with (run (Cls p) (String c (u +:+ s)) gs
            (fun rest gs' =>
               run (Plus q) rest gs'
                 (fun rest' gs'' => k rest' (gs'' ++ [consumed (String c (u +:+ s)) rest'])))).
  cbn [run]. rewrite Hc.
  change (match u +:+ s with
          | "" => None
          | String c0 s' =>
              if q c0
              then star q s'
                     (fun rest => k rest (gs ++ [consumed (String c (u +:+ s)) rest]))
              else None
          end)
    with (run (Plus q) (u +:+ s) gs
            (fun rest gs' => k rest (gs' ++ [consumed (String c (u +:+ s)) rest]))).
  apply run_Plus; [assumption..|].
  change (String c (u +:+ s)) with (String c u +:+ s). rewrite consumed_app. exact Hk.
Qed.

(** What [_parse_column_name] reads from a sample column name. *)
Lemma parse_column_name_digits (d : string) (c : ascii) (wdigits rest : string) :
  d <> "" -> all_of is_digit d = true ->
  in_range "A" "H" c = true ->
  wdigits <> "" -> all_of is_digit wdigits = true ->
  stops is_digit rest = true ->
  _parse_column_name ("CoexP" +:+ d +:+ "_" +:+ String c wdigits +:+ rest)
  = (fun plate => (plate, String c wdigits)) <$> Py.int d.
Proof.
  intros Hd1 Hd2 Hc Hw1 Hw2 Hrest. unfold _parse_column_name.
  change (String.eqb ("CoexP" +:+ d +:+ "_" +:+ String c wdigits +:+ rest) "BCID") with false.
  cbv iota.
  assert (Hm : py_match column_pattern ("CoexP" +:+ d +:+ "_" +:+ String c wdigits +:+ rest)
               = Some [d; String c wdigits]).
  { unfold py_match, column_pattern. cbn [cat].
    rewrite run_Seq, run_Str.
    rewrite run_Seq. apply run_Grp_Plus; [assumption.. | reflexivity |].
    rewrite run_Seq, run_Str.
    change (String c wdigits +:+ rest) with (String c (wdigits +:+ rest)).
    apply run_Grp_Cls_Plus; [assumption.. | reflexivity]. }
  rewrite Hm. cbn [group nth Nat.sub].
  destruct (Py.int d); reflexivity.
Qed.

(** X7. A sample column named [CoexP<plate>_<well>], with the plate written
    as a non-negative integer and the well a letter A-H followed by digits,
    parses to that plate and well (characters after the well digits are
    ignored), and its key is the key under which both loaders store the
    plate-map row with that PLATE and WELL: the column and the row are
    joined. Leading zeros of the plate are dropped by [int], so [CoexP02_E8]
    gets the key of [CoexP2_E8]. *)
Theorem column_joins_plate_row :
  forall (plate : Z) (c : ascii) (wdigits rest : string),
    (0 <= plate)%Z ->
    in_range "A" "H" c = true ->
    wdigits <> "" -> all_of is_digit wdigits = true ->
    stops is_digit rest = true ->
    let well := String c wdigits in
    _parse_column_name ("CoexP" +:+ str_Z plate +:+ "_" +:+ well +:+ rest)
    = Some (plate, well)
    /\ _parse_column_name ("CoexP" +:+ "0" +:+ str_Z plate +:+ "_" +:+ well +:+ rest)
       = Some (plate, well)
    /\ (forall third,
          key_of (plate, well)
          = StrainCompetition.row_key (PlateRow (CInt plate) (CStr well) third)
          /\ key_of (plate, well)
             = TwelveWell.row_key (PlateRow (CInt plate) (CStr well) third)).
Proof.
  intros plate c wdigits rest Hplate Hc Hw1 Hw2 Hrest well.
  assert (Hdig : str_Z plate <> "" /\ all_of is_digit (str_Z plate) = true).
  { unfold str_Z. destruct plate as [|p|p]; [split; [discriminate | reflexivity] | | lia].
    simpl. unfold NilZero.string_of_uint.
    pose proof (Unsigned.to_uint_nonnil p) as Hnn.
    assert (Hrepr : match Pos.to_uint p with
                    | Decimal.Nil => "0"
                    | _ => NilEmpty.string_of_uint (Pos.to_uint p)
                    end = NilEmpty.string_of_uint (Pos.to_uint p)).
    { destruct (Pos.to_uint p); [contradiction | reflexivity..]. }
    rewrite Hrepr. split; [apply uint_nonempty, Hnn | apply uint_digits]. }
  destruct Hdig as [Hd1 Hd2].
  split; [|split].
  - unfold well. rewrite parse_column_name_digits by assumption.
    rewrite int_str_Z. reflexivity.
  - unfold well.
    change ("CoexP" +:+ "0" +:+ str_Z plate +:+ "_" +:+ String c wdigits +:+ rest)
      with ("CoexP" +:+ String "0" (str_Z plate) +:+ "_" +:+ String c wdigits +:+ rest).
    rewrite parse_column_name_digits;
      [| discriminate | cbn [all_of]; rewrite Hd2; reflexivity | assumption..].
    rewrite int_of_digits; [| discriminate | cbn [all_of]; rewrite Hd2; reflexivity].
    cbn [int_digits]. change (is_digit "0") with true. cbv iota.
    change (10 * 0 + digit_val "0")%N with 0%N.
    rewrite <- int_of_digits by assumption. rewrite int_str_Z. reflexivity.
  - intros third. split; reflexivity.
Qed.

Lemma column_joins_plate_row_witness :
  _parse_column_name ("CoexP" +:+ str_Z 2 +:+ "_" +:+ String "E" "8" +:+ "") = Some (2%Z, "E8")
  /\ _parse_column_name ("CoexP" +:+ "0" +:+ str_Z 2 +:+ "_" +:+ String "E" "8" +:+ "")
     = Some (2%Z, "E8").
Proof.
  destruct (column_joins_plate_row 2 "E" "8" "" ltac:(lia) eq_refl ltac:(discriminate)
              eq_refl eq_refl) as (H1 & H2 & _).
  split; [exact H1 | exact H2].
Defined.

End JoinKeys.

(** ** The plate-map loader, beyond the claims *)

Section LoaderExtras.
Import Py Frames.

Lemma strain_load_rows_app l1 : forall pm0 l2,
  StrainCompetition.load_rows pm0 (l1 ++ l2)
  = pm1 ← StrainCompetition.load_rows pm0 l1; StrainCompetition.load_rows pm1 l2.
Proof.
  induction l1 as [|row l1 IH]; intros pm0 l2; simpl; [reflexivity|].
  unfold mbind, result_bind, Py.bind.
  destruct (StrainCompetition.load_row pm0 row) as [pm1|exn]; [|reflexivity].
  apply IH.
Qed.

(** Rows that store nothing under a key leave that key alone. *)
Lemma strain_load_rows_untouched key rows : forall pm0 pm,
  StrainCompetition.load_rows pm0 rows = Ok pm ->
  (forall row s,
      row ∈ rows -> StrainCompetition.row_key row = key -> third_column row = CStr s ->
      StrainCompetition.entry_of_parts (split "_" (strip s)) = None) ->
  pm !! key = pm0 !! key.
Proof.
  induction rows as [|row rows IH]; intros pm0 pm Hload Hnone; simpl in Hload.
  - injection Hload as <-. reflexivity.
  - unfold mbind, result_bind, Py.bind in Hload.
    destruct (StrainCompetition.load_row pm0 row) as [pm1|exn] eqn:Hrow; [|discriminate].
    rewrite (IH pm1 pm Hload) by (intros row' s' Hin; apply Hnone; right; exact Hin).
    unfold StrainCompetition.load_row in Hrow.
    destruct (third_column row) as [z|s|] eqn:Hc; try discriminate.
    injection Hrow as <-.
    destruct (StrainCompetition.entry_of_parts (split "_" (strip s))) as [e|] eqn:He;
      [|reflexivity].
    destruct (decide (StrainCompetition.row_key row = key)) as [Heq|Hne].
    + rewrite (Hnone row s (list_elem_of_here _ _) Heq Hc) in He. discriminate.
    + apply lookup_insert_ne. exact Hne.
Qed.

Lemma twelve_load_rows_untouched key rows : forall pm0,
  (forall row,
      row ∈ rows -> TwelveWell.row_key row = key ->
      TwelveWell.entry_of_parts (split "_" (strip (str_cell (third_column row)))) = None) ->
  foldl TwelveWell.load_row pm0 rows !! key = pm0 !! key.
Proof.
  induction rows as [|row rows IH]; intros pm0 Hnone; simpl; [reflexivity|].
  rewrite IH by (intros row' Hin; apply Hnone; right; exact Hin).
  unfold TwelveWell.load_row.
  destruct (TwelveWell.entry_of_parts _) as [e|] eqn:He; [|reflexivity].
  destruct (decide (TwelveWell.row_key row = key)) as [Heq|Hne].
  - rewrite (Hnone row (list_elem_of_here _ _) Heq) in He. discriminate.
  - apply lookup_insert_ne. exact Hne.
Qed.

(** X8. Looking a row up. In both scripts a plate-map row whose condition
    string gives an entry is found under its key ["P<plate>_<well>"] after
    loading, unless a later row with the same key gives an entry too (the
    last such row wins); and a key under which no row gives an entry is not
    in the mapping. *)
Theorem plate_map_last_row_wins :
  (forall (d : disk) (file : string) pm before row after s e,
      read_plate_map d file = Ok (before ++ row :: after) ->
      StrainCompetition._load_plate_map d file = Ok pm ->
      third_column row = CStr s ->
      StrainCompetition.entry_of_parts (split "_" (strip s)) = Some e ->
      (forall row' s',
          row' ∈ after ->
          StrainCompetition.row_key row' = StrainCompetition.row_key row ->
          third_column row' = CStr s' ->
          StrainCompetition.entry_of_parts (split "_" (strip s')) = None) ->
      pm !! StrainCompetition.row_key row = Some e)
  /\ (forall (d : disk) (file : string) pm df key,
      read_plate_map d file = Ok df ->
      StrainCompetition._load_plate_map d file = Ok pm ->
      (forall row s,
          row ∈ df -> StrainCompetition.row_key row = key -> third_column row = CStr s ->
          StrainCompetition.entry_of_parts (split "_" (strip s)) = None) ->
      pm !! key = None)
  /\ (forall (d : disk) (file : string) pm evs before row after e,
      read_plate_map d file = Ok (before ++ row :: after) ->
      TwelveWell._load_plate_map d file = Ok (pm, evs) ->
      TwelveWell.entry_of_parts (split "_" (strip (str_cell (third_column row)))) = Some e ->
      (forall row',
          row' ∈ after ->
          TwelveWell.row_key row' = TwelveWell.row_key row ->
          TwelveWell.entry_of_parts (split "_" (strip (str_cell (third_column row')))) = None) ->
      pm !! TwelveWell.row_key row = Some e)
  /\ (forall (d : disk) (file : string) pm evs df key,
      read_plate_map d file = Ok df ->
      TwelveWell._load_plate_map d file = Ok (pm, evs) ->
      (forall row,
          row ∈ df -> TwelveWell.row_key row = key ->
          TwelveWell.entry_of_parts (split "_" (strip (str_cell (third_column row)))) = None) ->
      pm !! key = None).
Proof.
  split; [|split; [|split]].
  - intros d file pm before row after s e Hread Hload Hc He Hafter.
    unfold StrainCompetition._load_plate_map, mbind, result_bind, Py.bind in Hload.
    rewrite Hread in Hload. rewrite strain_load_rows_app in Hload.
    unfold mbind, result_bind, Py.bind in Hload.
    destruct (StrainCompetition.load_rows ∅ before) as [pm1|exn]; [|discriminate].
    simpl in Hload. unfold mbind, result_bind, Py.bind in Hload.
    unfold StrainCompetition.load_row in Hload. rewrite Hc, He in Hload.
    rewrite (strain_load_rows_untouched _ after _ pm Hload Hafter).
    apply lookup_insert_eq.
  - intros d file pm df key Hread Hload Hnone.
    unfold StrainCompetition._load_plate_map, mbind, result_bind, Py.bind in Hload.
    rewrite Hread in Hload.
    rewrite (strain_load_rows_untouched key df ∅ pm Hload Hnone).
    apply lookup_empty.
  - intros d file pm evs before row after e Hread Hload He Hafter.
    unfold TwelveWell._load_plate_map, mbind, result_bind, Py.bind in Hload.
    rewrite Hread in Hload. injection Hload as <- _.
    rewrite foldl_app. simpl.
    rewrite (twelve_load_rows_untouched _ after _ Hafter).
    unfold TwelveWell.load_row. rewrite He. apply lookup_insert_eq.
  - intros d file pm evs df key Hread Hload Hnone.
    unfold TwelveWell._load_plate_map, mbind, result_bind, Py.bind in Hload.
    rewrite Hread in Hload. injection Hload as <- _.
    rewrite (twelve_load_rows_untouched key df ∅ Hnone).
    apply lookup_empty.
Qed.

Lemma plate_map_last_row_wins_witness :
  Examples.strain_plate_map !! "P2_A3"
  = Some (StrainCompetition.Entry "pair" "1" "YPD" "2" "1").
Proof.
  refine (proj1 plate_map_last_row_wins Examples.files "plate_map.csv"
            Examples.strain_plate_map
            [PlateRow (CInt 2) (CStr "A1") (CStr "P_1_YPD_1_0");
             PlateRow (CInt 2) (CStr "A2") (CStr "P_1_YPD_1_T1")]
            (PlateRow (CInt 2) (CStr "A3") (CStr "C_1_YPD_2_1 "))
            [PlateRow (CInt 2) (CStr "A4") (CStr "X_SALT_P1");
             PlateRow (CInt 2) (CStr "A5") (CStr "blank");
             PlateRow (CInt 2) (CStr "A6") (CStr "P_1_YPD_1_3")]
            "C_1_YPD_2_1 " _ eq_refl eq_refl eq_refl eq_refl _).
  intros row' s' Hin Hkey Hc.
  repeat (apply elem_of_cons in Hin as [->|Hin]; [discriminate Hkey|]).
  apply elem_of_nil in Hin. contradiction.
Defined.

End LoaderExtras.

(** ** The joiner and the figures, beyond the claims *)

Section PipelineExtras.
Import Py Frames.

(** X11. No positive count of a usable sample is lost: in both scripts,
    for a sample column whose name parses, whose key is in the plate map
    (with type ["pair"] in [Strain_competition.py]) and whose timepoint is an
    integer, every row with a positive count gives a record of the returned
    frame, with the barcode of that row, the count as frequency and the
    pair, condition, timepoint and replicate of the plate-map entry. *)
Theorem process_all_data_complete :
  (forall (a : StrainCompetition.analyzer) col parsed md (i : nat) bc q tp,
      col ∈ sample_columns (StrainCompetition.barcode_data a) ->
      _parse_column_name col.1 = Some parsed ->
      StrainCompetition.plate_map a !! key_of parsed = Some md ->
      StrainCompetition.m_type md = "pair" ->
      (first_column (StrainCompetition.barcode_data a)).2 !! i = Some bc ->
      col.2 !! i = Some (Some q) ->
      (0 < q)%Q ->
      Py.int (StrainCompetition.m_timepoint md) = Some tp ->
      exists df,
        returned (StrainCompetition.process_all_data a) = Ok df
        /\ Record_ bc q (StrainCompetition.m_pair md) (StrainCompetition.m_condition md)
                   tp (StrainCompetition.m_replicate md) ∈ df)
  /\ (forall (a : TwelveWell.analyzer) col parsed md (i : nat) bc q tp,
      col ∈ sample_columns (TwelveWell.barcode_data a) ->
      _parse_column_name col.1 = Some parsed ->
      TwelveWell.plate_map a !! key_of parsed = Some md ->
      (first_column (TwelveWell.barcode_data a)).2 !! i = Some bc ->
      col.2 !! i = Some (Some q) ->
      (0 < q)%Q ->
      Py.int (TwelveWell.m_timepoint md) = Some tp ->
      exists df,
        returned (TwelveWell.process_all_data a) = Ok df
        /\ Record_ bc q (TwelveWell.m_pair md) (TwelveWell.m_condition md)
                   tp (TwelveWell.m_replicate md) ∈ df).
Proof.
  split.
  - intros a col parsed md i bc q tp Hcol Hp Hk Ht Hb Hc Hq Hi.
    rewrite strain_process_all_data, strain_process_columns.
    eexists. split; [reflexivity|].
    apply elem_of_flat_map_fst. exists col. split; [exact Hcol|].
    unfold StrainCompetition.process_column. rewrite Hp, Hk, Ht, Hi.
    change (negb ("pair" =? "pair")%string) with false. cbv iota. cbn [fst].
    apply list_elem_of_In, in_flat_map. exists (bc, q). split; [|left; reflexivity].
    apply list_elem_of_In, elem_of_positive_rows. split; [exists i; split; assumption | exact Hq].
  - intros a col parsed md i bc q tp Hcol Hp Hk Hb Hc Hq Hi.
    rewrite twelve_process_all_data, twelve_process_columns.
    eexists. split; [reflexivity|].
    apply elem_of_flat_map_fst. exists col. split; [exact Hcol|].
    unfold TwelveWell.process_column. rewrite Hp, Hk, Hi. cbn [fst].
    apply list_elem_of_In, in_flat_map. exists (bc, q). split; [|left; reflexivity].
    apply list_elem_of_In, elem_of_positive_rows. split; [exists i; split; assumption | exact Hq].
Qed.

Lemma process_all_data_complete_witness :
  exists df,
    returned (StrainCompetition.process_all_data Examples.strain_analyzer) = Ok df
    /\ Record_ "X" 7 "1" "YPD" 3 "1" ∈ df.
Proof.
  refine (proj1 process_all_data_complete Examples.strain_analyzer
            ("CoexP2_A6", [Some 0%Q; Some 0%Q; Some 7%Q]) (2%Z, "A6")
            (StrainCompetition.Entry "pair" "1" "YPD" "1" "3") 2%nat "X" 7%Q 3%Z
            _ eq_refl _ eq_refl eq_refl eq_refl eq_refl eq_refl).
  - vm_compute. repeat (first [apply list_elem_of_here | apply list_elem_of_further]).
  - vm_compute. reflexivity.
Defined.

(** X12. The normalization only rewrites frequencies: it ends with a table
    that has the rows of the table it started from, in the same order, with
    the same timepoint, replicate and barcode in each. *)
Theorem normalize_keeps_keys :
  forall (e1 e2 : string) (grouped : list grow),
    exists normalized,
      normalize e1 e2 grouped = Some normalized
      /\ List.map gkey normalized = List.map gkey grouped.
Proof.
  intros e1 e2 grouped. exists (List.map (norm_row e1 e2 grouped) grouped).
  split; [apply normalize_rows|].
  rewrite List.map_map. apply List.map_ext. intros r. apply norm_row_key.
Qed.

Lemma n_axes_enough n : (n <= n_axes n)%nat.
Proof.
  unfold n_axes. destruct (n <=? 4)%nat eqn:E; [apply Nat.leb_le in E; exact E|].
  apply Nat.leb_gt in E.
  pose proof (Nat.div_mod_eq (n + 2) 3) as Hdm.
  pose proof (Nat.mod_upper_bound (n + 2) 3 ltac:(lia)) as Hm.
  destruct (1 <? (n + 2) / 3)%nat eqn:E2.
  - lia.
  - apply Nat.ltb_ge in E2. lia.
Qed.

Lemma insert_sorted_perm {A} (le : A -> A -> bool) x l : insert_sorted le x l ≡ₚ x :: l.
Proof.
  induction l as [|y l IH]; simpl; [reflexivity|].
  destruct (le x y); [reflexivity|]. rewrite IH. apply perm_swap.
Qed.

Lemma sorted_by_perm {A} (le : A -> A -> bool) l : sorted_by le l ≡ₚ l.
Proof.
  induction l as [|x l IH]; simpl; [reflexivity|].
  rewrite insert_sorted_perm, IH. reflexivity.
Qed.

Lemma charts_is_Some (e1 e2 : string) (pair_data : list record) :
  exists fig, charts e1 e2 pair_data = Some fig.
Proof.
  exists (List.map (fun c => (c, List.map (norm_row e1 e2 (grouped_of pair_data c))
                                   (grouped_of pair_data c)))
                   (sorted (unique (List.map condition pair_data)))).
  unfold charts. rewrite firstn_all2 by apply n_axes_enough.
  apply mapM_Some.
  induction (sorted (unique (List.map condition pair_data))) as [|c cs IH];
    constructor; [|exact IH].
  rewrite normalize_rows. reflexivity.
Qed.

(** X13. A figure has one chart for each condition found in the data of the
    pair, and no other: the charts are never cut short by the number of
    axes (the [break] of the loop is never taken), their titles are the
    distinct conditions in sorted order, and each chart holds the
    normalized table of its condition. *)
Theorem charts_cover_conditions :
  forall (e1 e2 : string) (pair_data : list record),
    exists fig,
      charts e1 e2 pair_data = Some fig
      /\ List.map fst fig = sorted (unique (List.map condition pair_data))
      /\ NoDup (List.map fst fig)
      /\ (forall c, c ∈ List.map fst fig <-> exists r, r ∈ pair_data /\ condition r = c)
      /\ (forall c g, (c, g) ∈ fig ->
            normalize e1 e2 (grouped_of pair_data c) = Some g).
Proof.
  intros e1 e2 pair_data.
  set (conditions := sorted (unique (List.map condition pair_data))).
  assert (Hch : charts e1 e2 pair_data
                = Some (List.map (fun c => (c, List.map (norm_row e1 e2 (grouped_of pair_data c))
                                                   (grouped_of pair_data c)))
                                 conditions)).
  { unfold charts. fold conditions.
    rewrite firstn_all2 by apply n_axes_enough.
    apply mapM_Some. clear. induction conditions as [|c cs IH]; constructor; [|exact IH].
    rewrite normalize_rows. reflexivity. }
  eexists. split; [exact Hch|].
  assert (Hfst : List.map fst
                   (List.map (fun c => (c, List.map (norm_row e1 e2 (grouped_of pair_data c))
                                              (grouped_of pair_data c))) conditions)
                 = conditions).
  { rewrite List.map_map. simpl. apply List.map_id. }
  rewrite Hfst.
  assert (Hperm : conditions ≡ₚ unique (List.map condition pair_data))
    by apply sorted_by_perm.
  split; [reflexivity|]. split; [rewrite Hperm; apply NoDup_unique|]. split.
  - intros c. rewrite Hperm, elem_of_unique, list_elem_of_In, in_map_iff.
    split; intros (r & H1 & H2); exists r; rewrite ?list_elem_of_In in *; tauto.
  - intros c g Hin. exact (charts_normalized e1 e2 pair_data _ Hch c g Hin).
Qed.

Lemma charts_cover_conditions_witness :
  exists fig,
    charts "P3B3" "P3H1" (of_pair "1" Examples.strain_df) = Some fig
    /\ List.map fst fig = ["SALT"; "YPD"]
    /\ ("YPD" ∈ List.map fst fig).
Proof.
  destruct (charts_cover_conditions "P3B3" "P3H1" (of_pair "1" Examples.strain_df))
    as (fig & Hch & Hfst & _ & Hmem & _).
  exists fig. split; [exact Hch|]. split; [rewrite Hfst; vm_compute; reflexivity|].
  apply Hmem. exists (Record_ "P3B3" 3 "1" "YPD" 0 "1"). split; [|reflexivity].
  vm_compute. repeat (first [apply list_elem_of_here | apply list_elem_of_further]).
Defined.

Lemma returned_bind {Self A B} (m : M (Self := Self) A) (k : A -> M B) (s : Self) :
  returned (bindM m k s)
  = match returned (m s) with
    | Ok x => returned (k x (self_after (m s)))
    | Raise e => Raise e
    end.
Proof.
  unfold bindM, returned, self_after.
  destruct (m s) as [[[x|e] s1] ev1]; simpl; [|reflexivity].
  destruct (k x s1) as [[r s2] ev2]. reflexivity.
Qed.

(** The body of the loop over the pairs: two lines, then the plot. *)
Lemma announced {Self} (l1 l2 : string) (m : M (Self := Self) unit) (s : Self) :
  returned ((exec print l1; exec print l2; m) s) = returned (m s)
  /\ self_after ((exec print l1; exec print l2; m) s) = self_after (m s)
  /\ events ((exec print l1; exec print l2; m) s) = Printed l1 :: Printed l2 :: events (m s).
Proof.
  unfold bindM, print, emit, returned, self_after, events.
  destruct (m s) as [[r s'] evs]. repeat split.
Qed.

Lemma twelve_process_all_data_value a df :
  returned (TwelveWell.process_all_data a) = Ok df ->
  TwelveWell.process_all_data a = (Ok df, a, []).
Proof.
  intros Hdf. pose proof (twelve_process_all_data_silent a) as Hs.
  rewrite twelve_process_all_data in *. unfold returned, events in *.
  cbn [fst snd] in *. injection Hdf as Hdf. rewrite Hdf, Hs. reflexivity.
Qed.

(** [create_pair_plot] of the 12-well script, case by case. *)
Lemma twelve_create_pair_plot_value `{Output} (a : TwelveWell.analyzer) (p : string) df :
  returned (TwelveWell.process_all_data a) = Ok df ->
  TwelveWell.create_pair_plot p a
  = match df with
    | [] => (Raise "KeyError: 'pair'", a, [])
    | _ :: _ =>
        match of_pair p df with
        | [] => (Ok tt, a, [Printed ("No data found for Pair " +:+ p)])
        | _ :: _ =>
            match lookup_pair ("Pair" +:+ p) (TwelveWell.strain_pairs a) with
            | None => (Ok tt, a, [Printed ("Pair " +:+ p +:+ " not defined")])
            | Some (strain_1, strain_2) =>
                match charts (remove_char "_" strain_1) (remove_char "_" strain_2)
                             (of_pair p df) with
                | Some fig =>
                    match savefig ("Images/Pair" +:+ p +:+ "_competition.png") with
                    | Ok _ =>
                        (Ok tt, a,
                         [Saved ("Images/Pair" +:+ p +:+ "_competition.png") fig;
                          Printed ("Plot saved as Images/12well_Pair" +:+ p
                                     +:+ "_competition.png")])
                    | Raise e => (Raise e, a, [])
                    end
                | None => (Raise "FloatingPointError", a, [])
                end
            end
        end
    end.
Proof.
  intros Hdf. unfold TwelveWell.create_pair_plot, bindM.
  rewrite (twelve_process_all_data_value a df Hdf). cbv beta iota.
  destruct df as [|r df]; [reflexivity|].
  remember (of_pair p (r :: df)) as pd eqn:Hpd.
  destruct pd as [|r' pd]; [reflexivity|].
  unfold attr. cbv beta iota.
  destruct (lookup_pair _ _) as [[strain_1 strain_2]|]; [|reflexivity].
  destruct (charts _ _ _) as [fig|]; [|reflexivity].
  unfold write. destruct (savefig _) as [[]|e]; reflexivity.
Qed.

(** The two ways [create_pair_plot] raises. *)
Lemma create_pair_plot_value_cases `{Output} (a : TwelveWell.analyzer) (p : string) df :
  returned (TwelveWell.process_all_data a) = Ok df ->
  (df = [] -> TwelveWell.create_pair_plot p a = (Raise "KeyError: 'pair'", a, []))
  /\ (forall strain_1 strain_2,
        of_pair p df <> [] ->
        lookup_pair ("Pair" +:+ p) (TwelveWell.strain_pairs a)
        = Some (strain_1, strain_2) ->
        (forall e, savefig ("Images/Pair" +:+ p +:+ "_competition.png") = Raise e ->
                   TwelveWell.create_pair_plot p a = (Raise e, a, []))
        /\ (savefig ("Images/Pair" +:+ p +:+ "_competition.png") = Ok tt ->
            exists fig,
              TwelveWell.create_pair_plot p a
              = (Ok tt, a,
                 [Saved ("Images/Pair" +:+ p +:+ "_competition.png") fig;
                  Printed ("Plot saved as Images/12well_Pair" +:+ p
                             +:+ "_competition.png")]))).
Proof.
  intros Hdf. pose proof (twelve_create_pair_plot_value a p df Hdf) as Hv. split.
  - intros ->. exact Hv.
  - intros strain_1 strain_2 Hpd Hlook.
    destruct (charts_is_Some (remove_char "_" strain_1) (remove_char "_" strain_2)
                (of_pair p df)) as (fig & Hch).
    destruct df as [|r df]; [exfalso; apply Hpd; reflexivity|].
    destruct (of_pair p (r :: df)) as [|r' pd] eqn:Hof; [contradiction|].
    rewrite Hlook, Hch in Hv. split.
    + intros e He. rewrite He in Hv. exact Hv.
    + intros Hok. rewrite Hok in Hv. exists fig. exact Hv.
Qed.

(** X14. How [create_pair_plot] of the 12-well script ends. On a frame
    without records it raises [KeyError] (selecting the [pair] column of
    the empty frame). On a frame with records it prints its message and
    returns when the pair has no record or is not a key of [strain_pairs].
    Otherwise the normalization goes through (no division by zero), the
    figure of the pair is built, and the outcome is that of [savefig] on
    [Images/Pair<n>_competition.png]: if it raises (there is no [Images]
    directory, say), the exception leaves [create_pair_plot] and nothing is
    printed; if it returns, the figure is saved and the line that follows
    names another file, [Images/12well_Pair<n>_competition.png]. *)
Theorem create_pair_plot_outcomes :
  forall `{Output} (a : TwelveWell.analyzer) (p : string) (df : list record),
    returned (TwelveWell.process_all_data a) = Ok df ->
    let file := "Images/Pair" +:+ p +:+ "_competition.png" in
    (df = [] -> TwelveWell.create_pair_plot p a = (Raise "KeyError: 'pair'", a, []))
    /\ (df <> [] -> of_pair p df = [] ->
        TwelveWell.create_pair_plot p a
        = (Ok tt, a, [Printed ("No data found for Pair " +:+ p)]))
    /\ (of_pair p df <> [] ->
        lookup_pair ("Pair" +:+ p) (TwelveWell.strain_pairs a) = None ->
        TwelveWell.create_pair_plot p a
        = (Ok tt, a, [Printed ("Pair " +:+ p +:+ " not defined")]))
    /\ (forall strain_1 strain_2,
          of_pair p df <> [] ->
          lookup_pair ("Pair" +:+ p) (TwelveWell.strain_pairs a)
          = Some (strain_1, strain_2) ->
          exists fig,
            charts (remove_char "_" strain_1) (remove_char "_" strain_2) (of_pair p df)
            = Some fig
            /\ (forall e, savefig file = Raise e ->
                  TwelveWell.create_pair_plot p a = (Raise e, a, []))
            /\ (savefig file = Ok tt ->
                  TwelveWell.create_pair_plot p a
                  = (Ok tt, a,
                     [Saved file fig;
                      Printed ("Plot saved as Images/12well_Pair" +:+ p
                                 +:+ "_competition.png")])
                  /\ "Images/12well_Pair" +:+ p +:+ "_competition.png" <> file)).
Proof.
  intros out a p df Hdf file.
  pose proof (twelve_create_pair_plot_value a p df Hdf) as Hv.
  split; [|split; [|split]].
  - intros ->. exact Hv.
  - intros Hne Hpd. destruct df as [|r df]; [contradiction|].
    rewrite Hpd in Hv. exact Hv.
  - intros Hpd Hlook. destruct df as [|r df]; [exfalso; apply Hpd; reflexivity|].
    destruct (of_pair p (r :: df)) as [|r' pd]; [contradiction|].
    rewrite Hlook in Hv. exact Hv.
  - intros strain_1 strain_2 Hpd Hlook.
    destruct (charts_is_Some (remove_char "_" strain_1) (remove_char "_" strain_2)
                (of_pair p df)) as (fig & Hch).
    exists fig. split; [exact Hch|].
    destruct df as [|r df]; [exfalso; apply Hpd; reflexivity|].
    destruct (of_pair p (r :: df)) as [|r' pd] eqn:Hof; [contradiction|].
    rewrite Hlook, Hch in Hv. fold file in Hv. split.
    + intros e He. rewrite He in Hv. exact Hv.
    + intros Hok. rewrite Hok in Hv. split; [exact Hv|].
      unfold file. discriminate.
Qed.

Lemma create_pair_plot_outcomes_witness :
  let df := [Record_ "P3B3" 3 "1" "YPD" 1 "2"; Record_ "X" 2 "1" "YPD" 1 "2"] in
  let e := "FileNotFoundError: [Errno 2] No such file or directory: "
             +:+ "'Images/Pair1_competition.png'" in
  returned (TwelveWell.process_all_data Examples.twelve_analyzer) = Ok df
  /\ of_pair "1" df <> []
  /\ lookup_pair "Pair1" (TwelveWell.strain_pairs Examples.twelve_analyzer)
     = Some ("P3_B3", "P3_H1")
  /\ savefig (Output := Examples.no_images_dir) "Images/Pair1_competition.png" = Raise e
  /\ TwelveWell.create_pair_plot (H := Examples.no_images_dir) "1" Examples.twelve_analyzer
     = (Raise e, Examples.twelve_analyzer, []).
Proof.
  intros df e.
  assert (Hdf : returned (TwelveWell.process_all_data Examples.twelve_analyzer) = Ok df)
    by (rewrite twelve_process_all_data; vm_compute; reflexivity).
  assert (Hpd : of_pair "1" df <> []) by (vm_compute; discriminate).
  assert (Hlook : lookup_pair "Pair1" (TwelveWell.strain_pairs Examples.twelve_analyzer)
                  = Some ("P3_B3", "P3_H1")) by reflexivity.
  assert (He : savefig (Output := Examples.no_images_dir) "Images/Pair1_competition.png"
               = Raise e) by reflexivity.
  split; [exact Hdf|]. split; [exact Hpd|]. split; [exact Hlook|]. split; [exact He|].
  destruct (proj2 (proj2 (proj2
              (create_pair_plot_outcomes (H := Examples.no_images_dir)
                 Examples.twelve_analyzer "1" df Hdf)))
              "P3_B3" "P3_H1" Hpd Hlook) as (fig & _ & Hraise & _).
  exact (Hraise e He).
Defined.

Lemma twelve_create_pair_plot_events `{Output} p a :
  Forall not_exported (events (TwelveWell.create_pair_plot p a)).
Proof.
  rewrite (twelve_create_pair_plot_value a p _ (f_equal fst (f_equal fst
             (twelve_process_all_data a)))).
  destruct (TwelveWell.process_columns _ _).1; [constructor|].
  destruct (of_pair p _); [repeat constructor|].
  destruct (lookup_pair _ _) as [[s1 s2]|]; [|repeat constructor].
  destruct (charts _ _ _); [|constructor].
  destruct (savefig _); repeat constructor.
Qed.

(** The loop over the pairs never exports, however it ends. *)
Lemma twelve_for_pairs_events body nums :
  (forall n s, Forall not_exported (events (body n s))) ->
  forall a, Forall not_exported (events (TwelveWell.for_pairs body nums a)).
Proof.
  intros Hb. induction nums as [|n nums IH]; intros a; cbn [TwelveWell.for_pairs].
  - constructor.
  - rewrite events_bind. apply Forall_app. split; [apply Hb|].
    destruct (returned (body n a)); [apply IH | constructor].
Qed.

Lemma twelve_analyze_events `{Output} a :
  Forall not_exported (events (TwelveWell.analyze_all_12well_pairs a)).
Proof.
  unfold TwelveWell.analyze_all_12well_pairs. apply twelve_for_pairs_events.
  intros n s.
  destruct (announced "" ("Processing Pair " +:+ n +:+ "...")
              (TwelveWell.create_pair_plot n) s) as (_ & _ & R3).
  rewrite R3. repeat (constructor; [exact I|]). apply twelve_create_pair_plot_events.
Qed.

Lemma twelve_for_pairs_ok body nums a :
  (forall n, n ∈ nums ->
             returned (body n a) = Ok tt /\ self_after (body n a) = a) ->
  returned (TwelveWell.for_pairs body nums a) = Ok tt.
Proof.
  induction nums as [|n nums IH]; intros Hb; cbn [TwelveWell.for_pairs].
  - reflexivity.
  - destruct (Hb n) as (H1 & H2); [left|].
    rewrite returned_bind, H1, H2. apply IH.
    intros k Hk. apply Hb. right. exact Hk.
Qed.

Lemma twelve_analyze_all_pairs_ok `{Output} a df :
  returned (TwelveWell.process_all_data a) = Ok df -> df <> [] ->
  (forall p, p ∈ ["1"; "2"; "8"] -> of_pair p df <> [] ->
             savefig ("Images/Pair" +:+ p +:+ "_competition.png") = Ok tt) ->
  returned (TwelveWell.analyze_all_12well_pairs a) = Ok tt
  /\ self_after (TwelveWell.analyze_all_12well_pairs a) = a.
Proof.
  intros Hdf Hne Hsave.
  pose proof (twelve_call_self TwelveWell.AnalyzeAll12WellPairs a) as Hself.
  cbn [TwelveWell.call] in Hself. split; [|exact Hself].
  unfold TwelveWell.analyze_all_12well_pairs. apply twelve_for_pairs_ok. intros n Hn.
  destruct (announced "" ("Processing Pair " +:+ n +:+ "...")
              (TwelveWell.create_pair_plot n) a) as (R1 & R2 & _).
  rewrite R1, R2. split; [|apply twelve_create_pair_plot_self].
  rewrite (twelve_create_pair_plot_value a n df Hdf).
  destruct df as [|r df]; [contradiction|].
  destruct (of_pair n (r :: df)) as [|r' pd] eqn:Hof; [reflexivity|].
  destruct (lookup_pair _ _) as [[s1 s2]|]; [|reflexivity].
  destruct (charts_is_Some (remove_char "_" s1) (remove_char "_" s2) (r' :: pd))
    as (fig & Hch).
  assert (Hs : savefig ("Images/Pair" +:+ n +:+ "_competition.png") = Ok tt).
  { apply (Hsave n Hn). rewrite Hof. discriminate. }
  rewrite Hch, Hs. reflexivity.
Qed.

(** The loop stops at pair 1 when its plot raises. *)
Lemma twelve_analyze_all_pairs_stops `{Output} a e :
  returned (TwelveWell.create_pair_plot "1" a) = Raise e ->
  events (TwelveWell.create_pair_plot "1" a) = [] ->
  returned (TwelveWell.analyze_all_12well_pairs a) = Raise e
  /\ events (TwelveWell.analyze_all_12well_pairs a)
     = [Printed ""; Printed "Processing Pair 1..."].
Proof.
  intros Hret Hev.
  destruct (announced "" ("Processing Pair " +:+ "1" +:+ "...")
              (TwelveWell.create_pair_plot "1") a) as (R1 & _ & R3).
  unfold TwelveWell.analyze_all_12well_pairs. cbn [TwelveWell.for_pairs]. split.
  - rewrite returned_bind, R1, Hret. reflexivity.
  - rewrite events_bind, R1, R3, Hret, Hev, app_nil_r. reflexivity.
Qed.

Lemma twelve_export_value `{Output} file a df :
  returned (TwelveWell.process_all_data a) = Ok df ->
  TwelveWell.export_processed_data file a
  = match to_csv file with
    | Ok _ => (Ok df, a, [Exported file df; Printed ("Data exported to " +:+ file)])
    | Raise e => (Raise e, a, [])
    end.
Proof.
  intros Hdf. unfold TwelveWell.export_processed_data, bindM.
  rewrite (twelve_process_all_data_value a df Hdf). cbv beta iota.
  unfold write. destruct (to_csv file) as [[]|e]; reflexivity.
Qed.

(** X18. What [main] of the 12-well script does. If the constructor
    raises, [main] raises with it and prints nothing; otherwise the output
    starts with the line of the constructor, which gives the number of
    plate-map entries. If the frame of [process_all_data] is empty, [main]
    raises [KeyError] at pair 1. If pair 1 has records and its figure
    cannot be saved (there is no [Images] directory, say), [main] raises
    the exception of [savefig] at pair 1. In both cases the output is the
    constructor's line and the two lines that announce pair 1. If the frame
    has a record, every figure of a pair among 1, 2, 8 that has records can
    be saved and the CSV file can be written, [main] returns normally and
    its last two events are the export of exactly that frame to
    [12well_competition_data.csv] and the line that says so, with no other
    export. Whenever [main] raises, nothing has been exported. *)
Theorem twelve_main_exports_the_frame :
  forall `{Output} (d : disk),
    (forall exn,
        TwelveWell.__init__ d "barcodecounts_clean.csv" "Coexistance_Assay_plate_map.csv"
        = Raise exn ->
        TwelveWell.main d = (Raise exn, []))
    /\ (forall a evs0 df,
          TwelveWell.__init__ d "barcodecounts_clean.csv" "Coexistance_Assay_plate_map.csv"
          = Ok (a, evs0) ->
          returned (TwelveWell.process_all_data a) = Ok df ->
          let loaded :=
            Printed ("Loaded " +:+ Py.str_nat (size (TwelveWell.plate_map a))
                       +:+ " wells from 12-well plates") in
          (TwelveWell.main d).2 = loaded :: List.tl (TwelveWell.main d).2
          /\ (df = [] ->
              TwelveWell.main d
              = (Raise "KeyError: 'pair'",
                 [loaded; Printed ""; Printed "Processing Pair 1..."]))
          /\ (forall e,
                of_pair "1" df <> [] ->
                savefig "Images/Pair1_competition.png" = Raise e ->
                TwelveWell.main d
                = (Raise e, [loaded; Printed ""; Printed "Processing Pair 1..."]))
          /\ (df <> [] ->
              (forall p, p ∈ ["1"; "2"; "8"] -> of_pair p df <> [] ->
                         savefig ("Images/Pair" +:+ p +:+ "_competition.png") = Ok tt) ->
              to_csv "12well_competition_data.csv" = Ok tt ->
              (TwelveWell.main d).1 = Ok tt
              /\ exists evs,
                   (TwelveWell.main d).2
                   = evs ++ [Exported "12well_competition_data.csv" df;
                             Printed "Data exported to 12well_competition_data.csv"]
                   /\ Forall not_exported evs)
          /\ (forall e, (TwelveWell.main d).1 = Raise e ->
                        Forall not_exported (TwelveWell.main d).2)).
Proof.
  intros out d. split.
  { intros exn Hinit. unfold TwelveWell.main. rewrite Hinit. reflexivity. }
  intros a evs0 df Hinit Hdf loaded.
  assert (Ha : evs0 = [loaded]
               /\ TwelveWell.strain_pairs a = TwelveWell.the_strain_pairs).
  { unfold TwelveWell.__init__, TwelveWell._load_plate_map, mbind, result_bind, Py.bind
      in Hinit.
    destruct (read_counts d _); [|discriminate].
    destruct (read_plate_map d _); [|discriminate].
    cbn [fst snd] in Hinit. injection Hinit as Ha <-. subst loaded. rewrite <- Ha.
    split; reflexivity. }
  destruct Ha as [-> Hpairs].
  set (run := (exec TwelveWell.analyze_all_12well_pairs;
               exec TwelveWell.export_processed_data "12well_competition_data.csv";
               ret tt) : M unit).
  assert (Hmain : TwelveWell.main d = (returned (run a), [loaded] ++ events (run a))).
  { unfold TwelveWell.main. rewrite Hinit. fold run.
    destruct (run a) as [[r s'] evs]. reflexivity. }
  rewrite Hmain. cbn [fst snd]. clear Hmain.
  assert (Hstop : forall e,
             TwelveWell.create_pair_plot "1" a = (Raise e, a, []) ->
             (returned (run a), [loaded] ++ events (run a))
             = (Raise e, [loaded; Printed ""; Printed "Processing Pair 1..."])).
  { intros e Hv.
    destruct (twelve_analyze_all_pairs_stops a e) as [Hs1 Hs2];
      [rewrite Hv; reflexivity | rewrite Hv; reflexivity|].
    unfold run. rewrite returned_bind, events_bind, Hs1, Hs2, app_nil_r. reflexivity. }
  split; [reflexivity|]. split; [|split; [|split]].
  - intros ->. apply Hstop.
    exact (proj1 (create_pair_plot_value_cases a "1" [] Hdf) eq_refl).
  - intros e Hpd He. apply Hstop.
    destruct (proj2 (create_pair_plot_value_cases a "1" df Hdf) "P3_B3" "P3_H1" Hpd)
      as [Hraise _]; [rewrite Hpairs; reflexivity|].
    exact (Hraise e He).
  - intros Hne Hsave Hcsv.
    destruct (twelve_analyze_all_pairs_ok a df Hdf Hne Hsave) as (Ha1 & Ha2).
    unfold run. rewrite returned_bind, events_bind, Ha1, Ha2.
    rewrite returned_bind, events_bind,
      (twelve_export_value "12well_competition_data.csv" a df Hdf), Hcsv.
    unfold returned at 1 2, self_after, events at 2 3. cbn [fst snd].
    split; [reflexivity|].
    exists ([loaded] ++ events (TwelveWell.analyze_all_12well_pairs a)).
    split.
    + unfold ret, events at 2. cbn [snd]. rewrite app_nil_r, <- !app_assoc. reflexivity.
    + apply Forall_app. split; [repeat constructor | apply twelve_analyze_events].
  - intros e Hraise. constructor; [exact I|].
    unfold run in *. rewrite events_bind. rewrite returned_bind in Hraise.
    apply Forall_app. split; [apply twelve_analyze_events|].
    destruct (returned (TwelveWell.analyze_all_12well_pairs a)); [|constructor].
    rewrite (twelve_call_self TwelveWell.AnalyzeAll12WellPairs a : self_after
               (TwelveWell.analyze_all_12well_pairs a) = a) in *.
    rewrite events_bind. rewrite returned_bind in Hraise.
    rewrite (twelve_export_value "12well_competition_data.csv" a df Hdf) in *.
    destruct (to_csv _) as [[]|e'].
    + unfold returned, self_after in Hraise. cbn [fst snd] in Hraise. discriminate.
    + constructor.
Qed.

Lemma twelve_main_exports_the_frame_witness :
  let d := Disk (fun _ => Ok Examples.count_table) (fun _ => Ok Examples.plate_rows) in
  let a := TwelveWell.Analyzer "barcodecounts_clean.csv" "Coexistance_Assay_plate_map.csv"
             Examples.count_table Examples.twelve_plate_map
             TwelveWell.the_strain_pairs TwelveWell.the_strain_colors in
  let df := [Record_ "P3B3" 3 "1" "YPD" 1 "2"; Record_ "X" 2 "1" "YPD" 1 "2"] in
  let e := "FileNotFoundError: [Errno 2] No such file or directory: "
             +:+ "'Images/Pair1_competition.png'" in
  (exists evs0,
      TwelveWell.__init__ d "barcodecounts_clean.csv" "Coexistance_Assay_plate_map.csv"
      = Ok (a, evs0))
  /\ returned (TwelveWell.process_all_data a) = Ok df
  /\ (of_pair "1" df <> []
      /\ savefig (Output := Examples.no_images_dir) "Images/Pair1_competition.png" = Raise e
      /\ TwelveWell.main (H := Examples.no_images_dir) d
         = (Raise e, [Printed "Loaded 1 wells from 12-well plates";
                      Printed ""; Printed "Processing Pair 1..."]))
  /\ (df <> []
      /\ to_csv (Output := Examples.writable) "12well_competition_data.csv" = Ok tt
      /\ (TwelveWell.main (H := Examples.writable) d).1 = Ok tt).
Proof.
  intros d a df e.
  assert (Hinit : TwelveWell.__init__ d "barcodecounts_clean.csv"
                    "Coexistance_Assay_plate_map.csv"
                  = Ok (a, [Printed "Loaded 1 wells from 12-well plates"]))
    by (vm_compute; reflexivity).
  assert (Hdf : returned (TwelveWell.process_all_data a) = Ok df)
    by (rewrite twelve_process_all_data; vm_compute; reflexivity).
  assert (Hpd : of_pair "1" df <> []) by (vm_compute; discriminate).
  assert (Hne : df <> []) by discriminate.
  assert (He : savefig (Output := Examples.no_images_dir) "Images/Pair1_competition.png"
               = Raise e) by reflexivity.
  split; [eexists; exact Hinit|]. split; [exact Hdf|]. split.
  - split; [exact Hpd|]. split; [exact He|].
    exact (proj1 (proj2 (proj2
             (proj2 (twelve_main_exports_the_frame (H := Examples.no_images_dir) d)
                a _ df Hinit Hdf))) e Hpd He).
  - split; [exact Hne|]. split; [reflexivity|].
    exact (proj1 (proj1 (proj2 (proj2 (proj2
             (proj2 (twelve_main_exports_the_frame (H := Examples.writable) d)
                a _ df Hinit Hdf)))) Hne (fun _ _ _ => eq_refl) eq_refl)).
Defined.

End PipelineExtras.

(** ** The grouped table *)

Section GroupBy.
Import Py Frames.

Lemma ascii_compare_lt_trans a b c :
  Ascii.compare a b = Lt -> Ascii.compare b c = Lt -> Ascii.compare a c = Lt.
Proof.
  unfold Ascii.compare. intros H1 H2.
  apply N.compare_lt_iff in H1, H2. apply N.compare_lt_iff.
  exact (N.lt_trans _ _ _ H1 H2).
Qed.

Lemma string_compare_lt_trans a : forall b c,
  String.compare a b = Lt -> String.compare b c = Lt -> String.compare a c = Lt.
Proof.
  induction a as [|x a IH]; intros [|y b] [|z c]; simpl; try discriminate; try reflexivity.
  destruct (Ascii.compare x y) eqn:Exy; try discriminate;
    destruct (Ascii.compare y z) eqn:Eyz; try discriminate.
  - apply Ascii.compare_eq_iff in Exy, Eyz. subst.
    assert (Hzz : Ascii.compare z z = Eq)
      by (unfold Ascii.compare; apply N.compare_refl).
    rewrite Hzz. apply IH.
  - apply Ascii.compare_eq_iff in Exy. subst. rewrite Eyz. reflexivity.
  - apply Ascii.compare_eq_iff in Eyz. subst. rewrite Exy. reflexivity.
  - rewrite (ascii_compare_lt_trans x y z Exy Eyz). reflexivity.
Qed.

Lemma key_compare_eq a b : key_compare a b = Eq -> a = b.
Proof.
  destruct a as [[t1 r1] b1], b as [[t2 r2] b2]. unfold key_compare. cbn [fst snd].
  destruct (Z.compare t1 t2) eqn:Et; try discriminate.
  destruct (String.compare r1 r2) eqn:Er; try discriminate.
  intros Eb. apply Z.compare_eq in Et. apply String.compare_eq_iff in Er, Eb.
  subst. reflexivity.
Qed.

Lemma key_compare_refl a : key_compare a a = Eq.
Proof.
  destruct a as [[t r] b]. unfold key_compare. cbn [fst snd].
  rewrite Z.compare_refl, !compare_refl_string. reflexivity.
Qed.

Lemma key_compare_antisym a b : key_compare b a = CompOpp (key_compare a b).
Proof.
  destruct a as [[t1 r1] b1], b as [[t2 r2] b2]. unfold key_compare. cbn [fst snd].
  rewrite (Z.compare_antisym t1 t2), (String.compare_antisym r2 r1),
    (String.compare_antisym b2 b1).
  destruct (Z.compare t1 t2); cbn [CompOpp]; try reflexivity.
  destruct (String.compare r1 r2); cbn [CompOpp]; reflexivity.
Qed.

Lemma key_compare_lt_trans a b c :
  key_compare a b = Lt -> key_compare b c = Lt -> key_compare a c = Lt.
Proof.
  destruct a as [[t1 r1] b1], b as [[t2 r2] b2], c as [[t3 r3] b3].
  unfold key_compare. cbn [fst snd].
  destruct (Z.compare t1 t2) eqn:E12; try discriminate;
    destruct (Z.compare t2 t3) eqn:E23; try discriminate.
  - apply Z.compare_eq in E12, E23. subst. rewrite Z.compare_refl.
    destruct (String.compare r1 r2) eqn:R12; try discriminate;
      destruct (String.compare r2 r3) eqn:R23; try discriminate.
    + apply String.compare_eq_iff in R12, R23. subst. rewrite compare_refl_string.
      apply string_compare_lt_trans.
    + apply String.compare_eq_iff in R12. subst. rewrite R23. reflexivity.
    + apply String.compare_eq_iff in R23. subst. rewrite R12. reflexivity.
    + rewrite (string_compare_lt_trans _ _ _ R12 R23). reflexivity.
  - apply Z.compare_eq in E12. subst. rewrite E23. reflexivity.
  - apply Z.compare_eq in E23. subst. rewrite E12. reflexivity.
  - assert (H : Z.compare t1 t3 = Lt).
    { apply Z.compare_lt_iff. apply Z.compare_lt_iff in E12. apply Z.compare_lt_iff in E23.
      exact (Z.lt_trans _ _ _ E12 E23). }
    rewrite H. reflexivity.
Qed.

Lemma add_to_groups_sorted k f l :
  Sorted (fun r r' => key_compare (gkey r) (gkey r') = Lt) l ->
  Sorted (fun r r' => key_compare (gkey r) (gkey r') = Lt) (add_to_groups k f l).
Proof.
  assert (Hk : (k.1.1, k.1.2, k.2) = k) by (destruct k as [[? ?] ?]; reflexivity).
  induction 1 as [|r l Hs IH Hhd]; simpl.
  - repeat constructor.
  - destruct (key_compare k (gkey r)) eqn:E.
    + apply key_compare_eq in E. constructor; [exact Hs|].
      destruct Hhd as [|r' l' Hrr']; constructor.
      unfold gkey at 1. simpl. rewrite Hk, E. exact Hrr'.
    + constructor; [constructor; assumption|]. constructor.
      unfold gkey at 1. simpl. rewrite Hk. exact E.
    + constructor; [exact IH|].
      assert (Hrk : key_compare (gkey r) k = Lt).
      { rewrite key_compare_antisym, E. reflexivity. }
      destruct l as [|r' l']; simpl.
      * constructor. unfold gkey at 2. simpl. rewrite Hk. exact Hrk.
      * inversion Hhd as [|? ? Hrr']; subst.
        destruct (key_compare k (gkey r')) eqn:E'; constructor.
        -- unfold gkey at 2. simpl. rewrite Hk. exact Hrk.
        -- unfold gkey at 2. simpl. rewrite Hk. exact Hrk.
        -- exact Hrr'.
Qed.

Lemma foldl_Qplus a l : (foldl Qplus a l == a + foldl Qplus 0 l)%Q.
Proof.
  revert a. induction l as [|x l IH]; intros a; simpl.
  - ring.
  - rewrite (IH (a + x)%Q), (IH (0 + x)%Q). ring.
Qed.

Lemma sum_cons x l : (sum (x :: l) == x + sum l)%Q.
Proof. unfold sum. simpl. rewrite foldl_Qplus. ring. Qed.

Lemma key_lt_transitive :
  Relations_1.Transitive (fun r r' : grow => key_compare (gkey r) (gkey r') = Lt).
Proof. intros x y z. apply key_compare_lt_trans. Qed.

Lemma strongly_sorted_NoDup l :
  StronglySorted (fun r r' => key_compare (gkey r) (gkey r') = Lt) l ->
  NoDup (List.map gkey l).
Proof.
  induction 1 as [|r l Hs IH Hall]; simpl; constructor; [|exact IH].
  intros Hin. apply list_elem_of_In, in_map_iff in Hin as (x & Hx & Hin).
  rewrite Forall_forall in Hall. specialize (Hall x (proj2 (list_elem_of_In _ _) Hin)).
  rewrite Hx, key_compare_refl in Hall. discriminate.
Qed.

Lemma groupby_acc_sorted data : forall acc,
  Sorted (fun r r' => key_compare (gkey r) (gkey r') = Lt) acc ->
  Sorted (fun r r' => key_compare (gkey r) (gkey r') = Lt)
         (foldl (fun acc r => add_to_groups (timepoint r, replicate r, barcode r)
                                            (frequency r) acc) acc data).
Proof.
  induction data as [|r data IH]; intros acc Hs; cbn [foldl]; [exact Hs|].
  apply IH, add_to_groups_sorted, Hs.
Qed.

(** The grouped table has one row for each key. *)
Lemma groupby_sum_NoDup (data : list record) :
  NoDup (List.map gkey (groupby_sum data)).
Proof.
  apply strongly_sorted_NoDup, Sorted_StronglySorted; [exact key_lt_transitive|].
  apply groupby_acc_sorted. constructor.
Qed.

Lemma filter_map_comm (P : grow -> bool) (f : grow -> grow) (l : list grow) :
  (forall r, P (f r) = P r) ->
  List.filter P (List.map f l) = List.map f (List.filter P l).
Proof.
  intros HP. induction l as [|r l IH]; simpl; [reflexivity|].
  rewrite HP, IH. destruct (P r); reflexivity.
Qed.

Lemma group_barcodes_NoDup tp rep l :
  NoDup (List.map gkey l) ->
  NoDup (List.map g_barcode (List.filter (mask tp rep) l)).
Proof.
  induction l as [|r l IH]; intros Hnd; simpl; [constructor|].
  simpl in Hnd. apply NoDup_cons in Hnd as [Hr Hnd].
  destruct (mask tp rep r) eqn:E; [|exact (IH Hnd)].
  simpl. constructor; [|exact (IH Hnd)].
  intros Hin. apply Hr.
  apply list_elem_of_In, in_map_iff in Hin as (x & Hb & Hx).
  apply filter_In in Hx as [Hx Hm].
  apply mask_true in E as [Et Er]. apply mask_true in Hm as [Ht Hr'].
  apply list_elem_of_In, in_map_iff. exists x. split; [|exact Hx].
  unfold gkey. rewrite Hb, Ht, Hr', Et, Er. reflexivity.
Qed.

Lemma strain_freq_absent G e :
  existsb (has_barcode e) G = false -> strain_freq G e = 0%Q.
Proof.
  intros H. unfold strain_freq.
  assert (Hf : List.filter (has_barcode e) G = []).
  { induction G as [|r G IH]; [reflexivity|]. simpl in *.
    apply orb_false_iff in H as [Hr H]. rewrite Hr. exact (IH H). }
  rewrite Hf. reflexivity.
Qed.

Lemma existsb_has_barcode b G :
  existsb (has_barcode b) G = true <-> b ∈ List.map g_barcode G.
Proof.
  rewrite existsb_exists, list_elem_of_In, in_map_iff. unfold has_barcode.
  split; intros (x & H1 & H2).
  - exists x. apply String.eqb_eq in H2. split; assumption.
  - exists x. split; [exact H2|]. apply String.eqb_eq, H1.
Qed.

Lemma sum_two_strains e1 e2 (c1 c2 : Q) G :
  e1 <> e2 ->
  NoDup (List.map g_barcode G) ->
  (sum (List.map (fun r => if has_barcode e2 r then c2
                           else if has_barcode e1 r then c1 else 0) G)
   == (if existsb (has_barcode e2) G then c2 else 0)
      + (if existsb (has_barcode e1) G then c1 else 0))%Q.
Proof.
  intros Hne. induction G as [|r G IH]; intros Hnd.
  - simpl. unfold sum. simpl. ring.
  - simpl in Hnd. apply NoDup_cons in Hnd as [Hr Hnd].
    cbn [List.map existsb]. rewrite sum_cons, (IH Hnd).
    destruct (has_barcode e2 r) eqn:E2.
    + assert (E1 : has_barcode e1 r = false).
      { unfold has_barcode in *. apply String.eqb_eq in E2. apply String.eqb_neq.
        rewrite E2. intros H. apply Hne. symmetry. exact H. }
      rewrite E1. cbn [orb].
      assert (Ha : existsb (has_barcode e2) G = false).
      { apply not_true_is_false. intros H. apply existsb_has_barcode in H.
        unfold has_barcode in E2. apply String.eqb_eq in E2. rewrite <- E2 in H.
        exact (Hr H). }
      rewrite Ha. ring.
    + cbn [orb]. destruct (has_barcode e1 r) eqn:E1.
      * cbn [orb].
        assert (Ha : existsb (has_barcode e1) G = false).
        { apply not_true_is_false. intros H. apply existsb_has_barcode in H.
          unfold has_barcode in E1. apply String.eqb_eq in E1. rewrite <- E1 in H.
          exact (Hr H). }
        rewrite Ha. ring.
      * cbn [orb]. ring.
Qed.

(** X17. With two distinct expected strains, a (timepoint, replicate) group
    of the grouped table whose two strain frequencies have a positive total
    holds, after the normalization, frequencies that add up to one. *)
Theorem normalized_group_sums_to_one :
  forall (e1 e2 : string) (data : list record) (tp : Z) (rep : string),
    e1 <> e2 ->
    (0 < strain_freq (List.filter (mask tp rep) (groupby_sum data)) e1
         + strain_freq (List.filter (mask tp rep) (groupby_sum data)) e2)%Q ->
    exists normalized,
      normalize e1 e2 (groupby_sum data) = Some normalized
      /\ (sum (List.map g_frequency (List.filter (mask tp rep) normalized)) == 1)%Q.
Proof.
  intros e1 e2 data tp rep Hne Hpos.
  rewrite normalize_rows. eexists. split; [reflexivity|].
  rewrite filter_map_comm by (intros r; apply mask_key, norm_row_key).
  rewrite List.map_map.
  pose proof (groupby_sum_NoDup data) as Hnd.
  pose proof (group_barcodes_NoDup tp rep _ Hnd) as HndG.
  set (grouped := groupby_sum data) in *.
  set (G := List.filter (mask tp rep) grouped) in *.
  set (s1 := strain_freq G e1) in *. set (s2 := strain_freq G e2) in *.
  assert (Hmap : List.map (fun r => g_frequency (norm_row e1 e2 grouped r)) G
                 = List.map (fun r => if has_barcode e2 r then (s2 / (s1 + s2))%Q
                                      else if has_barcode e1 r then (s1 / (s1 + s2))%Q
                                      else 0%Q) G).
  { apply List.map_ext_in. intros r Hr.
    apply filter_In in Hr as [_ Hm]. apply mask_true in Hm as [Ht Hr].
    unfold norm_row, group_s1, group_s2. rewrite Ht, Hr.
    fold G. fold s1. fold s2.
    destruct (Qlt_le_dec 0 (s1 + s2)) as [_|Hle]; [reflexivity|].
    exfalso. exact (Qlt_not_le _ _ Hpos Hle). }
  rewrite Hmap, (sum_two_strains e1 e2 _ _ G Hne HndG).
  assert (Hnz : ~ (s1 + s2 == 0)%Q).
  { intros E. rewrite E in Hpos. exact (Qlt_irrefl _ Hpos). }
  destruct (existsb (has_barcode e2) G) eqn:E2;
    destruct (existsb (has_barcode e1) G) eqn:E1.
  - field. exact Hnz.
  - assert (Hz : s1 = 0%Q) by exact (strain_freq_absent G e1 E1).
    rewrite Hz in *. field. intros E. apply Hnz. rewrite E. reflexivity.
  - assert (Hz : s2 = 0%Q) by exact (strain_freq_absent G e2 E2).
    rewrite Hz in *. field. intros E. apply Hnz. rewrite E. reflexivity.
  - exfalso. apply Hnz.
    assert (Hz1 : s1 = 0%Q) by exact (strain_freq_absent G e1 E1).
    assert (Hz2 : s2 = 0%Q) by exact (strain_freq_absent G e2 E2).
    rewrite Hz1, Hz2. reflexivity.
Qed.

Lemma normalized_group_sums_to_one_witness :
  "P3B3" <> "P3H1"
  /\ (0 < strain_freq
            (List.filter (mask 0 "1")
               (groupby_sum (cond_data (of_pair "1" Examples.strain_df) "YPD"))) "P3B3"
          + strain_freq
              (List.filter (mask 0 "1")
                 (groupby_sum (cond_data (of_pair "1" Examples.strain_df) "YPD"))) "P3H1")%Q
  /\ exists normalized,
       normalize "P3B3" "P3H1"
         (groupby_sum (cond_data (of_pair "1" Examples.strain_df) "YPD")) = Some normalized
       /\ (sum (List.map g_frequency (List.filter (mask 0 "1") normalized)) == 1)%Q.
Proof.
  assert (Hne : "P3B3" <> "P3H1") by discriminate.
  assert (Hpos : (0 < strain_freq
            (List.filter (mask 0 "1")
               (groupby_sum (cond_data (of_pair "1" Examples.strain_df) "YPD"))) "P3B3"
          + strain_freq
              (List.filter (mask 0 "1")
                 (groupby_sum (cond_data (of_pair "1" Examples.strain_df) "YPD"))) "P3H1")%Q)
    by (vm_compute; reflexivity).
  split; [exact Hne|]. split; [exact Hpos|].
  exact (normalized_group_sums_to_one "P3B3" "P3H1"
           (cond_data (of_pair "1" Examples.strain_df) "YPD") 0 "1" Hne Hpos).
Defined.

End GroupBy.
